(** * File-Renamer: a shallow embedding of [rename_images.py] and
      [gui_rename.py], and the properties of their rename plans.

    What the model takes from the platform:
    - Python strings are [string], one [ascii] per character; characters
      outside ASCII carry no case, are no digits and no white space.
      Python integers are [Z], without bound.
    - Paths follow [posixpath], and [os.rename] follows rename(2).
    - The file system is an association list from path strings to nodes,
      in the order in which the operating system lists them; a path is
      looked up as it is written (no normalisation of [.], [..], doubled
      separators or links).  A node is a regular file or a directory; a
      symbolic link stands for what it points to, and where the code asks
      whether a path is a link, the answer is a parameter.  Links without
      target and special files (FIFOs, sockets, devices) have no node.
    - The content of a file is its text: what is read was written as
      UTF-8 and decodes.
    - [str.format] and the [csv] module follow CPython 3.12.
    - An exception is a value: [None], or [Run.Raised]. *)

From Stdlib Require Import ZArith Ascii String List Bool Lia Sorted.
From stdpp Require Import base decidable option list strings pretty.

Local Open Scope string_scope.
Local Open Scope list_scope.
Local Open Scope Z_scope.

(** ** Builtins of Python's [str] and [int] that the program calls *)
Module Py.

(** [str(n)] for an integer. *)
Definition str (n : Z) : string := pretty n.

Fixpoint repeat_char (c : ascii) (k : nat) : string :=
  match k with
  | O => ""
  | S k' => String c (repeat_char c k')
  end.

Definition is_sign (c : ascii) : bool :=
  (Ascii.eqb c "+" || Ascii.eqb c "-")%bool.

Definition len (s : string) : Z := Z.of_nat (String.length s).

(** [s.zfill(width)]: zeros are inserted after a leading sign. *)
Definition zfill (s : string) (width : Z) : string :=
  if width <=? len s then s
  else
    let fill := repeat_char "0" (Z.to_nat (width - len s)) in
    match s with
    | String c r => if is_sign c then String c (fill +:+ r) else fill +:+ s
    | EmptyString => fill
    end.

(** [s.startswith(p)] *)
Fixpoint startswith (s p : string) {struct p} : bool :=
  match p with
  | EmptyString => true
  | String a p' =>
      match s with
      | EmptyString => false
      | String b s' => Ascii.eqb a b && startswith s' p'
      end
  end.

(** [s.endswith(e)] *)
Fixpoint endswith (s e : string) : bool :=
  if String.eqb s e then true
  else match s with
       | EmptyString => false
       | String _ r => endswith r e
       end.

(** [sub in s] *)
Fixpoint contains (sub s : string) : bool :=
  if startswith s sub then true
  else match s with
       | EmptyString => false
       | String _ r => contains sub r
       end.

Fixpoint drop (k : nat) (s : string) : string :=
  match k, s with
  | O, _ => s
  | S k', String _ r => drop k' r
  | S _, EmptyString => ""
  end.

(** [s.replace(old, new)] for a non-empty [old]: occurrences are replaced
    from the left and do not overlap.  [skip] counts the characters of a
    matched occurrence that are still to be passed over. *)
Fixpoint replace_go (old new : string) (skip : nat) (s : string) : string :=
  match s with
  | EmptyString => ""
  | String c r =>
      match skip with
      | S k => replace_go old new k r
      | O =>
          if startswith s old
          then new +:+ replace_go old new (Nat.pred (String.length old)) r
          else String c (replace_go old new O r)
      end
  end.

Fixpoint interleave (new s : string) : string :=
  match s with
  | EmptyString => new
  | String c r => new +:+ String c (interleave new r)
  end.

Definition replace (s old new : string) : string :=
  match old with
  | EmptyString => interleave new s
  | _ => replace_go old new O s
  end.

Definition is_upper (c : ascii) : bool :=
  let k := N_of_ascii c in ((65 <=? k) && (k <=? 90))%N.

Definition lower_char (c : ascii) : ascii :=
  if is_upper c then ascii_of_N (N_of_ascii c + 32) else c.

(** [s.lower()] *)
Fixpoint lower (s : string) : string :=
  match s with
  | EmptyString => ""
  | String c r => String (lower_char c) (lower r)
  end.

Definition is_digit (c : ascii) : bool :=
  let k := N_of_ascii c in ((48 <=? k) && (k <=? 57))%N.

(** [s.isdigit()]: false on the empty string. *)
Fixpoint all_digits (s : string) : bool :=
  match s with
  | EmptyString => true
  | String c r => is_digit c && all_digits r
  end.

Definition isdigit (s : string) : bool :=
  match s with
  | EmptyString => false
  | _ => all_digits s
  end.

(** White space of [str.strip()] within ASCII: tab, line feed, vertical
    tab, form feed, carriage return, the four separators 28..31, space. *)
Definition is_space (c : ascii) : bool :=
  let k := N_of_ascii c in
  (((9 <=? k) && (k <=? 13)) || ((28 <=? k) && (k <=? 32)))%N.

Fixpoint lstrip (s : string) : string :=
  match s with
  | String c r => if is_space c then lstrip r else s
  | EmptyString => ""
  end.

(** [rstrip] keeps a character when it is no space or when something that
    is kept follows it. *)
Fixpoint rstrip (s : string) : string :=
  match s with
  | EmptyString => ""
  | String c r =>
      match rstrip r with
      | EmptyString => if is_space c then "" else String c ""
      | r' => String c r'
      end
  end.

(** [s.strip()] *)
Definition strip (s : string) : string := rstrip (lstrip s).

(** [int(s)] on a run of decimal digits, most significant first. *)
Fixpoint int_of_digits (acc : Z) (s : string) : Z :=
  match s with
  | EmptyString => acc
  | String c r => int_of_digits (acc * 10 + Z.of_N (N_of_ascii c - 48)) r
  end.

(** Truth value of a string: non-empty. *)
Definition truthy (s : string) : bool :=
  match s with
  | EmptyString => false
  | _ => true
  end.

(** [s.split(c)] for a separator of one character: one more piece than
    there are separators. *)
Fixpoint split_on (c : ascii) (s : string) : list string :=
  match s with
  | EmptyString => [""]
  | String a r =>
      if Ascii.eqb a c then "" :: split_on c r
      else match split_on c r with
           | h :: t => String a h :: t
           | [] => [String a ""]
           end
  end.

End Py.

(** ** [os.path] on a POSIX system *)
Module PosixPath.

Definition sep : ascii := "/".
Definition extsep : ascii := ".".

(** [rsplit_at c p]: [p] cut after its last [c]; [Some (p[:i+1], p[i+1:])]
    for [i = p.rfind(c)], [None] when [c] does not occur. *)
Fixpoint rsplit_at (c : ascii) (p : string) : option (string * string) :=
  match p with
  | EmptyString => None
  | String a r =>
      match rsplit_at c r with
      | Some (h, t) => Some (String a h, t)
      | None => if Ascii.eqb a c then Some (String a "", r) else None
      end
  end.

(** [os.path.split(p)[0]] before its trailing separators are stripped, and
    [os.path.basename(p)]. *)
Definition split_raw (p : string) : string * string :=
  match rsplit_at sep p with
  | Some (h, t) => (h, t)
  | None => ("", p)
  end.

Definition basename (p : string) : string := snd (split_raw p).

Fixpoint all_char (c : ascii) (s : string) : bool :=
  match s with
  | EmptyString => true
  | String a r => Ascii.eqb a c && all_char c r
  end.

(** [head.rstrip('/')] *)
Fixpoint rstrip_sep (s : string) : string :=
  match s with
  | EmptyString => ""
  | String a r =>
      match rstrip_sep r with
      | EmptyString => if Ascii.eqb a sep then "" else String a ""
      | r' => String a r'
      end
  end.

(** [os.path.dirname(p)]: the head keeps its separators when it consists
    of separators only. *)
Definition dirname (p : string) : string :=
  let head := fst (split_raw p) in
  if all_char sep head then head else rstrip_sep head.

(** [os.path.join(a, b)] *)
Definition join (a b : string) : string :=
  if Py.startswith b "/" then b
  else if (negb (Py.truthy a) || Py.endswith a "/")%bool then a +:+ b
  else a +:+ "/" +:+ b.

(** [rcut c p]: [p] cut before its last [c]; [Some (p[:i], p[i:])] for
    [i = p.rfind(c)], [None] when [c] does not occur. *)
Fixpoint rcut (c : ascii) (p : string) : option (string * string) :=
  match p with
  | EmptyString => None
  | String a r =>
      match rcut c r with
      | Some (h, t) => Some (String a h, t)
      | None => if Ascii.eqb a c then Some ("", p) else None
      end
  end.

(** [os.path.splitext(p)]: the extension starts at the last dot of the last
    path component, unless only dots precede it in that component. *)
Definition splitext (p : string) : string * string :=
  let '(head, file) := split_raw p in
  match rcut extsep file with
  | Some (stem, ext) =>
      if all_char extsep stem then (p, "") else (head +:+ stem, ext)
  | None => (p, "")
  end.

End PosixPath.

(** ** The file system and the [os] calls of the program *)
Module Os.

Inductive node : Type :=
  | File (content : string) (mtime : Z)
  | Dir.

(** The entries are in the order in which [os.listdir] reports them; [clock]
    stamps the files that are written. *)
Record world : Type := World {
  entries : list (string * node);
  clock : Z
}.

Fixpoint find_entry (es : list (string * node)) (p : string) : option node :=
  match es with
  | [] => None
  | (q, nd) :: rest => if String.eqb q p then Some nd else find_entry rest p
  end.

Definition stat (w : world) (p : string) : option node := find_entry (entries w) p.

(** [os.path.exists] *)
Definition path_exists (w : world) (p : string) : bool :=
  match stat w p with Some _ => true | None => false end.

(** [os.path.isfile] *)
Definition isfile (w : world) (p : string) : bool :=
  match stat w p with Some (File _ _) => true | _ => false end.

(** [os.path.isdir] *)
Definition isdir (w : world) (p : string) : bool :=
  match stat w p with Some Dir => true | _ => false end.

(** [os.path.getmtime]; [None] is [OSError].  Only files carry a time in
    this model, and only files are asked for it. *)
Definition getmtime (w : world) (p : string) : option Z :=
  match stat w p with
  | Some (File _ t) => Some t
  | Some Dir => Some 0
  | None => None
  end.

Definition has_sep (s : string) : bool := Py.contains "/" s.

(** The prefix that [os.path.join d] puts before a relative name. *)
Definition dir_prefix (d : string) : string :=
  if (negb (Py.truthy d) || Py.endswith d "/")%bool then d else d +:+ "/".

(** The name under which the entry at path [p] is listed in directory [d]:
    [p] is [join d name] for a non-empty [name] without separator. *)
Definition child_name (d p : string) : option string :=
  if Py.startswith p (dir_prefix d) then
    let name := Py.drop (String.length (dir_prefix d)) p in
    if (Py.truthy name && negb (has_sep name))%bool then Some name else None
  else None.

(** [os.listdir(d)]; [None] is [OSError] ([d] is no directory). *)
Definition listdir (w : world) (d : string) : option (list string) :=
  if isdir w d then Some (omap (fun e => child_name d (fst e)) (entries w))
  else None.

Definition remove_entry (es : list (string * node)) (p : string) : list (string * node) :=
  filter (fun e => negb (String.eqb (fst e) p)) es.

(** The parent directory of a path that is created must exist; a path
    without directory part lies in the working directory. *)
Definition parent_ok (w : world) (p : string) : bool :=
  let d := PosixPath.dirname p in
  (negb (Py.truthy d) || isdir w d)%bool.

(** Entries below directory [p]. *)
Definition below (p q : string) : bool := Py.startswith q (p +:+ "/").

Definition rekey (src dst : string) (e : string * node) : string * node :=
  if String.eqb (fst e) src then (dst, snd e)
  else if below src (fst e) then (dst +:+ Py.drop (String.length src) (fst e), snd e)
  else e.

(** [os.rename(src, dst)] as rename(2) does it; [None] is [OSError].  A file
    replaces an existing file; a directory replaces an empty directory. *)
Definition rename (w : world) (src dst : string) : option world :=
  match stat w src with
  | None => None
  | Some nd =>
      if String.eqb src dst then Some w
      else if negb (parent_ok w dst) then None
      else
        let moved := map (rekey src dst) (remove_entry (entries w) dst) in
        match nd, stat w dst with
        | _, None => Some (World moved (clock w))
        | File _ _, Some (File _ _) => Some (World moved (clock w))
        | File _ _, Some Dir => None
        | Dir, Some (File _ _) => None
        | Dir, Some Dir =>
            if (existsb (fun e => below dst (fst e)) (entries w) || below src dst)%bool
            then None
            else Some (World moved (clock w))
        end
  end.

(** [open(p, "w")] followed by the writes of [text]; [None] is [OSError]. *)
Definition write_file (w : world) (p text : string) : option world :=
  match stat w p with
  | Some Dir => None
  | Some (File _ _) =>
      Some (World (map (fun e => if String.eqb (fst e) p
                                 then (p, File text (clock w)) else e) (entries w))
                  (clock w + 1))
  | None =>
      if (parent_ok w p && Py.truthy (PosixPath.basename p))%bool
      then Some (World (entries w ++ [(p, File text (clock w))]) (clock w + 1))
      else None
  end.

(** [open(p).read()] *)
Definition read_file (w : world) (p : string) : option string :=
  match stat w p with
  | Some (File text _) => Some text
  | _ => None
  end.

End Os.

(** ** [str.format] called as [pattern.format(n=n)] with an integer [n]

    The format-string syntax and the format-specification mini-language
    follow CPython 3.12 ([Objects/stringlib/unicode_format.h],
    [Python/formatter_unicode.c]).  [None] stands for a raised exception;
    all of them derive from [Exception].  Widths and integers are unbounded. *)
Module Fmt.

(** What lies beyond the integer presentation types interpreted here is left
    to the Python runtime, as a parameter of the development:
    - [field_access rest conv spec n] renders a replacement field that
      reaches into the integer, [{n.real}] or [{n[0]}] ([rest] is what
      follows the name [n]);
    - [format_int_other spec n] is [format(n, spec)] for a specification
      with digit grouping or one of the types [c], [n], [e], [E], [f], [F],
      [g], [G], [%]. *)
Record runtime : Type := Runtime {
  field_access : string -> option ascii -> string -> Z -> option string;
  format_int_other : string -> Z -> option string
}.

Inductive item : Type :=
  | Literal (text : string)
  | Field (name : string) (conv : option ascii) (spec : string) (expand : bool).

(** Where the scanner of the format string stands. *)
Inductive mode : Type :=
  | InText
  | InName (name : string)
  | InIndex (name : string)
  | InConv (name : string)
  | AfterConv (name : string) (cv : ascii)
  | InSpec (name : string) (conv : option ascii) (count : nat) (spec : string)
           (expand : bool).

Definition snoc (s : string) (c : ascii) : string := s +:+ String c "".

Definition emit (i : item) (rest : option (list item)) : option (list item) :=
  match rest with
  | Some l => Some (i :: l)
  | None => None
  end.

(** [MarkupIterator_next] and [parse_field], one character at a time. *)
Fixpoint parse (m : mode) (s : string) : option (list item) :=
  match s with
  | EmptyString =>
      match m with
      | InText => Some []
      | _ => None
      end
  | String c r =>
      match m with
      | InText =>
          if Ascii.eqb c "{" then
            match r with
            | EmptyString => None
            | String c' r' =>
                if Ascii.eqb c' "{" then emit (Literal "{") (parse InText r')
                else parse (InName "") r
            end
          else if Ascii.eqb c "}" then
            match r with
            | EmptyString => None
            | String c' r' =>
                if Ascii.eqb c' "}" then emit (Literal "}") (parse InText r')
                else None
            end
          else emit (Literal (String c "")) (parse InText r)
      | InName name =>
          if Ascii.eqb c "{" then None
          else if Ascii.eqb c "[" then parse (InIndex (snoc name c)) r
          else if Ascii.eqb c "}" then emit (Field name None "" false) (parse InText r)
          else if Ascii.eqb c ":" then parse (InSpec name None 1 "" false) r
          else if Ascii.eqb c "!" then parse (InConv name) r
          else parse (InName (snoc name c)) r
      | InIndex name =>
          if Ascii.eqb c "]" then parse (InName (snoc name c)) r
          else parse (InIndex (snoc name c)) r
      | InConv name => parse (AfterConv name c) r
      | AfterConv name cv =>
          if Ascii.eqb c "}" then emit (Field name (Some cv) "" false) (parse InText r)
          else if Ascii.eqb c ":" then parse (InSpec name (Some cv) 1 "" false) r
          else None
      | InSpec name conv count spec expand =>
          if Ascii.eqb c "{" then parse (InSpec name conv (S count) (snoc spec c) true) r
          else if Ascii.eqb c "}" then
            match count with
            | 1%nat => emit (Field name conv spec expand) (parse InText r)
            | S k => parse (InSpec name conv k (snoc spec c) expand) r
            | O => None
            end
          else parse (InSpec name conv count (snoc spec c) expand) r
      end
  end.

(** [field_name_split]: the part before the first [.] or [[], and the rest. *)
Fixpoint field_name_split (name : string) : string * string :=
  match name with
  | EmptyString => ("", "")
  | String c r =>
      if (Ascii.eqb c "." || Ascii.eqb c "[")%bool then ("", name)
      else let '(first, rest) := field_name_split r in (String c first, rest)
  end.

(** *** The format specification *)

Record spec : Type := Spec {
  fill_char : ascii;
  align : ascii;
  alternate : bool;
  no_neg_0 : bool;
  sign : option ascii;
  width : Z;                 (* -1: none *)
  thousands : option ascii;  (* [,] or [_] *)
  precision : Z;             (* -1: none *)
  type : ascii
}.

Definition is_alignment_token (c : ascii) : bool :=
  (Ascii.eqb c "<" || Ascii.eqb c ">" || Ascii.eqb c "=" || Ascii.eqb c "^")%bool.

Definition is_sign_element (c : ascii) : bool :=
  (Ascii.eqb c " " || Ascii.eqb c "+" || Ascii.eqb c "-")%bool.

(** [get_integer]: the value of the leading digits, the number of them, and
    what follows. *)
Fixpoint get_integer (acc : Z) (consumed : nat) (s : string) : Z * nat * string :=
  match s with
  | String c r =>
      if Py.is_digit c
      then get_integer (acc * 10 + Z.of_N (N_of_ascii c - 48)) (S consumed) r
      else (acc, consumed, s)
  | EmptyString => (acc, consumed, s)
  end.

Definition take_if (p : ascii -> bool) (s : string) : option ascii * string :=
  match s with
  | String c r => if p c then (Some c, r) else (None, s)
  | EmptyString => (None, s)
  end.

Definition is_char (a c : ascii) : bool := Ascii.eqb c a.

(** Types with which digit grouping is accepted. *)
Definition grouping_ok (sep : ascii) (ty : ascii) : bool :=
  (existsb (Ascii.eqb ty) (list_ascii_of_string "defgEG%F")
   || (Ascii.eqb sep "_" && existsb (Ascii.eqb ty) (list_ascii_of_string "boxX")))%bool.

(** [parse_internal_render_format_spec] *)
Definition parse_spec (s : string) (default_type default_align : ascii) : option spec :=
  (* fill and alignment *)
  let '(fill, algn, fill_given, align_given, s1) :=
    match s with
    | String f (String a r) =>
        if is_alignment_token a then (f, a, true, true, r)
        else if is_alignment_token f then (" "%char, f, false, true, String a r)
        else (" "%char, default_align, false, false, s)
    | String a r =>
        if is_alignment_token a then (" "%char, a, false, true, r)
        else (" "%char, default_align, false, false, s)
    | EmptyString => (" "%char, default_align, false, false, s)
    end in
  let '(sgn, s2) := take_if is_sign_element s1 in
  let '(z, s3) := take_if (is_char "z") s2 in
  let '(alt, s4) := take_if (is_char "#") s3 in
  (* the zero flag *)
  let '(fill, algn, s5) :=
    match take_if (is_char "0") s4 with
    | (Some _, r) =>
        if fill_given then (fill, algn, s4)
        else (("0"%char, if (negb align_given && Ascii.eqb default_align ">")%bool
                         then "="%char else algn), r)
    | (None, _) => (fill, algn, s4)
    end in
  let '(w, consumed, s6) := get_integer 0 O s5 in
  let w := match consumed with O => -1 | _ => w end in
  let '(comma, s7) := take_if (is_char ",") s6 in
  let '(under, s8) := take_if (is_char "_") s7 in
  if (bool_decide (comma <> None) && bool_decide (under <> None))%bool then None
  else if (bool_decide (under <> None) && Py.startswith s8 ",")%bool then None
  else
    let sep := match comma with Some c => Some c | None => under end in
    (* precision *)
    let prec :=
      match s8 with
      | String "." r =>
          let '(p, consumed, r') := get_integer 0 O r in
          match consumed with
          | O => None
          | _ => Some (p, r')
          end
      | _ => Some (-1, s8)
      end in
    match prec with
    | None => None
    | Some (p, s9) =>
        let ty :=
          match s9 with
          | EmptyString => Some default_type
          | String t EmptyString => Some t
          | _ => None
          end in
        match ty with
        | None => None
        | Some t =>
            let sp := Spec fill algn (bool_decide (alt <> None)) (bool_decide (z <> None))
                           sgn w sep p t in
            match sep with
            | Some c =>
                if grouping_ok c t then Some sp else None
            | None => Some sp
            end
        end
    end.

(** Padding of [calc_number_widths] and [calc_padding]: fill characters on
    the left, after the sign and prefix, and on the right. *)
Definition padding (algn : ascii) (n_padding : Z) : Z * Z * Z :=
  if n_padding <=? 0 then (0, 0, 0)
  else if Ascii.eqb algn "<" then (0, 0, n_padding)
  else if Ascii.eqb algn "^" then (n_padding / 2, 0, n_padding - n_padding / 2)
  else if Ascii.eqb algn "=" then (0, n_padding, 0)
  else (n_padding, 0, 0).

Definition fill_of (c : ascii) (k : Z) : string := Py.repeat_char c (Z.to_nat k).

Definition digit_char (upper : bool) (d : N) : ascii :=
  if (d <? 10)%N then ascii_of_N (48 + d)
  else ascii_of_N ((if upper then 55 else 87) + d).

Fixpoint to_base_go (fuel : nat) (upper : bool) (b n : N) (acc : string) : string :=
  match fuel with
  | O => acc
  | S f =>
      if (n =? 0)%N then acc
      else to_base_go f upper b (n / b) (String (digit_char upper (n mod b)) acc)
  end.

(** The digits of a natural number in base 2, 8 or 16. *)
Definition to_base (upper : bool) (b n : N) : string :=
  if (n =? 0)%N then "0" else to_base_go (S (N.size_nat n)) upper b n "".

(** [format_long_internal] for the types [d], [b], [o], [x], [X] without
    digit grouping. *)
Definition format_long (sp : spec) (n : Z) : option string :=
  if (negb (precision sp =? -1) || no_neg_0 sp)%bool then None
  else
    let t := type sp in
    let digits :=
      if Ascii.eqb t "b" then to_base false 2 (Z.abs_N n)
      else if Ascii.eqb t "o" then to_base false 8 (Z.abs_N n)
      else if Ascii.eqb t "x" then to_base false 16 (Z.abs_N n)
      else if Ascii.eqb t "X" then to_base true 16 (Z.abs_N n)
      else Py.str (Z.abs n) in
    let prefix :=
      if negb (alternate sp) then ""
      else if Ascii.eqb t "b" then "0b"
      else if Ascii.eqb t "o" then "0o"
      else if Ascii.eqb t "x" then "0x"
      else if Ascii.eqb t "X" then "0X"
      else "" in
    let sgn :=
      if n <? 0 then "-"
      else match sign sp with
           | Some "+"%char => "+"
           | Some " "%char => " "
           | _ => ""
           end in
    let '(l, s, r) :=
      padding (align sp) (width sp - Py.len sgn - Py.len prefix - Py.len digits) in
    Some (fill_of (fill_char sp) l +:+ sgn +:+ prefix +:+ fill_of (fill_char sp) s
          +:+ digits +:+ fill_of (fill_char sp) r).

Definition is_other_int_type (t : ascii) : bool :=
  existsb (Ascii.eqb t) (list_ascii_of_string "cneEfFgG%").

Definition is_long_type (t : ascii) : bool :=
  existsb (Ascii.eqb t) (list_ascii_of_string "dboxX").

(** [format(n, spec)] for an integer: [int.__format__]. *)
Definition format_int (rt : runtime) (s : string) (n : Z) : option string :=
  match s with
  | EmptyString => Some (Py.str n)
  | _ =>
      match parse_spec s "d" ">" with
      | None => None
      | Some sp =>
          if is_long_type (type sp) then
            match thousands sp with
            | None => format_long sp n
            | Some _ => format_int_other rt s n
            end
          else if is_other_int_type (type sp) then format_int_other rt s n
          else None
      end
  end.

Fixpoint take (k : nat) (s : string) : string :=
  match k, s with
  | S k', String c r => String c (take k' r)
  | _, _ => ""
  end.

(** [format(text, spec)] for a string: [str.__format__]. *)
Definition format_str (s : string) (text : string) : option string :=
  match s with
  | EmptyString => Some text
  | _ =>
      match parse_spec s "s" "<" with
      | None => None
      | Some sp =>
          if negb (Ascii.eqb (type sp) "s") then None
          else if (bool_decide (sign sp <> None) || no_neg_0 sp || alternate sp
                   || Ascii.eqb (align sp) "=")%bool then None
          else
            let text' :=
              if (0 <=? precision sp) && (precision sp <=? Py.len text)
              then take (Z.to_nat (precision sp)) text else text in
            let algn := align sp in
            let total := Z.max (width sp) (Py.len text') in
            let l := if Ascii.eqb algn ">" then total - Py.len text'
                     else if Ascii.eqb algn "^" then (total - Py.len text') / 2
                     else 0 in
            let r := total - Py.len text' - l in
            Some (fill_of (fill_char sp) l +:+ text' +:+ fill_of (fill_char sp) r)
      end
  end.

(** [output_markup]: look the field up, convert, expand the specification,
    render.  The only argument is the keyword [n]. *)
Definition render_field (rt : runtime) (expand_spec : string -> option string)
    (n : Z) (name : string) (conv : option ascii) (sp : string) (expand : bool)
    : option string :=
  let '(first, rest) := field_name_split name in
  if negb (String.eqb first "n") then None
  else
    match (if expand then expand_spec sp else Some sp) with
    | None => None
    | Some sp' =>
        match rest with
        | EmptyString =>
            match conv with
            | None => format_int rt sp' n
            | Some c =>
                if (Ascii.eqb c "r" || Ascii.eqb c "s" || Ascii.eqb c "a")%bool
                then format_str sp' (Py.str n)
                else None
            end
        | _ => field_access rt rest conv sp' n
        end
    end.

Fixpoint render_items (rt : runtime) (expand_spec : string -> option string)
    (n : Z) (items : list item) : option string :=
  match items with
  | [] => Some ""
  | Literal text :: rest =>
      match render_items rt expand_spec n rest with
      | Some out => Some (text +:+ out)
      | None => None
      end
  | Field name conv sp expand :: rest =>
      match render_field rt expand_spec n name conv sp expand,
            render_items rt expand_spec n rest with
      | Some out1, Some out2 => Some (out1 +:+ out2)
      | _, _ => None
      end
  end.

(** [build_string] at a recursion depth: a specification is expanded one
    level deep, a second level raises. *)
Definition build_string (rt : runtime) (expand_spec : string -> option string)
    (s : string) (n : Z) : option string :=
  match parse InText s with
  | Some items => render_items rt expand_spec n items
  | None => None
  end.

(** [pattern.format(n=n)] *)
Definition format (rt : runtime) (pattern : string) (n : Z) : option string :=
  build_string rt (fun sp => build_string rt (fun _ => None) sp n) pattern n.

End Fmt.

(** ** The [csv] module with the default dialect ([excel]): delimiter [,],
    quote character 34, doubled quotes, minimal quoting, line terminator
    CR LF; files opened with [newline=""] *)
Module Csv.

Definition quotechar : ascii := "034".
Definition delimiter : ascii := ",".
Definition CR : ascii := "013".
Definition LF : ascii := "010".

Definition special (c : ascii) : bool :=
  (Ascii.eqb c delimiter || Ascii.eqb c quotechar || Ascii.eqb c CR || Ascii.eqb c LF)%bool.

Fixpoint has_special (s : string) : bool :=
  match s with
  | EmptyString => false
  | String c r => (special c || has_special r)%bool
  end.

Fixpoint double_quotes (s : string) : string :=
  match s with
  | EmptyString => ""
  | String c r =>
      if Ascii.eqb c quotechar then String c (String c (double_quotes r))
      else String c (double_quotes r)
  end.

Definition quote_field (s : string) : string :=
  if has_special s then String quotechar (double_quotes s +:+ String quotechar "")
  else s.

Fixpoint join_fields (fields : list string) : string :=
  match fields with
  | [] => ""
  | [f] => quote_field f
  | f :: rest => quote_field f +:+ String delimiter (join_fields rest)
  end.

Definition lineterminator : string := String CR (String LF "").

(** [csv.writer(f).writerow(fields)]: the text written.  A row whose only
    field is empty is written as two quote characters. *)
Definition writerow (fields : list string) : string :=
  match fields with
  | [EmptyString] => String quotechar (String quotechar lineterminator)
  | _ => join_fields fields +:+ lineterminator
  end.

Fixpoint writerows (rows : list (list string)) : string :=
  match rows with
  | [] => ""
  | r :: rest => writerow r +:+ writerows rest
  end.

(** The states of the reader ([Modules/_csv.c]); the dialect has no escape
    character. *)
Inductive pstate : Type :=
  | START_RECORD | START_FIELD | IN_FIELD | IN_QUOTED_FIELD
  | QUOTE_IN_QUOTED_FIELD | EAT_CRNL.

Record parser : Type := Parser {
  state : pstate;
  field : string;
  fields : list string
}.

Definition fresh : parser := Parser START_RECORD "" [].

Definition save_field (p : parser) (st : pstate) : parser :=
  Parser st "" (fields p ++ [field p]).

Definition add_char (p : parser) (c : ascii) (st : pstate) : parser :=
  Parser st (field p +:+ String c "") (fields p).

Definition goto (p : parser) (st : pstate) : parser :=
  Parser st (field p) (fields p).

Definition is_newline (c : ascii) : bool := (Ascii.eqb c LF || Ascii.eqb c CR)%bool.

Definition start_field (p : parser) (c : option ascii) : parser :=
  match c with
  | None => save_field p START_RECORD
  | Some a =>
      if is_newline a then save_field p EAT_CRNL
      else if Ascii.eqb a quotechar then goto p IN_QUOTED_FIELD
      else if Ascii.eqb a delimiter then save_field p START_FIELD
      else add_char p a IN_FIELD
  end.

(** [parse_process_char]; the character [None] is the end of a line.  The
    result [None] is [csv.Error]. *)
Definition process (p : parser) (c : option ascii) : option parser :=
  match state p with
  | START_RECORD =>
      match c with
      | None => Some p
      | Some a =>
          if is_newline a then Some (goto p EAT_CRNL)
          else Some (start_field p c)
      end
  | START_FIELD => Some (start_field p c)
  | IN_FIELD =>
      match c with
      | None => Some (save_field p START_RECORD)
      | Some a =>
          if is_newline a then Some (save_field p EAT_CRNL)
          else if Ascii.eqb a delimiter then Some (save_field p START_FIELD)
          else Some (add_char p a IN_FIELD)
      end
  | IN_QUOTED_FIELD =>
      match c with
      | None => Some p
      | Some a =>
          if Ascii.eqb a quotechar then Some (goto p QUOTE_IN_QUOTED_FIELD)
          else Some (add_char p a IN_QUOTED_FIELD)
      end
  | QUOTE_IN_QUOTED_FIELD =>
      match c with
      | None => Some (save_field p START_RECORD)
      | Some a =>
          if Ascii.eqb a quotechar then Some (add_char p a IN_QUOTED_FIELD)
          else if Ascii.eqb a delimiter then Some (save_field p START_FIELD)
          else if is_newline a then Some (save_field p EAT_CRNL)
          else Some (add_char p a IN_FIELD)
      end
  | EAT_CRNL =>
      match c with
      | None => Some (goto p START_RECORD)
      | Some a => if is_newline a then Some p else None
      end
  end.

(** A line of the file ends after LF, and after a CR that no LF follows. *)
Definition ends_line (c : ascii) (rest : string) : bool :=
  (Ascii.eqb c LF || (Ascii.eqb c CR && negb (Py.startswith rest (String LF ""))))%bool.

Definition is_start_record (st : pstate) : bool :=
  match st with START_RECORD => true | _ => false end.

Definition is_in_quoted (st : pstate) : bool :=
  match st with IN_QUOTED_FIELD => true | _ => false end.

(** [csv.reader(f)]: the reader takes the file line by line, line endings
    kept, and feeds every character of a line and then the end of the line
    to the state machine; a record is complete when the machine is back in
    [START_RECORD].  Written as one pass over the text: [pending] tells
    that characters were read since the last end of a line.  The result is
    the rows, and whether the reader raised [csv.Error] after them. *)
Fixpoint feed (p : parser) (pending : bool) (s : string) : list (list string) * bool :=
  match s with
  | EmptyString =>
      match (if pending then process p None else Some p) with
      | None => ([], true)
      | Some p' =>
          if is_start_record (state p') then
            if pending then ([fields p'], false) else ([], false)
          else if is_in_quoted (state p') then ([fields p' ++ [field p']], false)
          else ([], false)
      end
  | String c r =>
      match process p (Some c) with
      | None => ([], true)
      | Some p1 =>
          if ends_line c r then
            match process p1 None with
            | None => ([], true)
            | Some p2 =>
                if is_start_record (state p2)
                then let '(rows, err) := feed fresh false r in (fields p2 :: rows, err)
                else feed p2 false r
            end
          else feed p1 true r
      end
  end.

Definition reader (text : string) : list (list string) * bool := feed fresh false text.

(** The index of the last occurrence of [key] in [names]. *)
Fixpoint last_index (key : string) (names : list string) (i : nat) : option nat :=
  match names with
  | [] => None
  | x :: rest =>
      match last_index key rest (S i) with
      | Some j => Some j
      | None => if String.eqb x key then Some i else None
      end
  end.

(** [row.get(key)] on a row of [csv.DictReader]: the dictionary is
    [dict(zip(fieldnames, row))], with [None] for the field names beyond the
    row; a repeated field name keeps its last value. *)
Definition row_get (fieldnames row : list string) (key : string) : option string :=
  match last_index key fieldnames O with
  | Some j => nth_error row j
  | None => None
  end.

End Csv.

(** ** What a run leaves behind: printed lines, raised exceptions *)
Module Run.

Inductive exn : Type := OSError | TypeError | CsvError.

(** Lines written to the standard output.  [Line] carries the text; the
    other lines embed the [repr] of a row or the text of an exception. *)
Inductive event : Type :=
  | Line (text : string)
  | SkippingInvalidRow (fieldnames row : list string)
  | FailedToRename (src dst : string)
  | WarningMappingNotWritten (path : string).

(** A value, or the exception that left the function. *)
Inductive outcome (A : Type) : Type :=
  | Returned (a : A)
  | Raised (e : exn).
Arguments Returned {A} a.
Arguments Raised {A} e.

Record run (A : Type) : Type := Run {
  result : outcome A;
  final : Os.world;
  output : list event
}.
Arguments Run {A} result final output.
Arguments result {A} r.
Arguments final {A} r.
Arguments output {A} r.

Definition action : Type := (string * string)%type.

End Run.

(** ** [rename_images.py] *)
Module RenameImages.
Import Run.

Section WithRuntime.
Context (rt : Fmt.runtime).

(** An element of a sort key: [int(t)] for a run of digits, [t.lower()]
    for the text between two runs. *)
Inductive tok : Type :=
  | TStr (s : string)
  | TInt (n : Z).

(** [re.split(r"(\d+)", s)]: the text before the first run of digits, then
    alternately a run and the text after it. *)
Fixpoint re_split_digits (cur : string) (in_digits : bool) (s : string) : list string :=
  match s with
  | EmptyString => if in_digits then [cur; ""] else [cur]
  | String c r =>
      if Py.is_digit c then
        if in_digits then re_split_digits (cur +:+ String c "") true r
        else cur :: re_split_digits (String c "") true r
      else
        if in_digits then cur :: re_split_digits (String c "") false r
        else re_split_digits (cur +:+ String c "") false r
  end.

Definition natural_key (s : string) : list tok :=
  map (fun t => if Py.isdigit t then TInt (Py.int_of_digits 0 t) else TStr (Py.lower t))
      (re_split_digits "" false s).

Definition tok_eqb (a b : tok) : bool :=
  match a, b with
  | TStr x, TStr y => String.eqb x y
  | TInt x, TInt y => x =? y
  | _, _ => false
  end.

(** [a < b]; a key alternates text and number, so that two keys hold the
    same kind of element at the same index. *)
Definition tok_ltb (a b : tok) : bool :=
  match a, b with
  | TStr x, TStr y => String.ltb x y
  | TInt x, TInt y => x <? y
  | _, _ => false
  end.

(** [<] on lists: the first differing elements decide, a proper prefix is
    smaller. *)
Fixpoint key_ltb (k1 k2 : list tok) : bool :=
  match k1, k2 with
  | [], [] => false
  | [], _ :: _ => true
  | _ :: _, [] => false
  | a :: r1, b :: r2 => if tok_eqb a b then key_ltb r1 r2 else tok_ltb a b
  end.

(** [list.sort(key=...)] is stable: an element goes before the first
    element of the sorted rest that is not smaller than it. *)
Fixpoint insert_by {K A : Type} (ltb : K -> K -> bool) (key : A -> K) (x : A) (l : list A) : list A :=
  match l with
  | [] => [x]
  | y :: r => if ltb (key y) (key x) then y :: insert_by ltb key x r else x :: l
  end.

Fixpoint sort_by_key {K A : Type} (ltb : K -> K -> bool) (key : A -> K) (l : list A) : list A :=
  match l with
  | [] => []
  | x :: r => insert_by ltb key x (sort_by_key ltb key r)
  end.

(** [find_images]; [None] is the [OSError] of [os.listdir] or
    [os.path.getmtime]. *)
Definition find_images (w : Os.world) (directory : string) (exts : list string)
    (sort_by : string) : option (list string) :=
  match Os.listdir w directory with
  | None => None
  | Some names =>
      let entries :=
        filter (fun name =>
                  (Os.isfile w (PosixPath.join directory name)
                   && existsb (fun e => Py.endswith (Py.lower name) e) exts)%bool)
               names in
      if String.eqb sort_by "mtime" then
        match mapM (fun name => Os.getmtime w (PosixPath.join directory name)) entries with
        | None => None
        | Some _ =>
            Some (sort_by_key Z.ltb
                    (fun name => default 0 (Os.getmtime w (PosixPath.join directory name)))
                    entries)
        end
      else Some (sort_by_key key_ltb natural_key entries)
  end.

(** [f"{base}_{i}{ext}"] *)
Definition suffixed (base : string) (i : Z) (ext : string) : string :=
  base +:+ "_" +:+ Py.str i +:+ ext.

(** The [while True] loop of [next_free_name], from [i]; [fuel] bounds the
    number of probes. *)
Fixpoint probe (w : Os.world) (directory base ext : string) (fuel : nat) (i : Z)
    : option string :=
  match fuel with
  | O => None
  | S fuel' =>
      let newname := suffixed base i ext in
      if negb (Os.path_exists w (PosixPath.join directory newname)) then Some newname
      else probe w directory base ext fuel' (i + 1)
  end.

(** [next_free_name].  One probe more than the file system has entries is
    enough ([probe_enough] below), so that the loop is given that many. *)
Definition next_free_name (w : Os.world) (directory candidate : string) : string :=
  let '(base, ext) := PosixPath.splitext candidate in
  let path := PosixPath.join directory candidate in
  if negb (Os.path_exists w path) then candidate
  else default candidate
         (probe w directory base ext (S (length (Os.entries w))) 1).

(** [f"{prefix}{separator}{number}" if prefix else number] *)
Definition numbered (prefix separator number : string) : string :=
  if Py.truthy prefix then prefix +:+ separator +:+ number else number.

(** The name given to [fname] at index [n], before collisions are resolved
    (lines 78 to 98). *)
Definition sequence_name (prefix : string) (padding : Z) (separator : string)
    (pattern : option string) (fname : string) (n : Z) : string :=
  let ext := snd (PosixPath.splitext fname) in
  let number := Py.zfill (Py.str n) padding in
  match pattern with
  | Some pat =>
      if Py.truthy pat then
        let rendered :=
          match Fmt.format rt pat n with
          | Some r => r
          | None => numbered prefix separator number
          end in
        let pat_ext := snd (PosixPath.splitext rendered) in
        if Py.truthy pat_ext then rendered else rendered +:+ ext
      else numbered prefix separator number +:+ ext
  | None => numbered prefix separator number +:+ ext
  end.

(** The first loop of [rename_sequence]: the plan. *)
Fixpoint plan (w : Os.world) (directory prefix : string) (padding : Z)
    (separator : string) (pattern : option string) (files : list string) (n : Z)
    : list action :=
  match files with
  | [] => []
  | fname :: rest =>
      let newname :=
        next_free_name w directory
          (sequence_name prefix padding separator pattern fname n) in
      (PosixPath.join directory fname, PosixPath.join directory newname)
        :: plan w directory prefix padding separator pattern rest (n + 1)
  end.

Definition arrow (src dst : string) : string :=
  PosixPath.basename src +:+ " -> " +:+ PosixPath.basename dst.

(** The second loop of [rename_sequence] (lines 106 to 111): [os.rename] is
    called outside any [try]. *)
Fixpoint perform (dry_run : bool) (w : Os.world) (actions : list action)
    : option exn * Os.world * list event :=
  match actions with
  | [] => (None, w, [])
  | (src, dst) :: rest =>
      if dry_run then
        let '(e, w', out) := perform dry_run w rest in
        (e, w', Line ("DRY-RUN: " +:+ arrow src dst) :: out)
      else
        match Os.rename w src dst with
        | Some w1 =>
            let '(e, w', out) := perform dry_run w1 rest in
            (e, w', Line ("Renaming: " +:+ arrow src dst) :: out)
        | None => (Some OSError, w, [Line ("Renaming: " +:+ arrow src dst)])
        end
  end.

Definition mapping_rows (actions : list action) : list (list string) :=
  ["name_raw"; "name_change"]
    :: map (fun a => [PosixPath.basename (fst a); PosixPath.basename (snd a)]) actions.

(** The export of the mapping (lines 114 to 123); a failure to write is
    caught and reported. *)
Definition export_mapping (w : Os.world) (map_csv : option string) (actions : list action)
    : Os.world * list event :=
  match map_csv with
  | Some path =>
      if Py.truthy path then
        match Os.write_file w path (Csv.writerows (mapping_rows actions)) with
        | Some w' => (w', [Line ("Mapping written to: " +:+ path)])
        | None => (w, [WarningMappingNotWritten path])
        end
      else (w, [])
  | None => (w, [])
  end.

Definition rename_sequence (w : Os.world) (directory prefix : string) (start padding : Z)
    (exts : list string) (dry_run : bool) (sort_by separator : string)
    (pattern map_csv : option string) : run (list action) :=
  match find_images w directory exts sort_by with
  | None => Run (Raised OSError) w []
  | Some files =>
      let results := plan w directory prefix padding separator pattern files start in
      match perform dry_run w results with
      | (Some e, w1, out1) => Run (Raised e) w1 out1
      | (None, w1, out1) =>
          let '(w2, out2) := export_mapping w1 map_csv results in
          Run (Returned results) w2 (out1 ++ out2)
      end
  end.

(** One row of the mapping (lines 148 to 177): the action it asks for, or
    the line that reports why it is skipped; [None] is the [OSError] of
    [os.listdir]. *)
Inductive row_result : Type :=
  | Planned (a : action)
  | Skipped (e : event)
  | RowRaised.

Definition mapping_target (w : Os.world) (directory src want : string) : row_result :=
  let '(base, ext) := PosixPath.splitext want in
  let dst_name :=
    if negb (Py.truthy ext) then base +:+ snd (PosixPath.splitext src)
    else want in
  let dst_name := next_free_name w directory dst_name in
  Planned (src, PosixPath.join directory dst_name).

Definition mapping_row (w : Os.world) (directory : string) (fieldnames row : list string)
    : row_result :=
  let raw := Py.strip (default "" (Csv.row_get fieldnames row "name_raw")) in
  let want := Py.strip (default "" (Csv.row_get fieldnames row "name_change")) in
  if (negb (Py.truthy raw) || negb (Py.truthy want))%bool
  then Skipped (SkippingInvalidRow fieldnames row)
  else
    let src := PosixPath.join directory raw in
    if negb (Os.path_exists w src) then
      (* a match that ignores case, as a convenience *)
      match Os.listdir w directory with
      | None => RowRaised
      | Some names =>
          match find (fun name => String.eqb (Py.lower name) (Py.lower raw)) names with
          | Some name =>
              let found := PosixPath.join directory name in
              if Py.truthy found then mapping_target w directory found want
              else Skipped (Line ("Source not found for mapping: " +:+ raw))
          | None => Skipped (Line ("Source not found for mapping: " +:+ raw))
          end
      end
    else mapping_target w directory src want.

(** The loop over the rows; [csv.DictReader] passes over empty rows. *)
Fixpoint mapping_rows_loop (w : Os.world) (directory : string) (fieldnames : list string)
    (rows : list (list string)) : list action * list event * bool :=
  match rows with
  | [] => ([], [], false)
  | row :: rest =>
      match row with
      | [] => mapping_rows_loop w directory fieldnames rest
      | _ =>
          match mapping_row w directory fieldnames row with
          | RowRaised => ([], [], true)
          | Skipped e =>
              let '(acts, out, raised) := mapping_rows_loop w directory fieldnames rest in
              (acts, e :: out, raised)
          | Planned a =>
              let '(acts, out, raised) := mapping_rows_loop w directory fieldnames rest in
              (a :: acts, out, raised)
          end
      end
  end.

(** The loop that applies the mapping (lines 179 to 188): a failure of
    [os.rename] is caught and printed. *)
Fixpoint apply_actions (dry_run : bool) (w : Os.world) (actions : list action)
    : Os.world * list event :=
  match actions with
  | [] => (w, [])
  | (src, dst) :: rest =>
      if dry_run then
        let '(w', out) := apply_actions dry_run w rest in
        (w', Line ("DRY-RUN: " +:+ arrow src dst) :: out)
      else
        match Os.rename w src dst with
        | Some w1 =>
            let '(w', out) := apply_actions dry_run w1 rest in
            (w', Line ("Renaming: " +:+ arrow src dst) :: out)
        | None =>
            let '(w', out) := apply_actions dry_run w rest in
            (w', Line ("Renaming: " +:+ arrow src dst) :: FailedToRename src dst :: out)
        end
  end.

Definition apply_csv_mapping (w : Os.world) (directory csv_path : string) (dry_run : bool)
    : run (list action) :=
  if negb (Os.isfile w csv_path)
  then Run (Returned []) w [Line ("Mapping CSV not found: " +:+ csv_path)]
  else
    match Os.read_file w csv_path with
    | None => Run (Raised OSError) w []
    | Some text =>
        match Csv.reader text with
        | ([], false) => Run (Raised TypeError) w []
        | ([], true) => Run (Raised CsvError) w []
        | (fieldnames :: rows, csv_error) =>
            if (negb (bool_decide ("name_raw" ∈ fieldnames))
                || negb (bool_decide ("name_change" ∈ fieldnames)))%bool
            then Run (Returned []) w [Line "CSV must contain headers: name_raw,name_change"]
            else
              match mapping_rows_loop w directory fieldnames rows with
              | (_, out, true) => Run (Raised OSError) w out
              | (actions, out, false) =>
                  if csv_error then Run (Raised CsvError) w out
                  else
                    let '(w', out') := apply_actions dry_run w actions in
                    Run (Returned actions) w' (out ++ out')
              end
        end
    end.

(** [parse_ext_list] *)
Definition parse_ext_list (s : string) : list string :=
  let parts :=
    map (fun p => Py.lower (Py.strip p))
        (filter (fun p => Py.truthy (Py.strip p)) (Py.split_on "," s)) in
  map (fun p => if negb (Py.startswith p ".") then "." +:+ p else p) parts.


End WithRuntime.
End RenameImages.

(** ** [gui_rename.py] *)
Module GuiRename.
Import Run.

Section WithRuntime.
Context (rt : Fmt.runtime).

Fixpoint probe (w : Os.world) (directory base ext : string) (fuel : nat) (i : Z)
    : option string :=
  match fuel with
  | O => None
  | S fuel' =>
      let newname := RenameImages.suffixed base i ext in
      if negb (Os.path_exists w (PosixPath.join directory newname)) then Some newname
      else probe w directory base ext fuel' (i + 1)
  end.

(** [next_free_name], the same function as in [rename_images.py]. *)
Definition next_free_name (w : Os.world) (directory candidate : string) : string :=
  let '(base, ext) := PosixPath.splitext candidate in
  let path := PosixPath.join directory candidate in
  if negb (Os.path_exists w path) then candidate
  else default candidate
         (probe w directory base ext (S (length (Os.entries w))) 1).

(** [render_name] *)
Definition render_name (pattern : string) (n : Z) (src_ext : string) : string :=
  let name :=
    if Py.contains "{n" pattern then
      match Fmt.format rt pattern n with
      | Some r => r
      | None => Py.replace pattern "-n" (Py.str n)
      end
    else if Py.contains "-n" pattern then Py.replace pattern "-n" (Py.str n)
    else pattern +:+ Py.str n in
  let ext := snd (PosixPath.splitext name) in
  if negb (Py.truthy ext) then name +:+ src_ext else name.

(** The name given to [src] at index [n], before collisions are resolved
    (lines 236 to 249). *)
Definition action_name (pattern : string) (padding : Z) (src : string) (n : Z) : string :=
  let ext := snd (PosixPath.splitext src) in
  let name :=
    if (Py.contains "-n" pattern && negb (padding =? 0))%bool
    then Py.replace pattern "-n" (Py.zfill (Py.str n) padding)
    else render_name pattern n ext in
  let ext2 := snd (PosixPath.splitext name) in
  if negb (Py.truthy ext2) then name +:+ ext else name.

Fixpoint build_loop (w : Os.world) (pattern : string) (padding : Z)
    (files : list string) (n : Z) : list action :=
  match files with
  | [] => []
  | src :: rest =>
      let name :=
        next_free_name w (PosixPath.dirname src) (action_name pattern padding src n) in
      (src, PosixPath.join (PosixPath.dirname src) name)
        :: build_loop w pattern padding rest (n + 1)
  end.

(** The widgets that the handlers read: the selected files and the three
    entries. *)
Record gui : Type := Gui {
  files : list string;
  pattern_var : string;
  start_var : Z;
  padding_var : Z
}.

(** [GuiRenamer._build_actions] *)
Definition _build_actions (w : Os.world) (g : gui) : list action :=
  build_loop w (Py.strip (pattern_var g)) (padding_var g) (files g) (start_var g).

(** The dialogs and the preview pane. *)
Inductive shown : Type :=
  | NoFiles
  | Failed (failed : list action)
  | Done (count : nat)
  | Preview (lines : list string).

Definition arrow (a : action) : string :=
  PosixPath.basename (fst a) +:+ " -> " +:+ PosixPath.basename (snd a).

(** [GuiRenamer.preview] *)
Definition preview (w : Os.world) (g : gui) : list shown :=
  match files g with
  | [] => [Preview []; NoFiles]
  | _ => [Preview (map arrow (_build_actions w g))]
  end.

(** The loop of [GuiRenamer.rename] (lines 274 to 279): the world after it
    and the actions that failed. *)
Fixpoint rename_loop (w : Os.world) (actions : list action) : Os.world * list action :=
  match actions with
  | [] => (w, [])
  | (src, dst) :: rest =>
      match Os.rename w src dst with
      | Some w1 => rename_loop w1 rest
      | None => let '(w', failed) := rename_loop w rest in (w', (src, dst) :: failed)
      end
  end.

(** [GuiRenamer.rename]; [confirm] is the answer to the confirmation
    dialog.  The result is the world, the widgets and what was shown. *)
Definition rename (w : Os.world) (g : gui) (confirm : bool) : Os.world * gui * list shown :=
  match files g with
  | [] => (w, g, [NoFiles])
  | _ =>
      let actions := _build_actions w g in
      if negb confirm then (w, g, [])
      else
        let '(w', failed) := rename_loop w actions in
        let report := match failed with [] => Done (length actions) | _ => Failed failed end in
        let g' := Gui (filter (fun dst => Os.path_exists w' dst) (map snd actions))
                      (pattern_var g) (start_var g) (padding_var g) in
        (w', g', report :: preview w' g')
  end.

(** [GuiRenamer.export_csv]; [path] is the answer of the save dialog. *)
Definition export_csv (w : Os.world) (g : gui) (path : string) : Os.world :=
  match files g with
  | [] => w
  | _ =>
      if negb (Py.truthy path) then w
      else default w (Os.write_file w path
                        (Csv.writerows (RenameImages.mapping_rows (_build_actions w g))))
  end.

(** [GuiRenamer.add_files]; [paths] is the answer of the file dialog.  A
    path that is selected already is not added again. *)
Definition add_files (g : gui) (paths : list string) : gui :=
  Gui (fold_left (fun fs p => if bool_decide (p ∈ fs) then fs else fs ++ [p]) paths (files g))
      (pattern_var g) (start_var g) (padding_var g).

(** The extensions that [add_folder] takes for images. *)
Definition image_exts : list string :=
  [".png"; ".jpg"; ".jpeg"; ".gif"; ".bmp"; ".webp"].

Definition is_image_name (fn : string) : bool :=
  existsb (fun e => Py.endswith (Py.lower fn) e) image_exts.

(** [os.walk(top)], top down and with [followlinks=False]: for every
    directory that is walked, its path and the names of its entries that
    are no directories.  A directory that cannot be listed is passed over,
    and a directory below [top] that is a symbolic link is not walked.  The
    file system of the model does not tell a link from what it points to,
    so that the answer of [os.path.islink] is the parameter [islink].
    [fuel] bounds the depth. *)
Fixpoint walk (islink : string -> bool) (w : Os.world) (fuel : nat) (top : string)
    : list (string * list string) :=
  match fuel with
  | O => []
  | S fuel' =>
      match Os.listdir w top with
      | None => []
      | Some names =>
          (top, filter (fun name => negb (Os.isdir w (PosixPath.join top name))) names)
            :: flat_map (fun name =>
                           if islink (PosixPath.join top name) then []
                           else walk islink w fuel' (PosixPath.join top name))
                 (filter (fun name => Os.isdir w (PosixPath.join top name)) names)
      end
  end.

(** The paths that [add_folder] collects (lines 199 to 209), before they
    are sorted; [None] is the [OSError] of [os.listdir].  The walk is given
    one level more than the file system has entries, which is enough
    ([walk_fuel] below).  With the box checked no entry is asked whether
    it is a regular file: whatever is no directory and has the name of an
    image is collected. *)
Definition collect (islink : string -> bool) (w : Os.world) (folder : string)
    (recursive : bool) : option (list string) :=
  if recursive then
    Some (flat_map (fun level =>
                      map (PosixPath.join (fst level)) (filter is_image_name (snd level)))
            (walk islink w (S (length (Os.entries w))) folder))
  else
    match Os.listdir w folder with
    | None => None
    | Some names =>
        Some (map (PosixPath.join folder)
                (filter (fun fn => (Os.isfile w (PosixPath.join folder fn)
                                    && is_image_name fn)%bool) names))
    end.

(** [GuiRenamer.add_folder]; [folder] is the answer of the directory
    dialog, [recursive] and [sort_var] are the check box and the combo box
    that the handler reads.  [None] is an exception that leaves the
    handler. *)
Definition add_folder (islink : string -> bool) (w : Os.world) (g : gui)
    (folder : string) (recursive : bool) (sort_var : string) : option gui :=
  if negb (Py.truthy folder) then Some g
  else
    match collect islink w folder recursive with
    | None => None
    | Some collected =>
        if String.eqb sort_var "mtime" then
          match mapM (Os.getmtime w) collected with
          | None => None
          | Some _ =>
              Some (add_files g
                      (RenameImages.sort_by_key Z.ltb
                         (fun p => default 0 (Os.getmtime w p)) collected))
          end
        else
          Some (add_files g
                  (RenameImages.sort_by_key RenameImages.key_ltb
                     (fun s => RenameImages.natural_key (PosixPath.basename s)) collected))
    end.

(** [GuiRenamer.clear_files] *)
Definition clear_files (g : gui) : gui :=
  Gui [] (pattern_var g) (start_var g) (padding_var g).

End WithRuntime.
End GuiRename.

(** ** Sample inputs *)
Module Samples.

(** A runtime that raises on everything asked of it. *)
Definition no_runtime : Fmt.runtime :=
  Fmt.Runtime (fun _ _ _ _ => None) (fun _ _ => None).

(** A directory [/pics] with [a.png] and [b.png], listed in that order. *)
Definition pics : Os.world :=
  Os.World [("/pics", Os.Dir);
            ("/pics/a.png", Os.File "A" 1);
            ("/pics/b.png", Os.File "B" 2)] 10.

(** The same directory with a subdirectory [2]. *)
Definition pics_sub : Os.world :=
  Os.World [("/pics", Os.Dir);
            ("/pics/a.png", Os.File "A" 1);
            ("/pics/b.png", Os.File "B" 2);
            ("/pics/2", Os.Dir)] 10.

(** A directory in which [out.png] and [out_1.png] are taken. *)
Definition taken : Os.world :=
  Os.World [("/pics", Os.Dir);
            ("/pics/out.png", Os.File "A" 1);
            ("/pics/out_1.png", Os.File "B" 2)] 10.

(** [/pics] with a mapping file whose header is [old,new]. *)
Definition pics_bad_mapping : Os.world :=
  Os.World [("/pics", Os.Dir);
            ("/pics/a.png", Os.File "A" 1);
            ("/pics/map.csv",
             Os.File (Csv.writerows [["old"; "new"]; ["a.png"; "z.png"]]) 3)] 10.

(** [/pics] with a file whose name starts with a space, and a directory
    [/out] for the mapping file. *)
Definition pics_space : Os.world :=
  Os.World [("/pics", Os.Dir);
            ("/out", Os.Dir);
            ("/pics/ a.png", Os.File "A" 1)] 10.

(** [/pics] and a directory [/out] for the mapping file. *)
Definition pics_out : Os.world :=
  Os.World [("/pics", Os.Dir);
            ("/out", Os.Dir);
            ("/pics/a.png", Os.File "A" 1);
            ("/pics/b.png", Os.File "B" 2)] 10.

(** A directory listed out of order, with a text file and a subdirectory. *)
Definition shots : Os.world :=
  Os.World [("/shots", Os.Dir);
            ("/shots/file10.png", Os.File "J" 5);
            ("/shots/notes.txt", Os.File "N" 4);
            ("/shots/file2.png", Os.File "B" 7);
            ("/shots/old", Os.Dir);
            ("/shots/File1.PNG", Os.File "A" 6)] 10.

(** [/pics] with [foo.png] and a mapping file of three rows: a source
    spelled in another case, a source that is missing, a blank source. *)
Definition pics_mapping : Os.world :=
  Os.World [("/pics", Os.Dir);
            ("/pics/foo.png", Os.File "F" 1);
            ("/pics/map.csv",
             Os.File (Csv.writerows [["name_raw"; "name_change"]; ["foo.PNG"; "bar"];
                                     ["gone.png"; "x.png"]; [""; "y.png"]]) 3)] 10.

(** [/pics] with an empty mapping file. *)
Definition pics_empty_mapping : Os.world :=
  Os.World [("/pics", Os.Dir);
            ("/pics/a.png", Os.File "A" 1);
            ("/pics/map.csv", Os.File "" 3)] 10.

(** [/album] with an image, a text file and a directory [trip] that holds
    an image and an empty directory. *)
Definition album : Os.world :=
  Os.World [("/album", Os.Dir);
            ("/album/b.JPG", Os.File "B" 4);
            ("/album/notes.txt", Os.File "N" 2);
            ("/album/trip", Os.Dir);
            ("/album/trip/a.png", Os.File "A" 3);
            ("/album/trip/empty", Os.Dir)] 10.

End Samples.

(** ** Notions used to state the properties *)
Module Props.

(** No brace occurs in the string. *)
Fixpoint brace_free (s : string) : bool :=
  match s with
  | EmptyString => true
  | String c r => negb (Ascii.eqb c "{") && negb (Ascii.eqb c "}") && brace_free r
  end.

(** The string does not start with a decimal digit. *)
Definition no_digit_ahead (s : string) : bool :=
  match s with
  | EmptyString => true
  | String c _ => negb (Py.is_digit c)
  end.

(** [name + ext] unless [name] has an extension: the step by which both
    programs give a rendered name the extension of its source. *)
Definition with_ext (name ext : string) : string :=
  if Py.truthy (snd (PosixPath.splitext name)) then name else name +:+ ext.

(** The state of the csv reader when it has read the text of the field [f],
    having started it in state [st] with the fields [flds] before it. *)
Definition after_field (st : Csv.pstate) (f : string) (flds : list string) : Csv.parser :=
  if Csv.has_special f then Csv.Parser Csv.QUOTE_IN_QUOTED_FIELD f flds
  else match f with
       | EmptyString => Csv.Parser st "" flds
       | _ => Csv.Parser Csv.IN_FIELD f flds
       end.

(** The reader is at the start of a field. *)
Definition field_start (st : Csv.pstate) : Prop :=
  st = Csv.START_RECORD \/ st = Csv.START_FIELD.

(** An action that the mapping file hands over as it is: its two basenames
    have no white space at either end, the destination name is not empty,
    lies in the directory itself, and has an extension unless the source has
    none. *)
Definition replayable (d : string) (a : Run.action) : bool :=
  let s := PosixPath.basename (fst a) in
  let t := PosixPath.basename (snd a) in
  (String.eqb (Py.strip s) s && String.eqb (Py.strip t) t && Py.truthy t
   && String.eqb (PosixPath.join d t) (snd a)
   && (Py.truthy (snd (PosixPath.splitext t))
       || negb (Py.truthy (snd (PosixPath.splitext (fst a))))))%bool.

(** A sort key alternates text and number; [text] tells which comes first. *)
Fixpoint alternating (text : bool) (k : list RenameImages.tok) : bool :=
  match k with
  | [] => true
  | RenameImages.TStr _ :: r => text && alternating false r
  | RenameImages.TInt _ :: r => negb text && alternating true r
  end.

(** [a] does not come after [b] in the order of the keys. *)
Definition key_le {K A : Type} (ltb : K -> K -> bool) (key : A -> K) (a b : A) : Prop :=
  ltb (key b) (key a) = false.

(** The file does not come after the other by modification time. *)
Definition mtime_of (w : Os.world) (d name : string) : Z :=
  default 0 (Os.getmtime w (PosixPath.join d name)).

(** [find_images] keeps the name: a regular file whose lower-cased name
    ends with one of the extensions. *)
Definition is_image (w : Os.world) (d : string) (exts : list string) (name : string) : bool :=
  (Os.isfile w (PosixPath.join d name)
   && existsb (fun e => Py.endswith (Py.lower name) e) exts)%bool.

(** No digit occurs in the string. *)
Fixpoint digit_free (s : string) : bool :=
  match s with
  | EmptyString => true
  | String c r => negb (Py.is_digit c) && digit_free r
  end.




(** The character does not occur in the string. *)
Fixpoint char_free (c : ascii) (s : string) : bool :=
  match s with
  | EmptyString => true
  | String a r => negb (Ascii.eqb a c) && char_free c r
  end.

(** A numeral as [str] and [zfill] write an integer: decimal digits, at
    least one, after an optional minus sign. *)
Definition numeral (s : string) : bool :=
  match s with
  | EmptyString => false
  | String c r => if Ascii.eqb c "-" then Py.isdigit r else Py.isdigit s
  end.

(** The integer that a numeral denotes. *)
Definition numeral_value (s : string) : Z :=
  match s with
  | EmptyString => 0
  | String c r => if Ascii.eqb c "-" then - Py.int_of_digits 0 r else Py.int_of_digits 0 s
  end.

(** An extension as [os.path.splitext] returns it: empty, or a dot followed
    by characters other than the dot and the separator. *)
Definition extension (e : string) : bool :=
  match e with
  | EmptyString => true
  | String c t => Ascii.eqb c "." && char_free "." t && char_free "/" t
  end.

(** [prefix + separator], the text that [rename_sequence] puts before the
    number when no pattern is given. *)
Definition lead (prefix separator : string) : string :=
  if Py.truthy prefix then prefix +:+ separator else "".

(** The names that the collision resolver can return for the candidate
    [q + number + ext]: the candidate; the candidate with [_i] before its
    extension; and, when [ext] is empty and [q] has an extension itself,
    [q] with [_i] before that extension. *)
Definition resolved (q number ext name : string) : Prop :=
  name = q +:+ number +:+ ext
  \/ (exists i : Z, 1 <= i /\ name = q +:+ number +:+ "_" +:+ Py.str i +:+ ext)
  \/ (ext = "" /\ Py.truthy (snd (PosixPath.splitext q)) = true
      /\ exists i : Z, 1 <= i
           /\ name = fst (PosixPath.splitext q) +:+ "_" +:+ Py.str i
                     +:+ snd (PosixPath.splitext q) +:+ number).

(** The items that the scanner of [str.format] makes of literal text: one
    per character. *)
Fixpoint literals (s : string) : list Fmt.item :=
  match s with
  | EmptyString => []
  | String c r => Fmt.Literal (String c "") :: literals r
  end.

(** The number of entries whose path starts with the prefix that
    [os.path.join] puts before the names in [p]. *)
Definition under (w : Os.world) (p : string) : nat :=
  length (filter (fun e => Py.startswith (fst e) (Os.dir_prefix p)) (Os.entries w)).

(** The directories that [os.walk] walks from [top]: [top] itself, and
    every directory that is listed in one of them and is no link. *)
Inductive reached (islink : string -> bool) (w : Os.world) (top : string)
    : string -> Prop :=
  | reached_top : reached islink w top top
  | reached_sub (root name : string) (names : list string) :
      reached islink w top root -> Os.listdir w root = Some names -> In name names ->
      Os.isdir w (PosixPath.join root name) = true ->
      islink (PosixPath.join root name) = false ->
      reached islink w top (PosixPath.join root name).

(** The string does not end with a decimal digit. *)
Fixpoint no_digit_behind (s : string) : bool :=
  match s with
  | EmptyString => true
  | String c r =>
      match r with
      | EmptyString => negb (Py.is_digit c)
      | String _ _ => no_digit_behind r
      end
  end.

End Props.

(** * Proofs *)

(** ** Strings *)

Lemma app_cons (c : ascii) (s t : string) : String c s +:+ t = String c (s +:+ t).
Proof. reflexivity. Qed.

Lemma app_nil_r (s : string) : s +:+ "" = s.
Proof. induction s as [|c s IH]; [reflexivity|]. by rewrite app_cons, IH. Qed.

Lemma app_assoc (s t u : string) : (s +:+ t) +:+ u = s +:+ (t +:+ u).
Proof. induction s as [|c s IH]; [reflexivity|]. rewrite !app_cons. by rewrite IH. Qed.

Lemma length_app (s t : string) :
  String.length (s +:+ t) = (String.length s + String.length t)%nat.
Proof. induction s as [|c s IH]; [reflexivity|]. rewrite app_cons. cbn. by rewrite IH. Qed.

Lemma app_inj_l (s t u : string) : s +:+ t = s +:+ u -> t = u.
Proof. apply String.app_inj. Qed.

Lemma app_inj_r (s t u : string) : s +:+ u = t +:+ u -> s = t.
Proof.
  revert t. induction s as [|c s IH]; intros [|d t] H.
  - reflexivity.
  - exfalso. apply (f_equal String.length) in H.
    rewrite !length_app in H. cbn in H. lia.
  - exfalso. apply (f_equal String.length) in H.
    rewrite !length_app in H. cbn in H. lia.
  - rewrite !app_cons in H. injection H as -> H. f_equal. by apply IH.
Qed.

Lemma startswith_app (s t : string) : Py.startswith (s +:+ t) s = true.
Proof.
  induction s as [|c s IH]; [reflexivity|].
  rewrite app_cons. cbn. by rewrite Ascii.eqb_refl, IH.
Qed.

Lemma startswith_inv (s t : string) :
  Py.startswith t s = true -> t = s +:+ Py.drop (String.length s) t.
Proof.
  revert t. induction s as [|c s IH]; intros t H; [reflexivity|].
  destruct t as [|d t]; [discriminate|]. cbn in H.
  apply andb_true_iff in H as [Hc H]. apply Ascii.eqb_eq in Hc as ->.
  rewrite app_cons. cbn. f_equal. by apply IH.
Qed.

Lemma drop_app (s t : string) : Py.drop (String.length s) (s +:+ t) = t.
Proof. induction s as [|c s IH]; [by destruct t|]. rewrite app_cons. cbn. apply IH. Qed.

(** ** The collision resolver *)

Lemma find_entry_In (es : list (string * Os.node)) (p : string) (nd : Os.node) :
  Os.find_entry es p = Some nd -> In p (map fst es).
Proof.
  induction es as [|[q x] es IH]; [discriminate|]. cbn.
  destruct (String.eqb_spec q p) as [->|]; [by left|].
  intros H. right. by apply IH.
Qed.

Lemma path_exists_In (w : Os.world) (p : string) :
  Os.path_exists w p = true -> In p (map fst (Os.entries w)).
Proof.
  unfold Os.path_exists, Os.stat.
  destruct (Os.find_entry (Os.entries w) p) eqn:E; [|discriminate].
  intros _. by eapply find_entry_In.
Qed.

Lemma startswith_suffixed (base ext : string) (i j : Z) :
  Py.startswith (RenameImages.suffixed base i ext) "/"
  = Py.startswith (RenameImages.suffixed base j ext) "/".
Proof.
  unfold RenameImages.suffixed. by destruct base.
Qed.

Lemma suffixed_inj (base ext : string) (i j : Z) :
  RenameImages.suffixed base i ext = RenameImages.suffixed base j ext -> i = j.
Proof.
  unfold RenameImages.suffixed. intros H.
  apply app_inj_l in H. apply app_inj_l in H. apply app_inj_r in H.
  by apply (inj pretty) in H.
Qed.

Lemma join_suffixed_inj (d base ext : string) (i j : Z) :
  PosixPath.join d (RenameImages.suffixed base i ext)
  = PosixPath.join d (RenameImages.suffixed base j ext) -> i = j.
Proof.
  unfold PosixPath.join. rewrite (startswith_suffixed base ext i j).
  destruct (Py.startswith _ "/").
  - apply suffixed_inj.
  - destruct (negb (Py.truthy d) || Py.endswith d "/")%bool; intros H.
    + apply app_inj_l in H. by apply suffixed_inj in H.
    + apply app_inj_l in H. apply app_inj_l in H. by apply suffixed_inj in H.
Qed.

Section Probe.
Context (w : Os.world) (d base ext : string).

Let taken (i : Z) : bool :=
  Os.path_exists w (PosixPath.join d (RenameImages.suffixed base i ext)).

Lemma probe_some (fuel : nat) (i : Z) (r : string) :
  RenameImages.probe w d base ext fuel i = Some r ->
  exists k : nat, (k < fuel)%nat /\ r = RenameImages.suffixed base (i + Z.of_nat k) ext
    /\ taken (i + Z.of_nat k) = false
    /\ forall j : nat, (j < k)%nat -> taken (i + Z.of_nat j) = true.
Proof.
  revert i. induction fuel as [|fuel IH]; intros i; [discriminate|]. cbn.
  destruct (Os.path_exists w (PosixPath.join d (RenameImages.suffixed base i ext))) eqn:E; cbn.
  - intros H. destruct (IH _ H) as (k & Hk & -> & Hfree & Hbelow).
    exists (S k). replace (i + Z.of_nat (S k)) with (i + 1 + Z.of_nat k) by lia.
    repeat split; [lia|done|].
    intros [|j] Hj.
    + unfold taken. by rewrite Z.add_0_r.
    + replace (i + Z.of_nat (S j)) with (i + 1 + Z.of_nat j) by lia. apply Hbelow. lia.
  - intros [= <-]. exists O. rewrite Z.add_0_r. repeat split; [lia|done|lia].
Qed.

Lemma probe_none (fuel : nat) (i : Z) :
  RenameImages.probe w d base ext fuel i = None ->
  forall j : nat, (j < fuel)%nat -> taken (i + Z.of_nat j) = true.
Proof.
  revert i. induction fuel as [|fuel IH]; intros i H j Hj; [lia|]. cbn in H.
  destruct (Os.path_exists w (PosixPath.join d (RenameImages.suffixed base i ext))) eqn:E;
    cbn in H; [|discriminate].
  destruct j as [|j].
  - unfold taken. by rewrite Z.add_0_r.
  - replace (i + Z.of_nat (S j)) with (i + 1 + Z.of_nat j) by lia. apply IH; [done|lia].
Qed.

(** The probed paths are pairwise distinct, so that they cannot all be
    among the entries of the file system. *)
Lemma probe_enough (i : Z) :
  RenameImages.probe w d base ext (S (length (Os.entries w))) i <> None.
Proof.
  intros H.
  pose proof (probe_none _ _ H) as Hall.
  set (n := S (length (Os.entries w))) in *.
  set (paths := map (fun j : nat =>
                       PosixPath.join d (RenameImages.suffixed base (i + Z.of_nat j) ext))
                    (seq 0 n)).
  assert (Hnodup : List.NoDup paths).
  { apply Finite.Injective_map_NoDup; [|apply List.seq_NoDup].
    intros a b Hab. apply join_suffixed_inj in Hab. lia. }
  assert (Hincl : incl paths (map fst (Os.entries w))).
  { intros p Hp. apply in_map_iff in Hp as (j & <- & Hj).
    apply in_seq in Hj. apply path_exists_In. apply Hall. lia. }
  pose proof (List.NoDup_incl_length Hnodup Hincl) as Hlen.
  unfold paths in Hlen. rewrite length_map, length_seq, length_map in Hlen.
  unfold n in Hlen. lia.
Qed.

Lemma probe_more_fuel (fuel fuel' : nat) (i : Z) (r : string) :
  RenameImages.probe w d base ext fuel i = Some r -> (fuel <= fuel')%nat ->
  RenameImages.probe w d base ext fuel' i = Some r.
Proof.
  revert fuel' i. induction fuel as [|fuel IH]; intros fuel' i; [discriminate|].
  destruct fuel' as [|fuel']; [lia|]. cbn.
  destruct (negb _); [done|]. intros H Hle. apply IH; [done|lia].
Qed.

End Probe.

Lemma gui_probe_eq (w : Os.world) (d base ext : string) (fuel : nat) (i : Z) :
  GuiRename.probe w d base ext fuel i = RenameImages.probe w d base ext fuel i.
Proof. revert i. induction fuel as [|fuel IH]; intros i; [done|]. cbn. by rewrite IH. Qed.

Lemma gui_next_free_name_eq (w : Os.world) (d c : string) :
  GuiRename.next_free_name w d c = RenameImages.next_free_name w d c.
Proof.
  unfold GuiRename.next_free_name, RenameImages.next_free_name.
  destruct (PosixPath.splitext c). by rewrite gui_probe_eq.
Qed.

(** The name returned by the resolver is not taken. *)
Lemma next_free_name_free (w : Os.world) (d c : string) :
  Os.path_exists w (PosixPath.join d (RenameImages.next_free_name w d c)) = false.
Proof.
  unfold RenameImages.next_free_name.
  destruct (PosixPath.splitext c) as [base ext].
  destruct (Os.path_exists w (PosixPath.join d c)) eqn:E; simpl negb; cbv iota; [|done].
  destruct (RenameImages.probe _ _ _ _ _ _) as [r|] eqn:P.
  - cbn. by apply probe_some in P as (k & _ & -> & Hfree & _).
  - by apply probe_enough in P.
Qed.

Lemma next_free_name_unchanged (w : Os.world) (d c : string) :
  Os.path_exists w (PosixPath.join d c) = false ->
  RenameImages.next_free_name w d c = c.
Proof.
  intros H. unfold RenameImages.next_free_name.
  destruct (PosixPath.splitext c). by rewrite H.
Qed.

(** C7.  The collision resolver ([next_free_name], the same in both files)
    returns the candidate unchanged when [directory/candidate] does not
    exist.  Otherwise it returns [stem_i.ext] for the least [i >= 1] whose
    path does not exist; the loop reaches it within any number of probes
    above the number of entries of the file system, so it terminates.  In
    both cases the result is free, and resolving it again returns it
    unchanged. *)
Theorem next_free_name_contract (w : Os.world) (d c : string) :
  let r := RenameImages.next_free_name w d c in
  let base := fst (PosixPath.splitext c) in
  let ext := snd (PosixPath.splitext c) in
  (Os.path_exists w (PosixPath.join d c) = false -> r = c)
  /\ (Os.path_exists w (PosixPath.join d c) = true ->
      exists i : Z,
        1 <= i
        /\ r = RenameImages.suffixed base i ext
        /\ (forall j : Z, 1 <= j < i ->
              Os.path_exists w (PosixPath.join d (RenameImages.suffixed base j ext)) = true)
        /\ (forall fuel : nat, (length (Os.entries w) < fuel)%nat ->
              RenameImages.probe w d base ext fuel 1 = Some r))
  /\ Os.path_exists w (PosixPath.join d r) = false
  /\ RenameImages.next_free_name w d r = r
  /\ GuiRename.next_free_name w d c = r.
Proof.
  intros r base ext. split; [|split; [|split; [|split]]].
  - apply next_free_name_unchanged.
  - intros E. subst r base ext. unfold RenameImages.next_free_name.
    destruct (PosixPath.splitext c) as [base ext]. rewrite E. simpl negb. cbv iota.
    cbn [fst snd].
    destruct (RenameImages.probe _ _ _ _ _ _) as [r|] eqn:P;
      [|by apply probe_enough in P].
    cbn [default from_option id].
    pose proof (probe_some _ _ _ _ _ _ _ P) as (k & Hk & Hr & Hfree & Hbelow).
    exists (1 + Z.of_nat k). repeat split; [lia|done| |].
    + intros j Hj. replace j with (1 + Z.of_nat (Z.to_nat (j - 1))) by lia.
      apply Hbelow. lia.
    + intros fuel Hfuel. eapply probe_more_fuel; [exact P|lia].
  - apply next_free_name_free.
  - apply next_free_name_unchanged, next_free_name_free.
  - apply gui_next_free_name_eq.
Qed.

(** In a directory that holds [out.png] and [out_1.png], the candidate
    [out.png] resolves to a suffixed name (Scenario C). *)
Lemma next_free_name_contract_witness :
  exists i : Z,
    1 <= i
    /\ RenameImages.next_free_name Samples.taken "/pics" "out.png"
       = RenameImages.suffixed "out" i ".png"
    /\ (forall j : Z, 1 <= j < i ->
          Os.path_exists Samples.taken
            (PosixPath.join "/pics" (RenameImages.suffixed "out" j ".png")) = true)
    /\ (forall fuel : nat, (length (Os.entries Samples.taken) < fuel)%nat ->
          RenameImages.probe Samples.taken "/pics" "out" ".png" fuel 1
          = Some (RenameImages.next_free_name Samples.taken "/pics" "out.png")).
Proof.
  destruct (next_free_name_contract Samples.taken "/pics" "out.png") as (_ & H & _).
  apply H. reflexivity.
Defined.

Example next_free_name_taken :
  RenameImages.next_free_name Samples.taken "/pics" "out.png" = "out_2.png".
Proof. vm_compute. reflexivity. Qed.

(** ** Plans *)

Lemma plan_free (rt : Fmt.runtime) (w : Os.world) (d prefix : string) (padding : Z)
    (separator : string) (pattern : option string) (files : list string) (n : Z)
    (a : Run.action) :
  In a (RenameImages.plan rt w d prefix padding separator pattern files n) ->
  Os.path_exists w (snd a) = false.
Proof.
  revert n. induction files as [|f files IH]; intros n; [intros []|].
  intros [<-|H]; [apply next_free_name_free|by eapply IH].
Qed.

Lemma build_loop_free (rt : Fmt.runtime) (w : Os.world) (pattern : string) (padding : Z)
    (files : list string) (n : Z) (a : Run.action) :
  In a (GuiRename.build_loop rt w pattern padding files n) ->
  Os.path_exists w (snd a) = false.
Proof.
  revert n. induction files as [|f files IH]; intros n; [intros []|].
  intros [<-|H]; [|by eapply IH].
  cbn [snd]. rewrite gui_next_free_name_eq. apply next_free_name_free.
Qed.

Lemma rename_sequence_returned (rt : Fmt.runtime) (w : Os.world) (d prefix : string)
    (start padding : Z) (exts : list string) (dry_run : bool) (sort_by separator : string)
    (pattern map_csv : option string) (results : list Run.action) :
  Run.result (RenameImages.rename_sequence rt w d prefix start padding exts dry_run
                sort_by separator pattern map_csv) = Run.Returned results ->
  exists files, RenameImages.find_images w d exts sort_by = Some files
    /\ results = RenameImages.plan rt w d prefix padding separator pattern files start.
Proof.
  unfold RenameImages.rename_sequence.
  destruct (RenameImages.find_images w d exts sort_by) as [files|]; [|discriminate].
  destruct (RenameImages.perform _ _ _) as [[[e|] w1] out1].
  - discriminate.
  - destruct (RenameImages.export_mapping _ _ _). intros [= <-]. eauto.
Qed.

(** C1, as amended.  Every destination of a plan, of [rename_sequence] as of
    [_build_actions], is a path that does not exist in the file system the
    plan was built from. *)
Theorem plan_destinations_free (rt : Fmt.runtime) (w : Os.world) (d prefix : string)
    (start padding : Z) (exts : list string) (dry_run : bool) (sort_by separator : string)
    (pattern map_csv : option string) (g : GuiRename.gui) :
  (forall results a,
      Run.result (RenameImages.rename_sequence rt w d prefix start padding exts dry_run
                    sort_by separator pattern map_csv) = Run.Returned results ->
      In a results -> Os.path_exists w (snd a) = false)
  /\ (forall a, In a (GuiRename._build_actions rt w g) -> Os.path_exists w (snd a) = false).
Proof.
  split.
  - intros results a H Ha.
    apply rename_sequence_returned in H as (files & _ & ->). by eapply plan_free.
  - intros a. apply build_loop_free.
Qed.

Lemma plan_destinations_free_witness :
  Os.path_exists Samples.pics (snd ("/pics/a.png", "/pics/img_01.png")) = false.
Proof.
  refine (proj1 (plan_destinations_free Samples.no_runtime Samples.pics "/pics" "" 1 2
                   [".png"] true "name" "_" (Some "img_{n:02d}") None
                   (GuiRename.Gui [] "" 0 0)) _ _ _ _).
  - vm_compute. reflexivity.
  - left. reflexivity.
Defined.

(** C1, as stated, fails: with the pattern [x] the command line plans the
    same destination for [a.png] and [b.png], and so does the window with
    the pattern [x{n]. *)
Lemma plan_destinations_collide :
  (exists results,
     Run.result (RenameImages.rename_sequence Samples.no_runtime Samples.pics "/pics" "" 1 3
                   [".png"] true "name" "_" (Some "x") None) = Run.Returned results
     /\ results = [("/pics/a.png", "/pics/x.png"); ("/pics/b.png", "/pics/x.png")]
     /\ ~ List.NoDup (map snd results))
  /\ ~ List.NoDup (map snd (GuiRename._build_actions Samples.no_runtime Samples.pics
                              (GuiRename.Gui ["/pics/a.png"; "/pics/b.png"] "x{n" 1 3))).
Proof.
  split.
  - eexists. split; [vm_compute; reflexivity|]. split; [reflexivity|].
    intros H. inversion H as [|? ? Hin _]. apply Hin. left. reflexivity.
  - assert (E : GuiRename._build_actions Samples.no_runtime Samples.pics
                  (GuiRename.Gui ["/pics/a.png"; "/pics/b.png"] "x{n" 1 3)
                = [("/pics/a.png", "/pics/x{n.png"); ("/pics/b.png", "/pics/x{n.png")])
      by (vm_compute; reflexivity).
    rewrite E. intros H. inversion H as [|? ? Hin _]. apply Hin. left. reflexivity.
Qed.

(** ** Execution *)

Lemma perform_dry_run (w : Os.world) (actions : list Run.action) :
  exists out, RenameImages.perform true w actions = (None, w, out).
Proof.
  induction actions as [|[src dst] actions [out IH]]; [by eexists|].
  cbn. rewrite IH. by eexists.
Qed.

Lemma apply_actions_dry_run (w : Os.world) (actions : list Run.action) :
  fst (RenameImages.apply_actions true w actions) = w.
Proof.
  induction actions as [|[src dst] actions IH]; [done|].
  cbn. by destruct (RenameImages.apply_actions true w actions).
Qed.

(** Every action of a mapping is attempted, whatever fails before it. *)
Lemma apply_actions_attempts_all (w : Os.world) (actions : list Run.action) (a : Run.action) :
  In a actions ->
  In (Run.Line ("Renaming: " +:+ RenameImages.arrow (fst a) (snd a)))
     (snd (RenameImages.apply_actions false w actions)).
Proof.
  revert w. induction actions as [|[src dst] actions IH]; intros w; [intros []|].
  intros [<-|H]; cbn.
  - destruct (Os.rename w src dst) as [w1|];
      destruct (RenameImages.apply_actions false _ actions); by left.
  - destruct (Os.rename w src dst) as [w1|].
    + specialize (IH w1 H). destruct (RenameImages.apply_actions false w1 actions).
      by right.
    + specialize (IH w H). destruct (RenameImages.apply_actions false w actions).
      right. by right.
Qed.

(** C2 at the failing input.  In [/pics] with [a.png], [b.png] and the
    subdirectory [2], the pattern [{n}/x] plans [a.png -> 1/x.png] and
    [b.png -> 2/x.png].  The first rename fails, there is no directory [1].
    [rename_sequence] lets the exception escape: nothing is recorded, the
    second rename, which would succeed, is never tried.  On the same plan
    the loop of [apply_csv_mapping] and the handler of the window go on and
    rename [b.png]. *)
Theorem rename_sequence_aborts_on_failure :
  let live := RenameImages.rename_sequence Samples.no_runtime Samples.pics_sub "/pics" ""
                1 0 [".png"] false "name" "_" (Some "{n}/x") None in
  let planned := [("/pics/a.png", "/pics/1/x.png"); ("/pics/b.png", "/pics/2/x.png")] in
  Run.result (RenameImages.rename_sequence Samples.no_runtime Samples.pics_sub "/pics" ""
                1 0 [".png"] true "name" "_" (Some "{n}/x") None) = Run.Returned planned
  /\ Os.rename Samples.pics_sub "/pics/a.png" "/pics/1/x.png" = None
  /\ Os.rename Samples.pics_sub "/pics/b.png" "/pics/2/x.png" <> None
  /\ Run.result live = Run.Raised Run.OSError
  /\ Run.final live = Samples.pics_sub
  /\ Run.output live = [Run.Line "Renaming: a.png -> x.png"]
  /\ Os.path_exists (fst (RenameImages.apply_actions false Samples.pics_sub planned))
       "/pics/2/x.png" = true
  /\ Os.path_exists (fst (fst (GuiRename.rename Samples.no_runtime Samples.pics_sub
                                 (GuiRename.Gui ["/pics/a.png"; "/pics/b.png"] "{n}/x" 1 0)
                                 true)))
       "/pics/2/x.png" = true.
Proof. vm_compute. repeat split; done. Qed.

Lemma export_mapping_effect (w : Os.world) (map_csv : option string) (actions : list Run.action) :
  fst (RenameImages.export_mapping w map_csv actions) = w
  \/ exists path text,
       map_csv = Some path
       /\ Os.write_file w path text = Some (fst (RenameImages.export_mapping w map_csv actions)).
Proof.
  unfold RenameImages.export_mapping.
  destruct map_csv as [path|]; [|by left].
  destruct (Py.truthy path); [|by left].
  destruct (Os.write_file w path _) as [w'|] eqn:E; [|by left].
  right. eauto.
Qed.

Lemma rename_sequence_dry_final (rt : Fmt.runtime) (w : Os.world) (d prefix : string)
    (start padding : Z) (exts : list string) (sort_by separator : string)
    (pattern map_csv : option string) :
  Run.final (RenameImages.rename_sequence rt w d prefix start padding exts true
               sort_by separator pattern map_csv) = w
  \/ exists files,
       Run.final (RenameImages.rename_sequence rt w d prefix start padding exts true
                    sort_by separator pattern map_csv)
       = fst (RenameImages.export_mapping w map_csv
                (RenameImages.plan rt w d prefix padding separator pattern files start)).
Proof.
  unfold RenameImages.rename_sequence.
  destruct (RenameImages.find_images w d exts sort_by) as [files|]; [|by left].
  destruct (perform_dry_run w (RenameImages.plan rt w d prefix padding separator pattern
                                 files start)) as [out ->].
  right. exists files. by destruct (RenameImages.export_mapping _ _ _).
Qed.

Lemma apply_csv_mapping_dry_final (w : Os.world) (d csv_path : string) :
  Run.final (RenameImages.apply_csv_mapping w d csv_path true) = w.
Proof.
  unfold RenameImages.apply_csv_mapping.
  destruct (negb _); [done|].
  destruct (Os.read_file w csv_path); [|done].
  destruct (Csv.reader _) as [[|fieldnames rows] [|]]; try done.
  - destruct (_ || _)%bool; [done|].
    destruct (RenameImages.mapping_rows_loop _ _ _ _) as [[actions out] [|]]; done.
  - destruct (_ || _)%bool; [done|].
    destruct (RenameImages.mapping_rows_loop _ _ _ _) as [[actions out] [|]]; [done|].
    pose proof (apply_actions_dry_run w actions) as H.
    by destruct (RenameImages.apply_actions true w actions).
Qed.

(** C4, as amended.  With the dry-run flag set no file is renamed.  Applying
    a mapping leaves the file system as it was.  Renaming to a sequence
    leaves it as it was when no mapping file is asked for; when one is, the
    only change is that mapping file, written at the given path. *)
Theorem dry_run_effects (rt : Fmt.runtime) (w : Os.world) (d prefix : string)
    (start padding : Z) (exts : list string) (sort_by separator : string)
    (pattern map_csv : option string) (csv_path : string) :
  Run.final (RenameImages.apply_csv_mapping w d csv_path true) = w
  /\ Run.final (RenameImages.rename_sequence rt w d prefix start padding exts true
                  sort_by separator pattern None) = w
  /\ (Run.final (RenameImages.rename_sequence rt w d prefix start padding exts true
                   sort_by separator pattern map_csv) = w
      \/ exists path text,
           map_csv = Some path
           /\ Os.write_file w path text
              = Some (Run.final (RenameImages.rename_sequence rt w d prefix start padding
                                   exts true sort_by separator pattern map_csv))).
Proof.
  split; [apply apply_csv_mapping_dry_final|]. split.
  - destruct (rename_sequence_dry_final rt w d prefix start padding exts sort_by separator
                pattern None) as [H|[files H]]; [done|]. by rewrite H.
  - destruct (rename_sequence_dry_final rt w d prefix start padding exts sort_by separator
                pattern map_csv) as [H|[files H]]; [by left|]. rewrite H.
    apply export_mapping_effect.
Qed.

(** C4, as stated, fails: a dry run with a mapping path creates that file. *)
Lemma dry_run_writes_mapping :
  let dry := RenameImages.rename_sequence Samples.no_runtime Samples.pics "/pics" "" 1 2
               [".png"] true "name" "_" (Some "img_{n:02d}") (Some "/pics/map.csv") in
  Os.path_exists Samples.pics "/pics/map.csv" = false
  /\ Os.isfile (Run.final dry) "/pics/map.csv" = true
  /\ Run.final dry <> Samples.pics.
Proof. vm_compute. repeat split; done. Qed.

(** C10.  Given the same file system and parameters, the plan returned with
    the dry-run flag set and the plan returned without it are the same list:
    the plan is built before any rename is attempted. *)
Theorem plan_independent_of_dry_run (rt : Fmt.runtime) (w : Os.world) (d prefix : string)
    (start padding : Z) (exts : list string) (sort_by separator : string)
    (pattern map_csv : option string) (dry live : list Run.action) :
  Run.result (RenameImages.rename_sequence rt w d prefix start padding exts true
                sort_by separator pattern map_csv) = Run.Returned dry ->
  Run.result (RenameImages.rename_sequence rt w d prefix start padding exts false
                sort_by separator pattern map_csv) = Run.Returned live ->
  dry = live.
Proof.
  intros Hdry Hlive.
  apply rename_sequence_returned in Hdry as (files & Hfiles & ->).
  apply rename_sequence_returned in Hlive as (files' & Hfiles' & ->).
  congruence.
Qed.

Lemma plan_independent_of_dry_run_witness :
  let planned := [("/pics/a.png", "/pics/IMG_001.png"); ("/pics/b.png", "/pics/IMG_002.png")] in
  Run.result (RenameImages.rename_sequence Samples.no_runtime Samples.pics "/pics" "IMG" 1 3
                [".png"] true "name" "_" None None) = Run.Returned planned
  /\ Run.result (RenameImages.rename_sequence Samples.no_runtime Samples.pics "/pics" "IMG" 1 3
                   [".png"] false "name" "_" None None) = Run.Returned planned
  /\ planned = planned.
Proof.
  intros planned.
  assert (Hdry : Run.result (RenameImages.rename_sequence Samples.no_runtime Samples.pics
                               "/pics" "IMG" 1 3 [".png"] true "name" "_" None None)
                 = Run.Returned planned) by (vm_compute; reflexivity).
  assert (Hlive : Run.result (RenameImages.rename_sequence Samples.no_runtime Samples.pics
                                "/pics" "IMG" 1 3 [".png"] false "name" "_" None None)
                  = Run.Returned planned) by (vm_compute; reflexivity).
  split; [exact Hdry|]. split; [exact Hlive|].
  exact (plan_independent_of_dry_run _ _ _ _ _ _ _ _ _ _ _ _ _ Hdry Hlive).
Defined.

(** The dry run returns a plan whenever the directory can be listed. *)
Lemma rename_sequence_dry_returns (rt : Fmt.runtime) (w : Os.world) (d prefix : string)
    (start padding : Z) (exts : list string) (sort_by separator : string)
    (pattern map_csv : option string) (files : list string) :
  RenameImages.find_images w d exts sort_by = Some files ->
  Run.result (RenameImages.rename_sequence rt w d prefix start padding exts true
                sort_by separator pattern map_csv)
  = Run.Returned (RenameImages.plan rt w d prefix padding separator pattern files start).
Proof.
  intros H. unfold RenameImages.rename_sequence. rewrite H.
  destruct (perform_dry_run w (RenameImages.plan rt w d prefix padding separator pattern
                                 files start)) as [out ->].
  by destruct (RenameImages.export_mapping _ _ _).
Qed.

(** ** The mapping file *)

(** A mapping file with a first row that lacks [name_raw] or
    [name_change]: [apply_csv_mapping] prints the format error, returns no
    action and leaves the file system as it was, with or without the
    dry-run flag. *)
Theorem malformed_header_rejected (w : Os.world) (d csv_path text : string)
    (dry_run csv_error : bool) (fieldnames : list string) (rows : list (list string)) :
  Os.isfile w csv_path = true ->
  Os.read_file w csv_path = Some text ->
  Csv.reader text = (fieldnames :: rows, csv_error) ->
  ~ In "name_raw" fieldnames \/ ~ In "name_change" fieldnames ->
  RenameImages.apply_csv_mapping w d csv_path dry_run
  = Run.Run (Run.Returned []) w [Run.Line "CSV must contain headers: name_raw,name_change"].
Proof.
  intros Hfile Hread Hrows Hmiss.
  unfold RenameImages.apply_csv_mapping. rewrite Hfile, Hread, Hrows. cbn [negb].
  assert ((negb (bool_decide ("name_raw" ∈ fieldnames))
           || negb (bool_decide ("name_change" ∈ fieldnames)))%bool = true) as ->; [|done].
  apply orb_true_iff.
  destruct Hmiss as [H|H]; [left|right]; apply negb_true_iff, bool_decide_eq_false;
    by rewrite list_elem_of_In.
Qed.

Lemma malformed_header_rejected_witness :
  RenameImages.apply_csv_mapping Samples.pics_bad_mapping "/pics" "/pics/map.csv" false
  = Run.Run (Run.Returned []) Samples.pics_bad_mapping
      [Run.Line "CSV must contain headers: name_raw,name_change"].
Proof.
  apply (malformed_header_rejected Samples.pics_bad_mapping "/pics" "/pics/map.csv"
           (Csv.writerows [["old"; "new"]; ["a.png"; "z.png"]]) false false
           ["old"; "new"] [["a.png"; "z.png"]]).
  - vm_compute. reflexivity.
  - vm_compute. reflexivity.
  - vm_compute. reflexivity.
  - left. intros [H|[H|[]]]; discriminate H.
Defined.

(** C9.  A mapping file without any row has no header to test: for the
    empty file [csv.DictReader] has no field names, the test of line 144
    asks whether [name_raw] is in [None], and [TypeError] leaves
    [apply_csv_mapping].  The format error is not reported; no action is
    returned and the file system stays as it was.  With a first row in the
    file the code does what is claimed ([malformed_header_rejected]). *)
Theorem malformed_header_empty_file :
  let w := Samples.pics_empty_mapping in
  Os.isfile w "/pics/map.csv" = true
  /\ Os.read_file w "/pics/map.csv" = Some ""
  /\ fst (Csv.reader "") = []
  /\ forall dry_run : bool,
       RenameImages.apply_csv_mapping w "/pics" "/pics/map.csv" dry_run
       = Run.Run (Run.Raised Run.TypeError) w []
       /\ RenameImages.apply_csv_mapping w "/pics" "/pics/map.csv" dry_run
          <> Run.Run (Run.Returned []) w
               [Run.Line "CSV must contain headers: name_raw,name_change"].
Proof.
  cbv zeta. split; [reflexivity|]. split; [reflexivity|]. split; [reflexivity|].
  intros dry_run.
  assert (RenameImages.apply_csv_mapping Samples.pics_empty_mapping "/pics" "/pics/map.csv"
            dry_run = Run.Run (Run.Raised Run.TypeError) Samples.pics_empty_mapping [])
    as -> by (by destruct dry_run).
  split; [reflexivity|discriminate].
Qed.

(** ** Decimal numerals *)

#[local] Arguments pretty_N_go : simpl never.

Lemma pretty_char_digit (d : N) : Py.is_digit (pretty_N_char d) = true.
Proof. unfold pretty_N_char. by repeat case_match. Qed.

Lemma pretty_char_value (d : N) :
  (d < 10)%N -> Z.of_N (N_of_ascii (pretty_N_char d) - 48) = Z.of_N d.
Proof.
  intros H. f_equal.
  assert (d = 0 \/ d = 1 \/ d = 2 \/ d = 3 \/ d = 4 \/ d = 5 \/ d = 6 \/ d = 7
          \/ d = 8 \/ d = 9)%N as Hd by lia.
  by repeat destruct Hd as [->|Hd]; try subst d.
Qed.

Lemma pretty_N_go_app (x : N) (s t : string) :
  pretty_N_go x s +:+ t = pretty_N_go x (s +:+ t).
Proof.
  revert s. induction (N.lt_wf_0 x) as [x _ IH]; intros s.
  assert (x = 0 \/ 0 < x)%N as [->|Hx] by lia; [by rewrite !pretty_N_go_0|].
  rewrite (pretty_N_go_step x s), (pretty_N_go_step x (s +:+ t)) by done.
  rewrite IH by (by apply N.div_lt). by rewrite app_cons.
Qed.

Lemma pretty_N_go_digits (x : N) (s : string) :
  Py.all_digits (pretty_N_go x s) = Py.all_digits s.
Proof.
  revert s. induction (N.lt_wf_0 x) as [x _ IH]; intros s.
  assert (x = 0 \/ 0 < x)%N as [->|Hx] by lia; [by rewrite pretty_N_go_0|].
  rewrite pretty_N_go_step by done. rewrite IH by (by apply N.div_lt).
  cbn. by rewrite pretty_char_digit.
Qed.

Lemma pretty_N_go_length (x : N) (s : string) :
  (String.length s <= String.length (pretty_N_go x s))%nat
  /\ ((0 < x)%N -> (String.length s < String.length (pretty_N_go x s))%nat).
Proof.
  revert s. induction (N.lt_wf_0 x) as [x _ IH]; intros s.
  assert (x = 0 \/ 0 < x)%N as [->|Hx] by lia; [rewrite pretty_N_go_0; split; lia|].
  rewrite pretty_N_go_step by done.
  destruct (IH (x `div` 10)%N (N.div_lt x 10 Hx eq_refl)
               (String (pretty_N_char (x `mod` 10)) s)) as [Hle _].
  cbn in Hle. split; lia.
Qed.

Lemma pretty_N_go_get_integer (x : N) (s : string) (k : nat) :
  exists k' : nat,
    (k <= k')%nat /\ ((0 < x)%N -> (k < k')%nat)
    /\ Fmt.get_integer 0 k (pretty_N_go x s) = Fmt.get_integer (Z.of_N x) k' s.
Proof.
  revert s k. induction (N.lt_wf_0 x) as [x _ IH]; intros s k.
  assert (x = 0 \/ 0 < x)%N as [->|Hx] by lia.
  { exists k. rewrite pretty_N_go_0. repeat split; [lia|lia]. }
  rewrite pretty_N_go_step by done.
  destruct (IH (x `div` 10)%N (N.div_lt x 10 Hx eq_refl)
               (String (pretty_N_char (x `mod` 10)) s) k) as (k' & Hk & _ & ->).
  exists (S k'). split; [lia|]. split; [lia|].
  cbn [Fmt.get_integer]. rewrite pretty_char_digit.
  rewrite pretty_char_value by (apply N.mod_lt; lia).
  f_equal. f_equal. f_equal.
  rewrite (N.div_mod x 10) at 3 by lia. lia.
Qed.

(** The numeral of a natural number: digits only, at least one. *)
Lemma str_nonneg (n : Z) :
  0 <= n ->
  Py.all_digits (Py.str n) = true /\ (0 < String.length (Py.str n))%nat.
Proof.
  intros Hn. destruct n as [|p|p]; [split; [reflexivity|cbn; lia]| |lia].
  unfold Py.str, pretty, pretty_Z, pretty, pretty_positive, pretty, pretty_N.
  rewrite decide_False by done. split.
  - by rewrite pretty_N_go_digits.
  - destruct (pretty_N_go_length (N.pos p) "") as [_ H]. apply H. lia.
Qed.

Lemma str_negative (n : Z) : n < 0 -> Py.str n = "-" +:+ Py.str (Z.abs n).
Proof. intros Hn. destruct n as [|p|p]; [lia|lia|reflexivity]. Qed.

Lemma get_integer_stop (acc : Z) (k : nat) (t : string) :
  Props.no_digit_ahead t = true -> Fmt.get_integer acc k t = (acc, k, t).
Proof. destruct t as [|c r]; [done|]. cbn. by destruct (Py.is_digit c). Qed.

Lemma str_get_integer (n : Z) (t : string) :
  0 <= n -> Props.no_digit_ahead t = true ->
  exists k : nat, (0 < k)%nat /\ Fmt.get_integer 0 0 (Py.str n +:+ t) = (n, k, t).
Proof.
  intros Hn Ht. destruct n as [|p|p]; [| |lia].
  - exists 1%nat. split; [lia|]. change (Py.str 0 +:+ t) with (String "0" t).
    cbn [Fmt.get_integer]. change (Py.is_digit "0") with true. cbv iota.
    by rewrite get_integer_stop.
  - unfold Py.str, pretty, pretty_Z, pretty, pretty_positive, pretty, pretty_N.
    rewrite decide_False by done. rewrite pretty_N_go_app.
    destruct (pretty_N_go_get_integer (N.pos p) ("" +:+ t) 0) as (k & _ & Hk & ->).
    exists k. split; [apply Hk; lia|]. by rewrite get_integer_stop.
Qed.

Lemma digit_plain (c : ascii) :
  Py.is_digit c = true ->
  Fmt.is_alignment_token c = false /\ Fmt.is_sign_element c = false
  /\ Py.is_sign c = false
  /\ Ascii.eqb c "{" = false /\ Ascii.eqb c "}" = false
  /\ Ascii.eqb c "z" = false /\ Ascii.eqb c "#" = false
  /\ Ascii.eqb c "," = false /\ Ascii.eqb c "_" = false /\ Ascii.eqb c "." = false.
Proof.
  destruct c as [[] [] [] [] [] [] [] []]; vm_compute; intros H;
    first [discriminate H | repeat split].
Qed.

Lemma all_digits_brace_free (s : string) :
  Py.all_digits s = true -> Props.brace_free s = true.
Proof.
  induction s as [|c s IH]; [done|]. cbn. intros [Hc Hs]%andb_true_iff.
  destruct (digit_plain c Hc) as (_ & _ & _ & -> & -> & _). cbn. by apply IH.
Qed.

(** ** Format strings *)

Lemma parse_in_spec (s : string) (name : string) (conv : option ascii) (sp : string)
    (e : bool) (rest : string) :
  Props.brace_free s = true ->
  Fmt.parse (Fmt.InSpec name conv 1 sp e) (s +:+ String "}" rest)
  = Fmt.emit (Fmt.Field name conv (sp +:+ s) e) (Fmt.parse Fmt.InText rest).
Proof.
  revert sp. induction s as [|c s IH]; intros sp.
  - intros _. by rewrite app_nil_r.
  - cbn [Props.brace_free]. intros [[Hc1 Hc2]%andb_true_iff Hs]%andb_true_iff.
    apply negb_true_iff in Hc1, Hc2.
    rewrite app_cons. cbn [Fmt.parse]. rewrite Hc1, Hc2. rewrite IH by done.
    unfold Fmt.snoc. by rewrite app_assoc.
Qed.

Lemma parse_spec_zero_padded (w : Z) :
  0 <= w ->
  Fmt.parse_spec ("0" +:+ Py.str w +:+ "d") "d" ">"
  = Some (Fmt.Spec "0" "=" false false None w None (-1) "d").
Proof.
  intros Hw. destruct (str_nonneg w Hw) as [Hdig Hlen].
  destruct (str_get_integer w "d" Hw eq_refl) as (k & Hk & Hget).
  destruct (Py.str w) as [|c W] eqn:E; [cbn in Hlen; lia|].
  cbn in Hdig. apply andb_true_iff in Hdig as [Hc _].
  destruct (digit_plain c Hc) as (Ha & _).
  change ("0" +:+ String c W +:+ "d") with (String "0" (String c W +:+ "d")).
  unfold Fmt.parse_spec. rewrite app_cons. rewrite Ha.
  change (Fmt.is_alignment_token "0") with false. cbv iota.
  cbn [Fmt.take_if Fmt.is_sign_element Fmt.is_char Ascii.eqb Bool.eqb orb negb andb].
  rewrite <- app_cons, Hget.
  destruct k as [|k]; [lia|]. reflexivity.
Qed.

Lemma length_repeat_char (c : ascii) (k : nat) : String.length (Py.repeat_char c k) = k.
Proof. induction k as [|k IH]; [done|]. cbn. by rewrite IH. Qed.

Lemma len_app (s t : string) : Py.len (s +:+ t) = Py.len s + Py.len t.
Proof. unfold Py.len. rewrite length_app. lia. Qed.

(** [format(n, "0<w>d")] is [str(n).zfill(w)]. *)
Lemma format_long_zero_padded (n w : Z) :
  Fmt.format_long (Fmt.Spec "0" "=" false false None w None (-1) "d") n
  = Some (Py.zfill (Py.str n) w).
Proof.
  unfold Fmt.format_long. cbn [Fmt.precision Fmt.no_neg_0 Fmt.type Fmt.alternate Fmt.sign
    Fmt.align Fmt.width Fmt.fill_char]. 
  change ((negb (-1 =? -1) || false)%bool) with false. cbv iota.
  change (Ascii.eqb "d" "b") with false. change (Ascii.eqb "d" "o") with false.
  change (Ascii.eqb "d" "x") with false. change (Ascii.eqb "d" "X") with false.
  cbv iota. change (negb false) with true. cbv iota.
  unfold Fmt.padding.
  change (Ascii.eqb "=" "<") with false. change (Ascii.eqb "=" "^") with false.
  change (Ascii.eqb "=" "=") with true. cbv iota.
  change (Py.len "") with 0.
  destruct (Z.ltb_spec n 0) as [Hn|Hn].
  - rewrite (str_negative n Hn). set (D := Py.str (Z.abs n)).
    change ("-" +:+ D) with (String "-" D). unfold Py.zfill.
    change (Py.is_sign "-") with true. cbv iota.
    replace (Py.len (String "-" D)) with (1 + Py.len D) by (unfold Py.len; cbn; lia).
    change (Py.len "-") with 1.
    destruct (Z.leb_spec (w - 1 - 0 - Py.len D) 0), (Z.leb_spec w (1 + Py.len D)); try lia.
    + unfold Fmt.fill_of. change (Z.to_nat 0) with O. cbn [Py.repeat_char].
      rewrite ?app_nil_r. reflexivity.
    + unfold Fmt.fill_of. change (Z.to_nat 0) with O. cbn [Py.repeat_char].
      rewrite ?app_nil_r.
      replace (w - 1 - 0 - Py.len D) with (w - (1 + Py.len D)) by lia. reflexivity.
  - replace (Z.abs n) with n by lia.
    destruct (str_nonneg n Hn) as [Hdig Hlen].
    destruct (Py.str n) as [|c D] eqn:E; [cbn in Hlen; lia|].
    cbn in Hdig. apply andb_true_iff in Hdig as [Hc _].
    destruct (digit_plain c Hc) as (_ & _ & Hsign & _).
    unfold Py.zfill. rewrite Hsign. change (Py.len "") with 0.
    destruct (Z.leb_spec (w - 0 - 0 - Py.len (String c D)) 0),
             (Z.leb_spec w (Py.len (String c D))); try lia.
    + unfold Fmt.fill_of. change (Z.to_nat 0) with O. cbn [Py.repeat_char].
      rewrite ?app_nil_r. reflexivity.
    + unfold Fmt.fill_of. change (Z.to_nat 0) with O. cbn [Py.repeat_char].
      rewrite ?app_nil_r.
      replace (w - 0 - 0 - Py.len (String c D)) with (w - Py.len (String c D)) by lia.
      reflexivity.
Qed.

Lemma brace_free_app (s t : string) :
  Props.brace_free (s +:+ t) = (Props.brace_free s && Props.brace_free t)%bool.
Proof.
  induction s as [|c s IH]; [done|]. rewrite app_cons. cbn. rewrite IH.
  by rewrite !andb_assoc.
Qed.

Lemma format_zero_padded (rt : Fmt.runtime) (n w : Z) :
  0 <= w ->
  Fmt.format rt ("{n:0" +:+ Py.str w +:+ "d}") n = Some (Py.zfill (Py.str n) w).
Proof.
  intros Hw. unfold Fmt.format, Fmt.build_string.
  assert (Fmt.parse Fmt.InText ("{n:0" +:+ Py.str w +:+ "d}")
          = Some [Fmt.Field "n" None ("0" +:+ Py.str w +:+ "d") false]) as ->.
  { change ("{n:0" +:+ Py.str w +:+ "d}")
      with (String "{" (String "n" (String ":" (String "0" (Py.str w +:+ "d" +:+ "}"))))).
    cbn [Fmt.parse Ascii.eqb Bool.eqb Fmt.snoc].
    change ("" +:+ "n") with "n". change ("" +:+ "0") with "0".
    rewrite <- app_assoc. rewrite parse_in_spec; [reflexivity|].
    rewrite brace_free_app. apply andb_true_iff. split; [|reflexivity].
    apply all_digits_brace_free, str_nonneg, Hw. }
  cbn [Fmt.render_items Fmt.render_field Fmt.field_name_split].
  unfold Fmt.render_field. change (Fmt.field_name_split "n") with ("n", "").
  cbv beta iota. change (negb (String.eqb "n" "n")) with false. cbv iota.
  change ("0" +:+ Py.str w +:+ "d") with (String "0" (Py.str w +:+ "d")).
  unfold Fmt.format_int.
  change (String "0" (Py.str w +:+ "d")) with ("0" +:+ Py.str w +:+ "d").
  rewrite (parse_spec_zero_padded w Hw).
  cbn [Fmt.type Fmt.thousands]. change (Fmt.is_long_type "d") with true. cbv iota.
  rewrite format_long_zero_padded. by rewrite app_nil_r.
Qed.

Lemma len_zfill (s : string) (width : Z) : Py.len (Py.zfill s width) = Z.max width (Py.len s).
Proof.
  unfold Py.zfill. destruct (Z.leb_spec width (Py.len s)) as [H|H]; [lia|].
  assert (Hfill : Py.len (Py.repeat_char "0" (Z.to_nat (width - Py.len s)))
                  = width - Py.len s).
  { unfold Py.len at 1. rewrite length_repeat_char. lia. }
  destruct s as [|c r].
  - rewrite Hfill. change (Py.len "") with 0 in *. lia.
  - assert (Hs : Py.len (String c r) = 1 + Py.len r) by (unfold Py.len; cbn; lia).
    destruct (Py.is_sign c).
    + replace (Py.len (String c (Py.repeat_char "0" (Z.to_nat (width - Py.len (String c r)))
                                   +:+ r)))
        with (1 + Py.len (Py.repeat_char "0" (Z.to_nat (width - Py.len (String c r))) +:+ r))
        by (unfold Py.len; cbn; lia).
      rewrite len_app, Hfill. lia.
    + rewrite len_app, Hfill. lia.
Qed.

Lemma with_ext_negb (name ext : string) :
  (if negb (Py.truthy (snd (PosixPath.splitext name))) then name +:+ ext else name)
  = Props.with_ext name ext.
Proof. unfold Props.with_ext. by destruct (Py.truthy _). Qed.

(** C5, as amended.  The width is a minimum.  A pattern [{n:0Nd}] renders
    the index as [str(n).zfill(N)], and so does the token [-n] with a
    padding [p > 0] in the window; the rendered index is [max(N, len(str(n)))]
    characters wide, zeros on the left (after the sign), hence exactly [N]
    wide when the decimal form of [n] has at most [N] characters. *)
Theorem padded_index_width (rt : Fmt.runtime) (pattern src : string) (n w : Z) :
  0 < w ->
  Py.contains "-n" pattern = true ->
  Fmt.format rt ("{n:0" +:+ Py.str w +:+ "d}") n = Some (Py.zfill (Py.str n) w)
  /\ GuiRename.action_name rt pattern w src n
     = Props.with_ext (Py.replace pattern "-n" (Py.zfill (Py.str n) w))
         (snd (PosixPath.splitext src))
  /\ Py.len (Py.zfill (Py.str n) w) = Z.max w (Py.len (Py.str n))
  /\ (Py.len (Py.str n) <= w -> Py.len (Py.zfill (Py.str n) w) = w).
Proof.
  intros Hw Htoken. split; [apply format_zero_padded; lia|]. split.
  - unfold GuiRename.action_name. rewrite Htoken.
    destruct (Z.eqb_spec w 0) as [->|_]; [lia|]. cbn [negb andb]. apply with_ext_negb.
  - split; [apply len_zfill|]. intros H. rewrite len_zfill. lia.
Qed.

Lemma padded_index_width_witness :
  Fmt.format Samples.no_runtime ("{n:0" +:+ Py.str 3 +:+ "d}") 7 = Some (Py.zfill (Py.str 7) 3)
  /\ GuiRename.action_name Samples.no_runtime "img_-n" 3 "a.png" 7
     = Props.with_ext (Py.replace "img_-n" "-n" (Py.zfill (Py.str 7) 3))
         (snd (PosixPath.splitext "a.png"))
  /\ Py.len (Py.zfill (Py.str 7) 3) = Z.max 3 (Py.len (Py.str 7))
  /\ (Py.len (Py.str 7) <= 3 -> Py.len (Py.zfill (Py.str 7) 3) = 3).
Proof.
  apply (padded_index_width Samples.no_runtime "img_-n" "a.png" 7 3).
  - lia.
  - reflexivity.
Defined.

(** C5, as stated, fails: the index 100 with the width 2 is rendered with
    three digits, by the placeholder and by the token. *)
Lemma padded_index_exceeds_width :
  Fmt.format Samples.no_runtime "{n:02d}" 100 = Some "100"
  /\ GuiRename.action_name Samples.no_runtime "-n" 2 "a" 100 = "100"
  /\ Py.zfill (Py.str 100) 2 = "100"
  /\ String.length "100" <> 2%nat.
Proof. vm_compute. repeat split; done. Qed.

(** ** The fallback of the renderer *)

Lemma replace_go_absent (old new s : string) :
  Py.contains old s = false -> Py.replace_go old new O s = s.
Proof.
  induction s as [|c s IH]; [done|]. cbn [Py.contains Py.replace_go].
  destruct (Py.startswith (String c s) old); [discriminate|].
  intros H. by rewrite IH.
Qed.

Lemma contains_truthy (sub s : string) :
  Py.truthy sub = true -> Py.contains sub s = true -> Py.truthy s = true.
Proof. destruct s; [|done]. by destruct sub. Qed.

(** C6, as amended.  When the pattern contains [{n] and template
    substitution raises, [render_name] returns the pattern with every [-n]
    replaced by the decimal index, given the extension of the source when
    it has none; a pattern without [-n] is thus returned as it is, the index
    is not appended.  [rename_sequence] has another fallback: prefix,
    separator and padded number.  Neither lets the exception out. *)
Theorem rendering_fallback (rt : Fmt.runtime) (pattern src_ext prefix separator fname : string)
    (n padding : Z) :
  Py.contains "{n" pattern = true ->
  Fmt.format rt pattern n = None ->
  GuiRename.render_name rt pattern n src_ext
  = Props.with_ext (Py.replace pattern "-n" (Py.str n)) src_ext
  /\ (Py.contains "-n" pattern = false ->
      GuiRename.render_name rt pattern n src_ext = Props.with_ext pattern src_ext)
  /\ RenameImages.sequence_name rt prefix padding separator (Some pattern) fname n
     = Props.with_ext
         (RenameImages.numbered prefix separator (Py.zfill (Py.str n) padding))
         (snd (PosixPath.splitext fname)).
Proof.
  intros Hbrace Hfail.
  assert (Hrender : GuiRename.render_name rt pattern n src_ext
                    = Props.with_ext (Py.replace pattern "-n" (Py.str n)) src_ext).
  { unfold GuiRename.render_name. rewrite Hbrace, Hfail. apply with_ext_negb. }
  split; [exact Hrender|]. split.
  - intros Htoken. rewrite Hrender. unfold Py.replace. by rewrite replace_go_absent.
  - unfold RenameImages.sequence_name.
    rewrite (contains_truthy "{n" pattern eq_refl Hbrace), Hfail. reflexivity.
Qed.

Lemma rendering_fallback_witness :
  GuiRename.render_name Samples.no_runtime "img_-n_{n" 5 ".png"
  = Props.with_ext (Py.replace "img_-n_{n" "-n" (Py.str 5)) ".png"
  /\ (Py.contains "-n" "img_-n_{n" = false ->
      GuiRename.render_name Samples.no_runtime "img_-n_{n" 5 ".png"
      = Props.with_ext "img_-n_{n" ".png")
  /\ RenameImages.sequence_name Samples.no_runtime "IMG" 3 "_" (Some "img_-n_{n") "a.png" 5
     = Props.with_ext (RenameImages.numbered "IMG" "_" (Py.zfill (Py.str 5) 3))
         (snd (PosixPath.splitext "a.png")).
Proof.
  apply (rendering_fallback Samples.no_runtime "img_-n_{n" ".png" "IMG" "_" "a.png" 5 3).
  - reflexivity.
  - reflexivity.
Defined.

(** C6, as stated, fails: [x{n] cannot be substituted and holds no [-n];
    the result is the pattern with the extension, not the pattern followed
    by the index. *)
Lemma rendering_fallback_keeps_pattern :
  Py.contains "{n" "x{n" = true
  /\ Fmt.format Samples.no_runtime "x{n" 5 = None
  /\ Py.contains "-n" "x{n" = false
  /\ GuiRename.render_name Samples.no_runtime "x{n" 5 ".png" = "x{n.png"
  /\ GuiRename.render_name Samples.no_runtime "x{n" 5 ".png"
     <> Props.with_ext ("x{n" +:+ Py.str 5) ".png"
  /\ GuiRename.render_name Samples.no_runtime "x{n" 5 ".png" <> "x{n" +:+ Py.str 5.
Proof. vm_compute. repeat split; done. Qed.

(** ** Paths *)

Lemma endswith_inv (s e : string) : Py.endswith s e = true -> exists q, s = q +:+ e.
Proof.
  induction s as [|c s IH]; cbn [Py.endswith].
  - destruct (String.eqb_spec "" e) as [<-|]; [|discriminate]. by exists "".
  - destruct (String.eqb_spec (String c s) e) as [<-|_].
    + by exists "".
    + intros [q ->]%IH. by exists (String c q).
Qed.

Lemma contains_sep_rsplit (s : string) :
  Os.has_sep s = false -> PosixPath.rsplit_at PosixPath.sep s = None.
Proof.
  unfold Os.has_sep. induction s as [|c s IH]; [done|].
  cbn [Py.contains Py.startswith PosixPath.rsplit_at].
  destruct (Ascii.eqb_spec "/" c) as [<-|Hc]; cbn [andb]; [discriminate|].
  intros H. rewrite (IH H). unfold PosixPath.sep.
  destruct (Ascii.eqb_spec c "/"); [congruence|done].
Qed.

Lemma rsplit_at_app (p name : string) :
  PosixPath.rsplit_at PosixPath.sep name = None ->
  PosixPath.rsplit_at PosixPath.sep ((p +:+ "/") +:+ name) = Some (p +:+ "/", name).
Proof.
  intros H. induction p as [|a p IH].
  - change (("" +:+ "/") +:+ name) with (String "/" name). cbn. by rewrite H.
  - rewrite !app_cons. cbn [PosixPath.rsplit_at]. by rewrite IH.
Qed.

Lemma join_relative (d name : string) :
  Os.has_sep name = false -> PosixPath.join d name = Os.dir_prefix d +:+ name.
Proof.
  intros H. unfold PosixPath.join, Os.dir_prefix.
  assert (Py.startswith name "/" = false) as ->.
  { unfold Os.has_sep in H. destruct name; [done|]. cbn [Py.contains] in H.
    by destruct (Py.startswith (String _ _) "/"). }
  destruct (negb (Py.truthy d) || Py.endswith d "/")%bool; [done|].
  by rewrite app_assoc.
Qed.

(** A name without separator joined to a directory splits back into the
    directory part and the name. *)
Lemma split_raw_join (d name : string) :
  Os.has_sep name = false ->
  PosixPath.split_raw (PosixPath.join d name) = (Os.dir_prefix d, name).
Proof.
  intros H. rewrite join_relative by done.
  pose proof (contains_sep_rsplit name H) as Hname.
  unfold PosixPath.split_raw, Os.dir_prefix.
  destruct d as [|a d].
  - cbn [Py.truthy negb orb]. change ("" +:+ name) with name. by rewrite Hname.
  - cbn [Py.truthy negb orb].
    destruct (Py.endswith (String a d) "/") eqn:E.
    + apply endswith_inv in E as [q ->]. by rewrite rsplit_at_app.
    + by rewrite rsplit_at_app.
Qed.

Lemma basename_join (d name : string) :
  Os.has_sep name = false -> PosixPath.basename (PosixPath.join d name) = name.
Proof. intros H. unfold PosixPath.basename. by rewrite split_raw_join. Qed.

Lemma split_raw_plain (name : string) :
  Os.has_sep name = false -> PosixPath.split_raw name = ("", name).
Proof.
  intros H. unfold PosixPath.split_raw. by rewrite contains_sep_rsplit.
Qed.

Lemma splitext_join_ext (d name : string) :
  Os.has_sep name = false ->
  snd (PosixPath.splitext (PosixPath.join d name)) = snd (PosixPath.splitext name).
Proof.
  intros H. unfold PosixPath.splitext.
  rewrite split_raw_join, split_raw_plain by done.
  destruct (PosixPath.rcut _ name) as [[stem ext]|]; [|done].
  by destruct (PosixPath.all_char _ stem).
Qed.

(** ** Scenario A *)

Lemma format_img (rt : Fmt.runtime) :
  Fmt.format rt "img_{n:02d}" 1 = Some "img_01"
  /\ Fmt.format rt "img_{n:02d}" 2 = Some "img_02"
  /\ Fmt.format rt "img_-n" 1 = Some "img_-n".
Proof. vm_compute. repeat split. Qed.

(** C3, as amended.  Scenario A holds in the window: with the files
    [a.png] and [b.png] of a directory, the pattern [img_-n], start 1 and
    padding 2, [_build_actions] plans [a.png -> img_01.png] and
    [b.png -> img_02.png], the two names being free.  On the command line
    the pattern is a Python format string, in which [-n] is no token; the
    same plan is obtained there with the pattern [img_{n:02d}]. *)
Theorem scenario_a (rt : Fmt.runtime) (w : Os.world) (d prefix separator sort_by : string)
    (padding : Z) (exts : list string) (map_csv : option string) :
  let a := PosixPath.join d "a.png" in
  let b := PosixPath.join d "b.png" in
  (Os.path_exists w (PosixPath.join (PosixPath.dirname a) "img_01.png") = false ->
   Os.path_exists w (PosixPath.join (PosixPath.dirname b) "img_02.png") = false ->
   GuiRename._build_actions rt w (GuiRename.Gui [a; b] "img_-n" 1 2)
   = [(a, PosixPath.join (PosixPath.dirname a) "img_01.png");
      (b, PosixPath.join (PosixPath.dirname b) "img_02.png")])
  /\ (RenameImages.find_images w d exts sort_by = Some ["a.png"; "b.png"] ->
      Os.path_exists w (PosixPath.join d "img_01.png") = false ->
      Os.path_exists w (PosixPath.join d "img_02.png") = false ->
      Run.result (RenameImages.rename_sequence rt w d prefix 1 padding exts true sort_by
                    separator (Some "img_{n:02d}") map_csv)
      = Run.Returned [(a, PosixPath.join d "img_01.png"); (b, PosixPath.join d "img_02.png")]).
Proof.
  intros a b. split.
  - intros Ha Hb. unfold GuiRename._build_actions.
    cbn [GuiRename.files GuiRename.pattern_var GuiRename.start_var GuiRename.padding_var].
    change (Py.strip "img_-n") with "img_-n".
    cbn [GuiRename.build_loop].
    assert (Hname : forall name n out,
               Os.has_sep name = false -> snd (PosixPath.splitext name) = ".png" ->
               Py.replace "img_-n" "-n" (Py.zfill (Py.str n) 2) = out ->
               snd (PosixPath.splitext out) = "" ->
               GuiRename.action_name rt "img_-n" 2 (PosixPath.join d name) n = out +:+ ".png").
    { intros name n out Hsep Hext Hout Hnone. unfold GuiRename.action_name.
      rewrite splitext_join_ext, Hext by done.
      change (Py.contains "-n" "img_-n" && negb (2 =? 0))%bool with true. cbv iota.
      rewrite Hout, Hnone. reflexivity. }
    subst a b. change (1 + 1) with 2.
    rewrite (Hname "a.png" 1 "img_01"), (Hname "b.png" 2 "img_02")
      by (vm_compute; reflexivity).
    change ("img_01" +:+ ".png") with "img_01.png".
    change ("img_02" +:+ ".png") with "img_02.png".
    rewrite !gui_next_free_name_eq, !next_free_name_unchanged by done. reflexivity.
  - intros Hfiles Ha Hb.
    rewrite (rename_sequence_dry_returns rt w d prefix 1 padding exts sort_by separator
               (Some "img_{n:02d}") map_csv _ Hfiles).
    cbn [RenameImages.plan]. change (1 + 1) with 2. unfold RenameImages.sequence_name.
    change (Py.truthy "img_{n:02d}") with true. cbv iota.
    destruct (format_img rt) as (-> & -> & _).
    change (snd (PosixPath.splitext "img_01")) with "".
    change (snd (PosixPath.splitext "img_02")) with "".
    change (snd (PosixPath.splitext "a.png")) with ".png".
    change (snd (PosixPath.splitext "b.png")) with ".png".
    cbn [Py.truthy].
    change ("img_01" +:+ ".png") with "img_01.png".
    change ("img_02" +:+ ".png") with "img_02.png".
    rewrite !next_free_name_unchanged by done. reflexivity.
Qed.

Lemma scenario_a_witness :
  GuiRename._build_actions Samples.no_runtime Samples.pics
    (GuiRename.Gui ["/pics/a.png"; "/pics/b.png"] "img_-n" 1 2)
  = [("/pics/a.png", "/pics/img_01.png"); ("/pics/b.png", "/pics/img_02.png")]
  /\ Run.result (RenameImages.rename_sequence Samples.no_runtime Samples.pics "/pics" "" 1 3
                   [".png"] true "name" "_" (Some "img_{n:02d}") None)
     = Run.Returned [("/pics/a.png", "/pics/img_01.png"); ("/pics/b.png", "/pics/img_02.png")].
Proof.
  destruct (scenario_a Samples.no_runtime Samples.pics "/pics" "" "_" "name" 3 [".png"] None)
    as [Hgui Hcli].
  split.
  - apply Hgui; reflexivity.
  - apply Hcli; reflexivity.
Defined.

(** C3, as stated, fails on the command line: there the pattern [img_-n]
    is kept as it is written. *)
Lemma scenario_a_command_line :
  Run.result (RenameImages.rename_sequence Samples.no_runtime Samples.pics "/pics" "" 1 2
                [".png"] true "name" "_" (Some "img_-n") None)
  = Run.Returned [("/pics/a.png", "/pics/img_-n.png"); ("/pics/b.png", "/pics/img_-n.png")]
  /\ Run.result (RenameImages.rename_sequence Samples.no_runtime Samples.pics "/pics" "" 1 2
                   [".png"] true "name" "_" (Some "img_-n") None)
     <> Run.Returned [("/pics/a.png", "/pics/img_01.png"); ("/pics/b.png", "/pics/img_02.png")].
Proof. vm_compute. split; [reflexivity|discriminate]. Qed.

(** ** The mapping file read back *)

Lemma not_special (c : ascii) :
  Csv.special c = false ->
  Csv.is_newline c = false /\ Ascii.eqb c Csv.quotechar = false
  /\ Ascii.eqb c Csv.delimiter = false /\ forall r, Csv.ends_line c r = false.
Proof.
  unfold Csv.special, Csv.is_newline, Csv.ends_line.
  destruct (Ascii.eqb c Csv.delimiter), (Ascii.eqb c Csv.quotechar),
    (Ascii.eqb c Csv.CR), (Ascii.eqb c Csv.LF); try discriminate; by repeat split.
Qed.

Lemma feed_cons (p : Csv.parser) (pending : bool) (c : ascii) (r : string) :
  Csv.feed p pending (String c r)
  = match Csv.process p (Some c) with
    | None => ([], true)
    | Some p1 =>
        if Csv.ends_line c r then
          match Csv.process p1 None with
          | None => ([], true)
          | Some p2 =>
              if Csv.is_start_record (Csv.state p2)
              then let '(rows, err) := Csv.feed Csv.fresh false r in (Csv.fields p2 :: rows, err)
              else Csv.feed p2 false r
          end
        else Csv.feed p1 true r
    end.
Proof. reflexivity. Qed.

(** The characters of an unquoted field. *)
Lemma feed_in_field (s fld : string) (flds : list string) (pending : bool) (rest : string) :
  Csv.has_special s = false ->
  Csv.feed (Csv.Parser Csv.IN_FIELD fld flds) pending (s +:+ rest)
  = Csv.feed (Csv.Parser Csv.IN_FIELD (fld +:+ s) flds) (pending || Py.truthy s) rest.
Proof.
  revert fld pending. induction s as [|c s IH]; intros fld pending.
  - intros _. by rewrite app_nil_r, orb_false_r.
  - cbn [Csv.has_special]. intros [Hc Hs]%orb_false_elim.
    destruct (not_special c Hc) as (Hnl & Hq & Hd & Hend).
    rewrite app_cons, feed_cons. unfold Csv.process. cbn [Csv.state].
    rewrite Hnl, Hd, Hend. unfold Csv.add_char. cbn [Csv.field Csv.fields].
    rewrite IH by done. cbn [Py.truthy]. rewrite orb_true_r.
    by rewrite app_assoc.
Qed.

(** The characters of a quoted field, up to the closing quote. *)
Lemma feed_in_quoted (s fld : string) (flds : list string) (pending : bool) (rest : string) :
  Csv.feed (Csv.Parser Csv.IN_QUOTED_FIELD fld flds) pending
    (Csv.double_quotes s +:+ String Csv.quotechar rest)
  = Csv.feed (Csv.Parser Csv.QUOTE_IN_QUOTED_FIELD (fld +:+ s) flds) true rest.
Proof.
  revert fld pending. induction s as [|c s IH]; intros fld pending.
  - change (Csv.double_quotes "" +:+ String Csv.quotechar rest)
      with (String Csv.quotechar rest).
    rewrite feed_cons. unfold Csv.process. cbn [Csv.state].
    rewrite Ascii.eqb_refl. by rewrite app_nil_r.
  - cbn [Csv.double_quotes]. destruct (Ascii.eqb_spec c Csv.quotechar) as [->|Hc].
    + rewrite !app_cons, feed_cons. unfold Csv.process at 1. cbn [Csv.state].
      rewrite Ascii.eqb_refl.
      change (Csv.ends_line Csv.quotechar ?r) with false. cbv iota.
      rewrite feed_cons. unfold Csv.process at 1, Csv.goto. cbn [Csv.state].
      rewrite Ascii.eqb_refl.
      change (Csv.ends_line Csv.quotechar ?r) with false. cbv iota.
      unfold Csv.add_char. cbn [Csv.field Csv.fields].
      rewrite IH. by rewrite app_assoc.
    + rewrite app_cons, feed_cons. unfold Csv.process at 1. cbn [Csv.state].
      apply Ascii.eqb_neq in Hc. rewrite Hc.
      unfold Csv.add_char. cbn [Csv.field Csv.fields].
      destruct (Csv.ends_line c _).
      * unfold Csv.process. cbn [Csv.state Csv.is_start_record].
        rewrite IH. by rewrite app_assoc.
      * rewrite IH. by rewrite app_assoc.
Qed.

Lemma feed_field (st : Csv.pstate) (f : string) (flds : list string) (pending : bool)
    (rest : string) :
  Props.field_start st ->
  Csv.feed (Csv.Parser st "" flds) pending (Csv.quote_field f +:+ rest)
  = Csv.feed (Props.after_field st f flds) (pending || Py.truthy (Csv.quote_field f)) rest.
Proof.
  intros Hst. unfold Csv.quote_field, Props.after_field.
  destruct (Csv.has_special f) eqn:Hf.
  - rewrite app_cons, app_assoc, app_cons. change ("" +:+ rest) with rest.
    rewrite feed_cons.
    assert (Csv.process (Csv.Parser st "" flds) (Some Csv.quotechar)
            = Some (Csv.Parser Csv.IN_QUOTED_FIELD "" flds)) as ->
      by (by destruct Hst as [-> | ->]).
    change (Csv.ends_line Csv.quotechar ?r) with false. cbv iota.
    rewrite feed_in_quoted. cbn [Py.truthy]. by rewrite orb_true_r.
  - destruct f as [|c s].
    + change ("" +:+ rest) with rest. cbn [Py.truthy]. by rewrite orb_false_r.
    + cbn [Csv.has_special] in Hf. apply orb_false_elim in Hf as [Hc Hs].
      destruct (not_special c Hc) as (Hnl & Hq & Hd & Hend).
      rewrite app_cons, feed_cons.
      assert (Csv.process (Csv.Parser st "" flds) (Some c)
              = Some (Csv.Parser Csv.IN_FIELD (String c "") flds)) as ->.
      { destruct Hst as [-> | ->]; unfold Csv.process, Csv.start_field; cbn [Csv.state];
          by rewrite Hnl, ?Hq, ?Hd. }
      rewrite Hend, feed_in_field by done. cbn [Py.truthy]. by rewrite orb_true_r.
Qed.

Lemma feed_delimiter (st : Csv.pstate) (f : string) (flds : list string) (pending : bool)
    (rest : string) :
  Props.field_start st ->
  Csv.feed (Props.after_field st f flds) pending (String Csv.delimiter rest)
  = Csv.feed (Csv.Parser Csv.START_FIELD "" (flds ++ [f])) true rest.
Proof.
  intros Hst. rewrite feed_cons. unfold Props.after_field.
  destruct (Csv.has_special f); [reflexivity|].
  destruct f as [|c s]; [|reflexivity].
  by destruct Hst as [-> | ->].
Qed.

Lemma feed_lineterminator (f : string) (flds : list string) (pending : bool) (rest : string) :
  Csv.feed (Props.after_field Csv.START_FIELD f flds) pending (Csv.lineterminator +:+ rest)
  = let '(rows, err) := Csv.feed Csv.fresh false rest in ((flds ++ [f]) :: rows, err).
Proof.
  change (Csv.lineterminator +:+ rest) with (String Csv.CR (String Csv.LF rest)).
  rewrite feed_cons.
  assert (Csv.process (Props.after_field Csv.START_FIELD f flds) (Some Csv.CR)
          = Some (Csv.Parser Csv.EAT_CRNL "" (flds ++ [f]))) as ->.
  { unfold Props.after_field. destruct (Csv.has_special f); [reflexivity|].
    by destruct f. }
  change (Csv.ends_line Csv.CR (String Csv.LF rest)) with false. cbv iota.
  rewrite feed_cons. reflexivity.
Qed.

Lemma feed_fields (fs flds : list string) (pending : bool) (rest : string) :
  fs <> [] ->
  Csv.feed (Csv.Parser Csv.START_FIELD "" flds) pending
    ((Csv.join_fields fs +:+ Csv.lineterminator) +:+ rest)
  = let '(rows, err) := Csv.feed Csv.fresh false rest in ((flds ++ fs) :: rows, err).
Proof.
  revert flds pending. induction fs as [|f fs IH]; intros flds pending Hne; [done|].
  destruct fs as [|f' fs].
  - cbn [Csv.join_fields]. rewrite app_assoc.
    rewrite feed_field by (by right). apply feed_lineterminator.
  - change (Csv.join_fields (f :: f' :: fs))
      with (Csv.quote_field f +:+ String Csv.delimiter (Csv.join_fields (f' :: fs))).
    rewrite !app_assoc. rewrite feed_field by (by right).
    rewrite app_cons, feed_delimiter by (by right).
    rewrite <- app_assoc, IH by done.
    destruct (Csv.feed Csv.fresh false rest). by rewrite <- List.app_assoc.
Qed.

Lemma writerow_fields (f1 f2 : string) (fs : list string) :
  Csv.writerow (f1 :: f2 :: fs)
  = Csv.quote_field f1 +:+ String Csv.delimiter (Csv.join_fields (f2 :: fs) +:+ Csv.lineterminator).
Proof.
  unfold Csv.writerow.
  change (Csv.join_fields (f1 :: f2 :: fs))
    with (Csv.quote_field f1 +:+ String Csv.delimiter (Csv.join_fields (f2 :: fs))).
  destruct f1; by rewrite app_assoc, app_cons.
Qed.

(** A row of two fields or more is read back as it was written. *)
Lemma feed_writerow (f1 f2 : string) (fs : list string) (rest : string) :
  Csv.feed Csv.fresh false (Csv.writerow (f1 :: f2 :: fs) +:+ rest)
  = let '(rows, err) := Csv.feed Csv.fresh false rest in ((f1 :: f2 :: fs) :: rows, err).
Proof.
  rewrite writerow_fields, app_assoc. unfold Csv.fresh at 1.
  rewrite feed_field by (by left). rewrite app_cons, feed_delimiter by (by left).
  by rewrite feed_fields.
Qed.

Lemma reader_writerows (rows : list (list string)) :
  Forall (fun row => (2 <= length row)%nat) rows ->
  Csv.reader (Csv.writerows rows) = (rows, false).
Proof.
  unfold Csv.reader. induction 1 as [|row rows Hrow _ IH]; [reflexivity|].
  destruct row as [|f1 [|f2 fs]]; [cbn in Hrow; lia..|].
  cbn [Csv.writerows]. by rewrite feed_writerow, IH.
Qed.

(** ** Writing the mapping file *)

Lemma find_entry_replace (es : list (string * Os.node)) (p q : string) (nd : Os.node) :
  Os.find_entry (map (fun e => if String.eqb (fst e) p then (p, nd) else e) es) q
  = if String.eqb p q
    then match Os.find_entry es p with Some _ => Some nd | None => None end
    else Os.find_entry es q.
Proof.
  induction es as [|[k x] es IH]; [by destruct (String.eqb p q)|].
  cbn [map fst Os.find_entry]. destruct (String.eqb_spec k p) as [->|Hk].
  - cbn [Os.find_entry]. destruct (String.eqb_spec p q) as [->|Hq]; [done|].
    rewrite IH. by destruct (String.eqb_spec p q).
  - cbn [Os.find_entry]. rewrite IH.
    destruct (String.eqb_spec k q) as [->|Hq]; [|done].
    by destruct (String.eqb_spec p q) as [->|_].
Qed.

Lemma find_entry_append (es : list (string * Os.node)) (p q : string) (nd : Os.node) :
  Os.find_entry (es ++ [(p, nd)]) q
  = match Os.find_entry es q with
    | Some x => Some x
    | None => if String.eqb p q then Some nd else None
    end.
Proof.
  induction es as [|[k x] es IH]; [done|].
  cbn [app Os.find_entry]. by destruct (String.eqb k q).
Qed.

(** A successful write leaves a file with the text at the path and touches
    no other path. *)
Lemma write_file_stat (w w' : Os.world) (p text : string) :
  Os.write_file w p text = Some w' ->
  (exists t, Os.stat w' p = Some (Os.File text t))
  /\ forall q, q <> p -> Os.stat w' q = Os.stat w q.
Proof.
  unfold Os.write_file, Os.stat.
  destruct (Os.find_entry (Os.entries w) p) as [[c t|]|] eqn:E; [|discriminate|].
  - intros [= <-]. cbn [Os.entries]. split.
    + exists (Os.clock w). by rewrite find_entry_replace, String.eqb_refl, E.
    + intros q Hq. rewrite find_entry_replace.
      by destruct (String.eqb_spec p q) as [->|_].
  - destruct (_ && _)%bool; [|discriminate]. intros [= <-]. cbn [Os.entries]. split.
    + exists (Os.clock w). by rewrite find_entry_append, E, String.eqb_refl.
    + intros q Hq. rewrite find_entry_append.
      destruct (Os.find_entry (Os.entries w) q); [done|].
      by destruct (String.eqb_spec p q) as [->|_].
Qed.

(** ** The files that are collected *)

Lemma insert_by_In {K A : Type} (ltb : K -> K -> bool) (key : A -> K) (x y : A) (l : list A) :
  In x (RenameImages.insert_by ltb key y l) <-> x = y \/ In x l.
Proof.
  induction l as [|z l IH]; cbn; [intuition auto|].
  destruct (ltb (key z) (key y)); cbn; [rewrite IH|]; intuition auto.
Qed.

Lemma sort_by_key_In {K A : Type} (ltb : K -> K -> bool) (key : A -> K) (x : A) (l : list A) :
  In x (RenameImages.sort_by_key ltb key l) <-> In x l.
Proof.
  induction l as [|y l IH]; [done|]. cbn. rewrite insert_by_In, IH. intuition auto.
Qed.

Lemma listdir_In (w : Os.world) (d : string) (names : list string) (name : string) :
  Os.listdir w d = Some names -> In name names ->
  Py.truthy name = true /\ Os.has_sep name = false.
Proof.
  unfold Os.listdir. destruct (Os.isdir w d); [|discriminate]. intros [= <-].
  rewrite <- list_elem_of_In, list_elem_of_omap. intros (e & _ & He).
  unfold Os.child_name in He.
  destruct (Py.startswith (fst e) (Os.dir_prefix d)); [|discriminate].
  destruct (Py.truthy _ && negb (Os.has_sep _))%bool eqn:E; [|discriminate].
  injection He as <-.
  apply andb_true_iff in E as [? ?%negb_true_iff]. done.
Qed.

(** A collected file is listed under a plain name and exists. *)
Lemma find_images_In (w : Os.world) (d : string) (exts : list string) (sort_by : string)
    (files : list string) (f : string) :
  RenameImages.find_images w d exts sort_by = Some files -> In f files ->
  Py.truthy f = true /\ Os.has_sep f = false
  /\ Os.path_exists w (PosixPath.join d f) = true.
Proof.
  unfold RenameImages.find_images.
  destruct (Os.listdir w d) as [names|] eqn:Hlist; [|discriminate].
  set (entries := filter _ names).
  assert (Hentries : In f entries ->
            Py.truthy f = true /\ Os.has_sep f = false
            /\ Os.path_exists w (PosixPath.join d f) = true).
  { unfold entries. rewrite <- list_elem_of_In, list_elem_of_filter, list_elem_of_In.
    intros [Hf Hin]. destruct (listdir_In _ _ _ _ Hlist Hin) as [? ?].
    repeat split; [done..|].
    apply Is_true_true, andb_true_iff in Hf as [Hfile _].
    unfold Os.isfile in Hfile. unfold Os.path_exists.
    by destruct (Os.stat w _). }
  destruct (String.eqb sort_by "mtime").
  - destruct (mapM _ entries); [|discriminate].
    intros [= <-] Hin. apply Hentries. by apply sort_by_key_In in Hin.
  - intros [= <-] Hin. apply Hentries. by apply sort_by_key_In in Hin.
Qed.

(** ** Export and import of a plan *)

Lemma rcut_tail (c : ascii) (p h t : string) :
  PosixPath.rcut c p = Some (h, t) -> Py.truthy t = true.
Proof.
  revert h. induction p as [|a p IH]; intros h; [discriminate|]. cbn [PosixPath.rcut].
  destruct (PosixPath.rcut c p) as [[h' t']|].
  - intros [= <- <-]. by eapply IH.
  - destruct (Ascii.eqb a c); [|discriminate]. by intros [= <- <-].
Qed.

Lemma splitext_no_ext (p : string) :
  Py.truthy (snd (PosixPath.splitext p)) = false -> PosixPath.splitext p = (p, "").
Proof.
  unfold PosixPath.splitext. destruct (PosixPath.split_raw p) as [head file].
  destruct (PosixPath.rcut _ file) as [[stem ext]|] eqn:E; [|done].
  destruct (PosixPath.all_char _ stem); [done|]. cbn [snd].
  by rewrite (rcut_tail _ _ _ _ E).
Qed.

Lemma truthy_false (s : string) : Py.truthy s = false -> s = "".
Proof. by destruct s. Qed.

Lemma mapping_row_replay (w : Os.world) (d f : string) (a : Run.action) :
  Props.replayable d a = true ->
  fst a = PosixPath.join d f -> Os.has_sep f = false -> Py.truthy f = true ->
  Os.path_exists w (fst a) = true -> Os.path_exists w (snd a) = false ->
  RenameImages.mapping_row w d ["name_raw"; "name_change"]
    [PosixPath.basename (fst a); PosixPath.basename (snd a)]
  = RenameImages.Planned a.
Proof.
  unfold Props.replayable.
  intros [[[[Hs Ht]%andb_true_iff Hne]%andb_true_iff Hdst]%andb_true_iff Hext]%andb_true_iff.
  apply String.eqb_eq in Hs, Ht, Hdst.
  intros Hsrc Hsep Hf Hexists Hfree.
  unfold RenameImages.mapping_row.
  change (Csv.row_get ["name_raw"; "name_change"]
            [PosixPath.basename (fst a); PosixPath.basename (snd a)] "name_raw")
    with (Some (PosixPath.basename (fst a))).
  change (Csv.row_get ["name_raw"; "name_change"]
            [PosixPath.basename (fst a); PosixPath.basename (snd a)] "name_change")
    with (Some (PosixPath.basename (snd a))).
  cbn [default from_option id]. rewrite Hs, Ht.
  assert (Hb : PosixPath.basename (fst a) = f) by (rewrite Hsrc; by apply basename_join).
  rewrite Hb, <- Hsrc, Hf, Hne, Hexists. cbn [negb orb].
  unfold RenameImages.mapping_target.
  set (t := PosixPath.basename (snd a)) in *.
  assert (Hname : (let '(base, ext) := PosixPath.splitext t in
                   if negb (Py.truthy ext)
                   then base +:+ snd (PosixPath.splitext (fst a)) else t) = t).
  { destruct (Py.truthy (snd (PosixPath.splitext t))) eqn:E.
    - destruct (PosixPath.splitext t) as [base ext]. cbn [snd] in E. by rewrite E.
    - rewrite (splitext_no_ext t E). cbn [Py.truthy negb].
      cbn [orb] in Hext. apply negb_true_iff, truthy_false in Hext.
      by rewrite Hext, app_nil_r. }
  destruct (PosixPath.splitext t) as [base ext]. rewrite Hname.
  rewrite next_free_name_unchanged by (by rewrite Hdst).
  rewrite Hdst. by destruct a.
Qed.

Lemma mapping_rows_loop_replay (w : Os.world) (d : string) (results : list Run.action) :
  (forall a, In a results ->
     Props.replayable d a = true
     /\ (exists f, fst a = PosixPath.join d f /\ Os.has_sep f = false /\ Py.truthy f = true)
     /\ Os.path_exists w (fst a) = true /\ Os.path_exists w (snd a) = false) ->
  RenameImages.mapping_rows_loop w d ["name_raw"; "name_change"]
    (map (fun a => [PosixPath.basename (fst a); PosixPath.basename (snd a)]) results)
  = (results, [], false).
Proof.
  induction results as [|a results IH]; intros H; [reflexivity|].
  cbn [map RenameImages.mapping_rows_loop].
  destruct (H a (or_introl eq_refl)) as (Hrep & (f & Hsrc & Hsep & Hf) & Hexists & Hfree).
  rewrite (mapping_row_replay w d f a) by done.
  rewrite IH; [reflexivity|]. intros b Hb. apply H. by right.
Qed.

Lemma plan_sources (rt : Fmt.runtime) (w : Os.world) (d prefix : string) (padding : Z)
    (separator : string) (pattern : option string) (files : list string) (n : Z)
    (a : Run.action) :
  In a (RenameImages.plan rt w d prefix padding separator pattern files n) ->
  exists f, In f files /\ fst a = PosixPath.join d f.
Proof.
  revert n. induction files as [|f files IH]; intros n; [intros []|].
  intros [<-|H].
  - exists f. split; [by left|done].
  - destruct (IH _ H) as (g & Hg & ->). exists g. split; [by right|done].
Qed.

Lemma mapping_rows_wide (results : list Run.action) :
  Forall (fun row : list string => (2 <= length row)%nat) (RenameImages.mapping_rows results).
Proof.
  unfold RenameImages.mapping_rows. constructor; [cbn; lia|].
  apply List.Forall_forall. intros row (a & <- & _)%in_map_iff. cbn. lia.
Qed.

(** C8, as amended.  A plan computed in dry-run mode, exported to a mapping
    file and imported at once against the same directory is reproduced,
    action for action, provided that the mapping file is written, that it
    is none of the planned destinations, and that every action is handed
    over as it is by the mapping ([Props.replayable]: no white space at the
    ends of the two basenames, a destination name that is not empty, lies
    in the directory itself, and has an extension unless the source has
    none). *)
Theorem mapping_round_trip (rt : Fmt.runtime) (w w' : Os.world) (d prefix : string)
    (start padding : Z) (exts : list string) (sort_by separator : string)
    (pattern : option string) (csv : string) (results : list Run.action) :
  Run.result (RenameImages.rename_sequence rt w d prefix start padding exts true sort_by
                separator pattern (Some csv)) = Run.Returned results ->
  Py.truthy csv = true ->
  Os.write_file w csv (Csv.writerows (RenameImages.mapping_rows results)) = Some w' ->
  ~ In csv (map snd results) ->
  forallb (Props.replayable d) results = true ->
  Run.final (RenameImages.rename_sequence rt w d prefix start padding exts true sort_by
               separator pattern (Some csv)) = w'
  /\ Run.result (RenameImages.apply_csv_mapping w' d csv true) = Run.Returned results
  /\ Run.final (RenameImages.apply_csv_mapping w' d csv true) = w'.
Proof.
  intros Hres Hcsv Hwrite Hnot Hrep.
  destruct (rename_sequence_returned _ _ _ _ _ _ _ _ _ _ _ _ _ Hres) as (files & Hfiles & Hplan).
  split.
  - unfold RenameImages.rename_sequence. rewrite Hfiles, <- Hplan.
    destruct (perform_dry_run w results) as [out ->].
    unfold RenameImages.export_mapping. by rewrite Hcsv, Hwrite.
  - destruct (write_file_stat _ _ _ _ Hwrite) as [[t Hstat] Hother].
    assert (Hloop : RenameImages.mapping_rows_loop w' d ["name_raw"; "name_change"]
                      (map (fun a => [PosixPath.basename (fst a); PosixPath.basename (snd a)])
                           results)
                    = (results, [], false)).
    { apply mapping_rows_loop_replay. intros a Ha.
      assert (Hdst : snd a <> csv).
      { intros <-. apply Hnot, in_map_iff. eauto. }
      split; [by eapply forallb_forall in Hrep|].
      rewrite Hplan in Ha.
      destruct (plan_sources _ _ _ _ _ _ _ _ _ _ Ha) as (f & Hf & Hsrc).
      destruct (find_images_In _ _ _ _ _ _ Hfiles Hf) as (Htruthy & Hsep & Hexists).
      split; [eauto|]. split.
      - unfold Os.path_exists. destruct (String.eqb_spec (fst a) csv) as [->|Hne].
        + by rewrite Hstat.
        + rewrite Hother by done. rewrite Hsrc. exact Hexists.
      - unfold Os.path_exists. rewrite Hother by done. by eapply plan_free. }
    unfold RenameImages.apply_csv_mapping, Os.isfile, Os.read_file. rewrite Hstat.
    cbn [negb]. rewrite reader_writerows by apply mapping_rows_wide.
    unfold RenameImages.mapping_rows at 1 2.
    assert ((negb (bool_decide ("name_raw" ∈ ["name_raw"; "name_change"]))
             || negb (bool_decide ("name_change" ∈ ["name_raw"; "name_change"])))%bool
            = false) as ->.
    { rewrite !bool_decide_eq_true_2; [done|..]; rewrite list_elem_of_In; cbn; auto. }
    rewrite Hloop.
    pose proof (apply_actions_dry_run w' results) as Hfinal.
    destruct (RenameImages.apply_actions true w' results) as [w2 out2].
    cbn [fst] in Hfinal. by subst w2.
Qed.

Lemma mapping_round_trip_witness :
  let dry := RenameImages.rename_sequence Samples.no_runtime Samples.pics_out "/pics" "" 1 2
               [".png"] true "name" "_" (Some "img_{n:02d}") (Some "/out/map.csv") in
  let planned := [("/pics/a.png", "/pics/img_01.png"); ("/pics/b.png", "/pics/img_02.png")] in
  Run.result dry = Run.Returned planned
  /\ Os.isfile (Run.final dry) "/out/map.csv" = true
  /\ Run.result (RenameImages.apply_csv_mapping (Run.final dry) "/pics" "/out/map.csv" true)
     = Run.Returned planned.
Proof.
  intros dry planned.
  assert (Hres : Run.result dry = Run.Returned planned) by (vm_compute; reflexivity).
  assert (Hwrite : Os.write_file Samples.pics_out "/out/map.csv"
                     (Csv.writerows (RenameImages.mapping_rows planned))
                   = Some (Run.final dry)) by (vm_compute; reflexivity).
  assert (Hnot : ~ In "/out/map.csv" (map snd planned)).
  { intros [H|[H|[]]]; discriminate H. }
  assert (Hrep : forallb (Props.replayable "/pics") planned = true)
    by (vm_compute; reflexivity).
  destruct (mapping_round_trip Samples.no_runtime Samples.pics_out (Run.final dry) "/pics" ""
              1 2 [".png"] "name" "_" (Some "img_{n:02d}") "/out/map.csv" planned
              Hres eq_refl Hwrite Hnot Hrep) as (_ & Hback & _).
  split; [exact Hres|]. split; [vm_compute; reflexivity|exact Hback].
Defined.

(** C8, as stated, fails: the import strips the white space around a name.
    The plan for a file named [ a.png] is exported with that name, and the
    import looks for [a.png], finds no such file and plans nothing. *)
Lemma mapping_round_trip_loses_action :
  let dry := RenameImages.rename_sequence Samples.no_runtime Samples.pics_space "/pics" "" 1 0
               [".png"] true "name" "_" (Some "img_{n}") (Some "/out/map.csv") in
  let back := RenameImages.apply_csv_mapping (Run.final dry) "/pics" "/out/map.csv" true in
  Run.result dry = Run.Returned [("/pics/ a.png", "/pics/img_1.png")]
  /\ Os.listdir (Run.final dry) "/pics" = Os.listdir Samples.pics_space "/pics"
  /\ Run.result back = Run.Returned []
  /\ Run.output back = [Run.Line "Source not found for mapping: a.png"]
  /\ Run.result back <> Run.result dry.
Proof. vm_compute. repeat split; try reflexivity. discriminate. Qed.

(** * Further properties of the code *)

(** ** Sorting *)

Lemma insert_by_perm {K A : Type} (ltb : K -> K -> bool) (key : A -> K) (x : A) (l : list A) :
  Permutation (RenameImages.insert_by ltb key x l) (x :: l).
Proof.
  induction l as [|y l IH]; [done|]. cbn.
  destruct (ltb (key y) (key x)); [|done].
  rewrite IH. apply perm_swap.
Qed.

Lemma sort_by_key_perm {K A : Type} (ltb : K -> K -> bool) (key : A -> K) (l : list A) :
  Permutation (RenameImages.sort_by_key ltb key l) l.
Proof.
  induction l as [|x l IH]; [done|]. cbn. rewrite insert_by_perm. by constructor.
Qed.

Section SortedBy.
Context {K A : Type} (ltb : K -> K -> bool) (key : A -> K) (ok : K -> Prop).
Hypothesis asym : forall a b, ok a -> ok b -> ltb a b = true -> ltb b a = false.
Hypothesis trans : forall a b c, ok a -> ok b -> ok c ->
  ltb b a = false -> ltb c b = false -> ltb c a = false.

Lemma insert_by_sorted (x : A) (l : list A) :
  ok (key x) -> List.Forall (fun y => ok (key y)) l ->
  Sorted.StronglySorted (Props.key_le ltb key) l ->
  Sorted.StronglySorted (Props.key_le ltb key) (RenameImages.insert_by ltb key x l).
Proof.
  intros Hx Hok Hsorted. induction Hsorted as [|y l Hl IH Hy].
  - repeat constructor.
  - apply List.Forall_cons_iff in Hok as [Hoky Hok]. cbn.
    destruct (ltb (key y) (key x)) eqn:E.
    + constructor; [by apply IH|].
      apply List.Forall_forall. intros z Hz.
      apply (Permutation_in _ (insert_by_perm ltb key x l)) in Hz as [<-|Hz].
      * by apply asym.
      * by eapply List.Forall_forall in Hy.
    + constructor; [by constructor|]. constructor; [exact E|].
      apply List.Forall_forall. intros z Hz. unfold Props.key_le.
      apply (trans (key x) (key y) (key z)); try done.
      * by eapply List.Forall_forall in Hok.
      * by eapply List.Forall_forall in Hy.
Qed.

Lemma sort_by_key_sorted (l : list A) :
  List.Forall (fun y => ok (key y)) l ->
  Sorted.StronglySorted (Props.key_le ltb key) (RenameImages.sort_by_key ltb key l).
Proof.
  induction l as [|x l IH]; [constructor|].
  intros [Hx Hl]%List.Forall_cons_iff. cbn. apply insert_by_sorted; [done| |by apply IH].
  apply List.Forall_forall. intros y Hy.
  apply (Permutation_in _ (sort_by_key_perm ltb key l)) in Hy.
  by eapply List.Forall_forall in Hl.
Qed.

End SortedBy.

(** ** The order of the natural keys *)

Lemma string_compare_trans (a b c : string) :
  String.compare a b = Lt -> String.compare b c = Lt -> String.compare a c = Lt.
Proof.
  revert b c. induction a as [|x a IH]; intros [|y b] [|z c]; cbn; try done.
  destruct (Ascii.compare x y) eqn:Exy; [|intros _|done].
  - apply Ascii.compare_eq_iff in Exy as ->.
    destruct (Ascii.compare y z); [apply IH|done|done].
  - destruct (Ascii.compare y z) eqn:Eyz; [|intros _|done].
    + apply Ascii.compare_eq_iff in Eyz as <-. by rewrite Exy.
    + assert (Ascii.compare x z = Lt) as ->; [|done].
      unfold Ascii.compare in *. apply N.compare_lt_iff.
      apply (N.lt_trans _ (N_of_ascii y)); [exact Exy|exact Eyz].
Qed.

Lemma string_ltb_asym (a b : string) : String.ltb a b = true -> String.ltb b a = false.
Proof.
  unfold String.ltb. rewrite (String.compare_antisym a b).
  by destruct (String.compare b a).
Qed.

Lemma string_ltb_total (a b : string) :
  String.eqb b a = false -> String.ltb b a = false -> String.ltb a b = true.
Proof.
  unfold String.ltb. rewrite (String.compare_antisym a b).
  destruct (String.compare b a) eqn:E; try done.
  apply String.compare_eq_iff in E as ->. by rewrite String.eqb_refl.
Qed.

Lemma string_ltb_trans (a b c : string) :
  String.ltb a b = true -> String.ltb b c = true -> String.ltb a c = true.
Proof.
  unfold String.ltb.
  destruct (String.compare a b) eqn:E1; try done.
  destruct (String.compare b c) eqn:E2; try done.
  by rewrite (string_compare_trans a b c).
Qed.

Lemma tok_eqb_eq (a b : RenameImages.tok) : RenameImages.tok_eqb a b = true <-> a = b.
Proof.
  destruct a as [x|x], b as [y|y]; cbn; try (split; [discriminate|congruence]).
  - rewrite String.eqb_eq. split; congruence.
  - rewrite Z.eqb_eq. split; congruence.
Qed.

Lemma tok_eqb_sym (a b : RenameImages.tok) :
  RenameImages.tok_eqb a b = RenameImages.tok_eqb b a.
Proof.
  destruct a as [x|x], b as [y|y]; cbn; try done.
  - apply String.eqb_sym.
  - apply Z.eqb_sym.
Qed.

Lemma tok_ltb_asym (a b : RenameImages.tok) :
  RenameImages.tok_ltb a b = true ->
  RenameImages.tok_ltb b a = false /\ RenameImages.tok_eqb b a = false.
Proof.
  destruct a as [x|x], b as [y|y]; cbn; try done.
  - intros H. split; [by apply string_ltb_asym|].
    apply String.eqb_neq. intros ->. apply string_ltb_asym in H as H'. congruence.
  - intros H%Z.ltb_lt. split; [apply Z.ltb_ge|apply Z.eqb_neq]; lia.
Qed.

Lemma tok_ltb_trans (a b c : RenameImages.tok) :
  RenameImages.tok_ltb a b = true -> RenameImages.tok_ltb b c = true ->
  RenameImages.tok_ltb a c = true.
Proof.
  destruct a as [x|x], b as [y|y], c as [z|z]; cbn; try done.
  - apply string_ltb_trans.
  - intros ?%Z.ltb_lt ?%Z.ltb_lt. apply Z.ltb_lt. lia.
Qed.

(** The same kind of element stands at the head of two keys that alternate
    alike, so that one of [<], [==], [>] holds between the heads. *)
Lemma tok_ltb_total (text : bool) (a b : RenameImages.tok) (ra rb : list RenameImages.tok) :
  Props.alternating text (a :: ra) = true -> Props.alternating text (b :: rb) = true ->
  RenameImages.tok_eqb b a = false -> RenameImages.tok_ltb b a = false ->
  RenameImages.tok_ltb a b = true.
Proof.
  destruct a as [x|x], b as [y|y], text; cbn; try done.
  - intros _ _. apply string_ltb_total.
  - intros _ _ ?%Z.eqb_neq ?%Z.ltb_ge. apply Z.ltb_lt. lia.
Qed.

Lemma alternating_tail (text : bool) (a : RenameImages.tok) (r : list RenameImages.tok) :
  Props.alternating text (a :: r) = true -> Props.alternating (negb text) r = true.
Proof. destruct a, text; cbn; try done. Qed.

Lemma key_ltb_asym (a b : list RenameImages.tok) :
  RenameImages.key_ltb a b = true -> RenameImages.key_ltb b a = false.
Proof.
  revert b. induction a as [|x a IH]; intros [|y b]; cbn; try done.
  rewrite (tok_eqb_sym y x). destruct (RenameImages.tok_eqb x y); [apply IH|].
  intros H. by apply tok_ltb_asym in H as [-> _].
Qed.

Lemma key_le_trans (text : bool) (a b c : list RenameImages.tok) :
  Props.alternating text a = true -> Props.alternating text b = true ->
  Props.alternating text c = true ->
  RenameImages.key_ltb b a = false -> RenameImages.key_ltb c b = false ->
  RenameImages.key_ltb c a = false.
Proof.
  revert text b c. induction a as [|x a IH]; intros text [|y b] [|z c] Ha Hb Hc; cbn;
    try done.
  destruct (RenameImages.tok_eqb y x) eqn:Eyx.
  - apply tok_eqb_eq in Eyx as ->.
    destruct (RenameImages.tok_eqb z x) eqn:Ezx; [|done].
    apply (IH (negb text)); by eapply alternating_tail.
  - intros Hyx. pose proof (tok_ltb_total text x y a b Ha Hb Eyx Hyx) as Hxy.
    destruct (RenameImages.tok_eqb z y) eqn:Ezy.
    + apply tok_eqb_eq in Ezy as ->. rewrite Eyx. by intros _.
    + intros Hzy. pose proof (tok_ltb_total text y z b c Hb Hc Ezy Hzy) as Hyz.
      pose proof (tok_ltb_trans x y z Hxy Hyz) as Hxz.
      by apply tok_ltb_asym in Hxz as [-> ->].
Qed.

Lemma digit_free_not_isdigit (t : string) : Props.digit_free t = true -> Py.isdigit t = false.
Proof.
  destruct t as [|c t]; [done|]. cbn [Props.digit_free Py.isdigit Py.all_digits].
  by destruct (Py.is_digit c).
Qed.

Lemma digit_free_app (s t : string) :
  Props.digit_free (s +:+ t) = (Props.digit_free s && Props.digit_free t)%bool.
Proof.
  induction s as [|c s IH]; [done|]. rewrite app_cons. cbn [Props.digit_free].
  by rewrite IH, andb_assoc.
Qed.

Lemma all_digits_app (s t : string) :
  Py.all_digits (s +:+ t) = (Py.all_digits s && Py.all_digits t)%bool.
Proof.
  induction s as [|c s IH]; [done|]. rewrite app_cons. cbn [Py.all_digits].
  by rewrite IH, andb_assoc.
Qed.

Lemma isdigit_snoc (t : string) (c : ascii) :
  Py.all_digits t = true -> Py.is_digit c = true -> Py.isdigit (t +:+ String c "") = true.
Proof.
  intros Ht Hc.
  assert (Py.all_digits (t +:+ String c "") = true) as H.
  { rewrite all_digits_app, Ht. cbn [Py.all_digits]. by rewrite Hc. }
  destruct t; [|exact H]. change ("" +:+ String c "") with (String c "").
  cbn [Py.isdigit Py.all_digits]. by rewrite Hc.
Qed.

Lemma isdigit_all_digits (t : string) : Py.isdigit t = true -> Py.all_digits t = true.
Proof. by destruct t. Qed.

(** The key of a name alternates text and number, text first. *)
Lemma re_split_digits_alternating (s cur : string) :
  (Props.digit_free cur = true ->
   Props.alternating true
     (map (fun t => if Py.isdigit t then RenameImages.TInt (Py.int_of_digits 0 t)
                    else RenameImages.TStr (Py.lower t))
          (RenameImages.re_split_digits cur false s)) = true)
  /\ (Py.isdigit cur = true ->
      Props.alternating false
        (map (fun t => if Py.isdigit t then RenameImages.TInt (Py.int_of_digits 0 t)
                       else RenameImages.TStr (Py.lower t))
             (RenameImages.re_split_digits cur true s)) = true).
Proof.
  revert cur. induction s as [|c s IH]; intros cur.
  - split; intros H; cbn [RenameImages.re_split_digits map].
    + by rewrite (digit_free_not_isdigit cur H).
    + by rewrite H.
  - cbn [RenameImages.re_split_digits]. destruct (Py.is_digit c) eqn:Hc.
    + assert (Hone : Py.isdigit (String c "") = true).
      { cbn [Py.isdigit Py.all_digits]. by rewrite Hc. }
      split; intros H.
      * cbn [map]. rewrite (digit_free_not_isdigit cur H). cbn [Props.alternating andb].
        by apply IH.
      * apply IH. apply isdigit_snoc; [by apply isdigit_all_digits|done].
    + assert (Hone : Props.digit_free (String c "") = true).
      { cbn [Props.digit_free]. by rewrite Hc. }
      split; intros H.
      * apply IH. by rewrite digit_free_app, H, Hone.
      * cbn [map]. rewrite H. cbn [Props.alternating negb andb]. by apply IH.
Qed.

Lemma natural_key_alternating (s : string) :
  Props.alternating true (RenameImages.natural_key s) = true.
Proof. by apply re_split_digits_alternating. Qed.

Lemma StronglySorted_impl {A : Type} (R R' : A -> A -> Prop) (l : list A) :
  (forall a b, R a b -> R' a b) ->
  Sorted.StronglySorted R l -> Sorted.StronglySorted R' l.
Proof.
  intros HR. induction 1 as [|x l _ IH Hx]; constructor; [done|].
  eapply List.Forall_impl; [|exact Hx]. auto.
Qed.

(** ** The files that [find_images] returns *)

Lemma find_images_inv (w : Os.world) (d : string) (exts : list string) (sort_by : string)
    (files : list string) :
  RenameImages.find_images w d exts sort_by = Some files ->
  exists names,
    Os.listdir w d = Some names
    /\ files
       = if String.eqb sort_by "mtime"
         then RenameImages.sort_by_key Z.ltb (Props.mtime_of w d)
                (filter (Props.is_image w d exts) names)
         else RenameImages.sort_by_key RenameImages.key_ltb RenameImages.natural_key
                (filter (Props.is_image w d exts) names).
Proof.
  unfold RenameImages.find_images.
  destruct (Os.listdir w d) as [names|]; [|discriminate].
  intros H. exists names. split; [done|].
  destruct (String.eqb sort_by "mtime").
  - destruct (mapM _ _); [|discriminate]. by injection H as <-.
  - by injection H as <-.
Qed.

(** X1.  [find_images] returns every entry of the directory that is a
    regular file and whose lower-cased name ends with one of the extensions,
    each as often as it is listed, and nothing else. *)
Theorem find_images_exact (w : Os.world) (d : string) (exts : list string) (sort_by : string)
    (files names : list string) :
  RenameImages.find_images w d exts sort_by = Some files ->
  Os.listdir w d = Some names ->
  Permutation files (filter (Props.is_image w d exts) names).
Proof.
  intros (names' & Hlist & ->)%find_images_inv Hnames.
  rewrite Hlist in Hnames. injection Hnames as ->.
  destruct (String.eqb sort_by "mtime"); apply sort_by_key_perm.
Qed.

Lemma find_images_exact_witness :
  Permutation ["File1.PNG"; "file2.png"; "file10.png"]
    (filter (Props.is_image Samples.shots "/shots" [".png"])
            ["file10.png"; "notes.txt"; "file2.png"; "old"; "File1.PNG"]).
Proof.
  apply (find_images_exact Samples.shots "/shots" [".png"] "name").
  - vm_compute. reflexivity.
  - vm_compute. reflexivity.
Defined.

(** X2.  With the sort key [mtime] the files come in ascending order of
    their modification time. *)
Theorem find_images_by_mtime (w : Os.world) (d : string) (exts : list string)
    (files : list string) :
  RenameImages.find_images w d exts "mtime" = Some files ->
  Sorted.StronglySorted (fun a b => Props.mtime_of w d a <= Props.mtime_of w d b) files.
Proof.
  intros (names & _ & ->)%find_images_inv. cbn [String.eqb Ascii.eqb Bool.eqb].
  change (String.eqb "mtime" "mtime") with true. cbv iota.
  eapply StronglySorted_impl;
    [|apply (sort_by_key_sorted Z.ltb (Props.mtime_of w d) (fun _ => True))].
  - unfold Props.key_le. intros a b H%Z.ltb_ge. exact H.
  - intros a b _ _ H%Z.ltb_lt. apply Z.ltb_ge. lia.
  - intros a b c _ _ _ H1%Z.ltb_ge H2%Z.ltb_ge. apply Z.ltb_ge. lia.
  - by apply List.Forall_forall.
Qed.

Lemma find_images_by_mtime_witness :
  Sorted.StronglySorted
    (fun a b => Props.mtime_of Samples.shots "/shots" a <= Props.mtime_of Samples.shots "/shots" b)
    ["file10.png"; "File1.PNG"; "file2.png"].
Proof.
  apply (find_images_by_mtime Samples.shots "/shots" [".png"]).
  vm_compute. reflexivity.
Defined.

(** X3.  With any other sort key the files come in natural order: no file
    is followed, at any distance, by one whose key is smaller. *)
Theorem find_images_by_name (w : Os.world) (d : string) (exts : list string)
    (sort_by : string) (files : list string) :
  String.eqb sort_by "mtime" = false ->
  RenameImages.find_images w d exts sort_by = Some files ->
  Sorted.StronglySorted
    (fun a b => RenameImages.key_ltb (RenameImages.natural_key b)
                  (RenameImages.natural_key a) = false) files.
Proof.
  intros Hsort (names & _ & ->)%find_images_inv. rewrite Hsort.
  apply (sort_by_key_sorted RenameImages.key_ltb RenameImages.natural_key
           (fun k => Props.alternating true k = true)).
  - intros a b _ _. apply key_ltb_asym.
  - intros a b c. apply key_le_trans.
  - apply List.Forall_forall. intros y _. apply natural_key_alternating.
Qed.

Lemma find_images_by_name_witness :
  Sorted.StronglySorted
    (fun a b => RenameImages.key_ltb (RenameImages.natural_key b)
                  (RenameImages.natural_key a) = false)
    ["File1.PNG"; "file2.png"; "file10.png"].
Proof.
  apply (find_images_by_name Samples.shots "/shots" [".png"] "name").
  - reflexivity.
  - vm_compute. reflexivity.
Defined.

(** ** What the natural key compares *)

Lemma re_split_run (d cur rest : string) :
  Py.all_digits d = true ->
  RenameImages.re_split_digits cur true (d +:+ rest)
  = RenameImages.re_split_digits (cur +:+ d) true rest.
Proof.
  revert cur. induction d as [|c d IH]; intros cur; [by rewrite app_nil_r|].
  cbn [Py.all_digits]. intros [Hc Hd]%andb_true_iff.
  rewrite app_cons. cbn [RenameImages.re_split_digits]. rewrite Hc.
  rewrite IH by done. by rewrite app_assoc.
Qed.

(** A run of digits that starts in text, and a rest that does not go on
    with a digit: the text so far, the run, and the pieces of the rest. *)
Lemma re_split_run_end (cur d s : string) :
  Py.isdigit d = true -> Props.no_digit_ahead s = true ->
  RenameImages.re_split_digits cur false (d +:+ s)
  = cur :: d :: match s with
                | EmptyString => [""]
                | String c r => RenameImages.re_split_digits (String c "") false r
                end.
Proof.
  intros Hd Hs. destruct d as [|c d]; [done|]. cbn [Py.isdigit Py.all_digits] in Hd.
  apply andb_true_iff in Hd as [Hc Hd].
  rewrite app_cons. cbn [RenameImages.re_split_digits]. rewrite Hc. f_equal.
  rewrite re_split_run by done. change (String c "" +:+ d) with (String c d).
  destruct s as [|a s]; [done|]. cbn [Props.no_digit_ahead] in Hs.
  apply negb_true_iff in Hs. cbn [RenameImages.re_split_digits]. by rewrite Hs.
Qed.

Lemma no_digit_behind_cons (c : ascii) (p : string) :
  Props.no_digit_behind (String c p) = true ->
  Props.no_digit_behind p = true /\ (p = "" -> Py.is_digit c = false).
Proof.
  destruct p as [|a p]; cbn [Props.no_digit_behind].
  - intros H%negb_true_iff. by split.
  - intros H. by split.
Qed.

(** The pieces of a name up to a place where no run of digits is under
    way do not depend on what follows: the scan goes on in text, with the
    text since the last run. *)
Lemma re_split_prefix (p cur : string) (b : bool) :
  Props.no_digit_behind p = true -> (p = "" -> b = false) ->
  exists front cur', forall rest,
    RenameImages.re_split_digits cur b (p +:+ rest)
    = front ++ RenameImages.re_split_digits cur' false rest.
Proof.
  revert cur b. induction p as [|c p IH]; intros cur b Hp Hb.
  - rewrite (Hb eq_refl). by exists [], cur.
  - apply no_digit_behind_cons in Hp as [Hp Hc].
    destruct (Py.is_digit c) eqn:Ec.
    + assert (Hne : p = "" -> true = false) by (intros E; specialize (Hc E); congruence).
      destruct b.
      * destruct (IH (cur +:+ String c "") true Hp Hne) as (front & cur' & H).
        exists front, cur'. intros rest. rewrite app_cons.
        cbn [RenameImages.re_split_digits]. rewrite Ec. apply H.
      * destruct (IH (String c "") true Hp Hne) as (front & cur' & H).
        exists (cur :: front), cur'. intros rest. rewrite app_cons.
        cbn [RenameImages.re_split_digits]. rewrite Ec, H. done.
    + destruct b.
      * destruct (IH (String c "") false Hp (fun _ => eq_refl)) as (front & cur' & H).
        exists (cur :: front), cur'. intros rest. rewrite app_cons.
        cbn [RenameImages.re_split_digits]. rewrite Ec, H. done.
      * destruct (IH (cur +:+ String c "") false Hp (fun _ => eq_refl))
          as (front & cur' & H).
        exists front, cur'. intros rest. rewrite app_cons.
        cbn [RenameImages.re_split_digits]. rewrite Ec. apply H.
Qed.

Lemma key_ltb_app (k a b : list RenameImages.tok) :
  RenameImages.key_ltb (k ++ a) (k ++ b) = RenameImages.key_ltb a b.
Proof.
  induction k as [|x k IH]; [done|]. cbn [app RenameImages.key_ltb].
  assert (RenameImages.tok_eqb x x = true) as -> by (by apply tok_eqb_eq). exact IH.
Qed.

Lemma key_ltb_irrefl (k : list RenameImages.tok) : RenameImages.key_ltb k k = false.
Proof.
  destruct (RenameImages.key_ltb k k) eqn:E; [|done]. by rewrite (key_ltb_asym k k E) in E.
Qed.

(** X4.  Two names that differ in one run of digits only are ordered by the
    number the run stands for, not by its characters, whatever stands
    before the run, other runs of digits included: [file2] comes before
    [file10], and [a1b2] before [a1b10]. *)
Theorem natural_key_numeric (p d1 d2 s : string) :
  Props.no_digit_behind p = true -> Py.isdigit d1 = true -> Py.isdigit d2 = true ->
  Props.no_digit_ahead s = true ->
  RenameImages.key_ltb (RenameImages.natural_key (p +:+ d1 +:+ s))
                       (RenameImages.natural_key (p +:+ d2 +:+ s))
  = (Py.int_of_digits 0 d1 <? Py.int_of_digits 0 d2).
Proof.
  intros Hp Hd1 Hd2 Hs. unfold RenameImages.natural_key.
  destruct (re_split_prefix p "" false Hp (fun _ => eq_refl)) as (front & cur & H).
  rewrite !H, !re_split_run_end by done. rewrite !map_app, key_ltb_app. cbn [map].
  rewrite Hd1, Hd2. cbn [RenameImages.key_ltb].
  match goal with
  | |- context [RenameImages.tok_eqb ?x ?x] =>
      assert (RenameImages.tok_eqb x x = true) as -> by (by apply tok_eqb_eq)
  end.
  cbn [RenameImages.tok_eqb RenameImages.tok_ltb].
  destruct (Z.eqb_spec (Py.int_of_digits 0 d1) (Py.int_of_digits 0 d2)) as [->|_]; [|done].
  rewrite key_ltb_irrefl. symmetry. apply Z.ltb_irrefl.
Qed.

Lemma natural_key_numeric_witness :
  RenameImages.key_ltb (RenameImages.natural_key ("a1b" +:+ "2" +:+ ".png"))
                       (RenameImages.natural_key ("a1b" +:+ "10" +:+ ".png"))
  = (Py.int_of_digits 0 "2" <? Py.int_of_digits 0 "10").
Proof. apply (natural_key_numeric "a1b" "2" "10" ".png"); reflexivity. Defined.

Lemma lower_char_facts (c : ascii) :
  Py.is_digit (Py.lower_char c) = Py.is_digit c
  /\ Py.lower_char (Py.lower_char c) = Py.lower_char c
  /\ (Py.is_digit c = true -> Py.lower_char c = c).
Proof. destruct c as [[] [] [] [] [] [] [] []]; vm_compute; by repeat split. Qed.

Lemma lower_app (s t : string) : Py.lower (s +:+ t) = Py.lower s +:+ Py.lower t.
Proof. induction s as [|c s IH]; [done|]. rewrite app_cons. cbn. by rewrite IH. Qed.

Lemma lower_idem (s : string) : Py.lower (Py.lower s) = Py.lower s.
Proof.
  induction s as [|c s IH]; [done|]. cbn [Py.lower].
  destruct (lower_char_facts c) as (_ & -> & _). by rewrite IH.
Qed.

Lemma all_digits_lower (s : string) : Py.all_digits (Py.lower s) = Py.all_digits s.
Proof.
  induction s as [|c s IH]; [done|]. cbn [Py.lower Py.all_digits].
  destruct (lower_char_facts c) as (-> & _). by rewrite IH.
Qed.

Lemma lower_digits (s : string) : Py.all_digits s = true -> Py.lower s = s.
Proof.
  induction s as [|c s IH]; [done|]. cbn [Py.lower Py.all_digits].
  intros [Hc Hs]%andb_true_iff. destruct (lower_char_facts c) as (_ & _ & H).
  by rewrite (H Hc), IH.
Qed.

Lemma re_split_lower (s cur : string) (b : bool) :
  RenameImages.re_split_digits (Py.lower cur) b (Py.lower s)
  = map Py.lower (RenameImages.re_split_digits cur b s).
Proof.
  revert cur b. induction s as [|c s IH]; intros cur b; [by destruct b|].
  cbn [Py.lower RenameImages.re_split_digits].
  destruct (lower_char_facts c) as (-> & _).
  destruct (Py.is_digit c), b; cbn [map].
  - rewrite <- IH. by rewrite lower_app.
  - f_equal. apply (IH (String c "")).
  - f_equal. apply (IH (String c "")).
  - rewrite <- IH. by rewrite lower_app.
Qed.

Lemma natural_key_lower (s : string) :
  RenameImages.natural_key (Py.lower s) = RenameImages.natural_key s.
Proof.
  unfold RenameImages.natural_key.
  pose proof (re_split_lower s "" false) as H. change (Py.lower "") with "" in H.
  rewrite H, map_map. clear H.
  apply map_ext. intros t.
  assert (Py.isdigit (Py.lower t) = Py.isdigit t) as ->.
  { destruct t as [|c t]; [done|]. apply (all_digits_lower (String c t)). }
  destruct (Py.isdigit t) eqn:E.
  - by rewrite lower_digits by (by apply isdigit_all_digits).
  - by rewrite lower_idem.
Qed.

(** X5.  The natural key does not look at the case of letters: two names
    that are equal up to case have the same key, and neither is put before
    the other. *)
Theorem natural_key_ignores_case (a b : string) :
  Py.lower a = Py.lower b ->
  RenameImages.natural_key a = RenameImages.natural_key b
  /\ RenameImages.key_ltb (RenameImages.natural_key a) (RenameImages.natural_key b) = false.
Proof.
  intros H.
  assert (Heq : RenameImages.natural_key a = RenameImages.natural_key b)
    by (by rewrite <- (natural_key_lower a), H, natural_key_lower).
  split; [exact Heq|]. rewrite Heq. apply key_ltb_irrefl.
Qed.

Lemma natural_key_ignores_case_witness :
  RenameImages.natural_key "IMG_7.PNG" = RenameImages.natural_key "img_7.png"
  /\ RenameImages.key_ltb (RenameImages.natural_key "IMG_7.PNG")
       (RenameImages.natural_key "img_7.png") = false.
Proof. apply (natural_key_ignores_case "IMG_7.PNG" "img_7.png"). reflexivity. Defined.

(** ** The list of extensions *)

(** X6.  Every extension that [parse_ext_list] returns starts with a dot
    and is in lower case, whatever the text it is given. *)
Theorem parse_ext_list_normal (s e : string) :
  In e (RenameImages.parse_ext_list s) ->
  Py.startswith e "." = true /\ Py.lower e = e.
Proof.
  unfold RenameImages.parse_ext_list. rewrite map_map.
  intros (p & <- & _)%in_map_iff.
  destruct (Py.startswith (Py.lower (Py.strip p)) ".") eqn:E; cbn [negb].
  - split; [exact E|apply lower_idem].
  - split; [reflexivity|]. rewrite lower_app, lower_idem. reflexivity.
Qed.

Lemma parse_ext_list_normal_witness :
  Py.startswith ".jpeg" "." = true /\ Py.lower ".jpeg" = ".jpeg".
Proof.
  apply (parse_ext_list_normal " PNG, .Jpeg ,,gif").
  vm_compute. right. left. reflexivity.
Defined.

(** ** One action for every file *)

Lemma plan_sources_map (rt : Fmt.runtime) (w : Os.world) (d prefix : string) (padding : Z)
    (separator : string) (pattern : option string) (files : list string) (n : Z) :
  map fst (RenameImages.plan rt w d prefix padding separator pattern files n)
  = map (PosixPath.join d) files.
Proof.
  revert n. induction files as [|f files IH]; intros n; [done|]. cbn. by rewrite IH.
Qed.

(** X7.  The plan that [rename_sequence] returns, in a dry run as in a live
    one, has exactly one action for every regular file of the directory
    with one of the extensions: its sources are the paths of these files,
    none is left out and none is planned twice. *)
Theorem rename_sequence_covers (rt : Fmt.runtime) (w : Os.world) (d prefix : string)
    (start padding : Z) (exts : list string) (dry_run : bool) (sort_by separator : string)
    (pattern map_csv : option string) (results : list Run.action) (names : list string) :
  Run.result (RenameImages.rename_sequence rt w d prefix start padding exts dry_run
                sort_by separator pattern map_csv) = Run.Returned results ->
  Os.listdir w d = Some names ->
  Permutation (map fst results)
    (map (PosixPath.join d) (filter (Props.is_image w d exts) names)).
Proof.
  intros (files & Hfiles & ->)%rename_sequence_returned Hnames.
  rewrite plan_sources_map. apply Permutation_map.
  by eapply find_images_exact.
Qed.

Lemma rename_sequence_covers_witness :
  Permutation
    (map fst [("/shots/File1.PNG", "/shots/001.PNG"); ("/shots/file2.png", "/shots/002.png");
              ("/shots/file10.png", "/shots/003.png")])
    (map (PosixPath.join "/shots")
         (filter (Props.is_image Samples.shots "/shots" [".png"])
                 ["file10.png"; "notes.txt"; "file2.png"; "old"; "File1.PNG"])).
Proof.
  apply (rename_sequence_covers Samples.no_runtime Samples.shots "/shots" "" 1 3 [".png"]
           false "name" "_" None None).
  - vm_compute. reflexivity.
  - vm_compute. reflexivity.
Defined.

(** ** The actions of a mapping *)

Lemma mapping_target_sound (w : Os.world) (d src want : string) (a : Run.action) :
  RenameImages.mapping_target w d src want = RenameImages.Planned a ->
  fst a = src /\ Os.path_exists w (snd a) = false.
Proof.
  unfold RenameImages.mapping_target.
  destruct (PosixPath.splitext want) as [base ext]. intros [= <-]. cbn [fst snd].
  split; [done|apply next_free_name_free].
Qed.

Lemma mapping_row_sound (w : Os.world) (d : string) (fieldnames row : list string)
    (a : Run.action) :
  RenameImages.mapping_row w d fieldnames row = RenameImages.Planned a ->
  Os.path_exists w (snd a) = false
  /\ (Os.path_exists w (fst a) = true
      \/ exists names name,
           Os.listdir w d = Some names /\ In name names
           /\ fst a = PosixPath.join d name).
Proof.
  unfold RenameImages.mapping_row.
  destruct (_ || _)%bool; [discriminate|].
  destruct (Os.path_exists w (PosixPath.join d _)) eqn:Hsrc; cbn [negb].
  - intros [-> Hdst]%mapping_target_sound. split; [done|by left].
  - destruct (Os.listdir w d) as [names|] eqn:Hlist; [|discriminate].
    destruct (find _ names) as [name|] eqn:Hfind; [|discriminate].
    destruct (Py.truthy _); [|discriminate].
    intros [-> Hdst]%mapping_target_sound. split; [done|]. right.
    exists names, name. split; [done|]. split; [|done].
    by apply List.find_some in Hfind as [? _].
Qed.

Lemma mapping_rows_loop_sound (w : Os.world) (d : string) (fieldnames : list string)
    (rows : list (list string)) (a : Run.action) :
  In a (fst (fst (RenameImages.mapping_rows_loop w d fieldnames rows))) ->
  Os.path_exists w (snd a) = false
  /\ (Os.path_exists w (fst a) = true
      \/ exists names name,
           Os.listdir w d = Some names /\ In name names
           /\ fst a = PosixPath.join d name).
Proof.
  induction rows as [|row rows IH]; [intros []|]. cbn [RenameImages.mapping_rows_loop].
  destruct row as [|f row]; [exact IH|].
  destruct (RenameImages.mapping_row w d fieldnames (f :: row)) as [b|e|] eqn:E.
  - destruct (RenameImages.mapping_rows_loop w d fieldnames rows) as [[acts out] raised].
    cbn [fst]. intros [<-|H]; [by eapply mapping_row_sound|by apply IH].
  - by destruct (RenameImages.mapping_rows_loop w d fieldnames rows) as [[acts out] raised].
  - intros [].
Qed.

(** X8.  Every action that [apply_csv_mapping] returns aims at a path that
    does not exist in the file system it was called on, and has a source
    that exists there or is, at least, an entry that the directory lists:
    the match that ignores case takes a listed name without asking whether
    it exists, as a link without target does not. *)
Theorem apply_csv_mapping_sound (w : Os.world) (d csv_path : string) (dry_run : bool)
    (actions : list Run.action) (a : Run.action) :
  Run.result (RenameImages.apply_csv_mapping w d csv_path dry_run) = Run.Returned actions ->
  In a actions ->
  Os.path_exists w (snd a) = false
  /\ (Os.path_exists w (fst a) = true
      \/ exists names name,
           Os.listdir w d = Some names /\ In name names
           /\ fst a = PosixPath.join d name).
Proof.
  unfold RenameImages.apply_csv_mapping.
  destruct (negb _); [by intros [= <-] []|].
  destruct (Os.read_file w csv_path); [|discriminate].
  destruct (Csv.reader _) as [[|fieldnames rows] csv_error]; [by destruct csv_error|].
  destruct (_ || _)%bool; [by intros [= <-] []|].
  pose proof (mapping_rows_loop_sound w d fieldnames rows a) as Hsound.
  destruct (RenameImages.mapping_rows_loop w d fieldnames rows) as [[acts out] [|]];
    [discriminate|].
  destruct csv_error; [discriminate|].
  destruct (RenameImages.apply_actions dry_run w acts). intros [= <-]. exact Hsound.
Qed.

Lemma apply_csv_mapping_sound_witness :
  Os.path_exists Samples.pics_mapping (snd ("/pics/foo.png", "/pics/bar.png")) = false
  /\ (Os.path_exists Samples.pics_mapping (fst ("/pics/foo.png", "/pics/bar.png")) = true
      \/ exists names name,
           Os.listdir Samples.pics_mapping "/pics" = Some names /\ In name names
           /\ fst ("/pics/foo.png", "/pics/bar.png") = PosixPath.join "/pics" name).
Proof.
  apply (apply_csv_mapping_sound Samples.pics_mapping "/pics" "/pics/map.csv" true
           [("/pics/foo.png", "/pics/bar.png")]).
  - vm_compute. reflexivity.
  - left. reflexivity.
Defined.

Lemma find_first {A : Type} (f : A -> bool) (before after : list A) (x : A) :
  forallb (fun y => negb (f y)) before = true -> f x = true ->
  find f (before ++ x :: after) = Some x.
Proof.
  intros Hbefore Hx. induction before as [|y before IH]; cbn.
  - by rewrite Hx.
  - cbn in Hbefore. apply andb_true_iff in Hbefore as [Hy Hbefore].
    apply negb_true_iff in Hy. rewrite Hy. by apply IH.
Qed.

(** X9.  A row of the mapping whose source does not exist as it is spelled
    is matched against the listing without regard to case: the source of
    the action is the first listed name equal to it up to case, and a
    wanted name without extension takes the extension of that file
    (Scenario D: [foo.PNG -> bar] renames [foo.png] to [bar.png]). *)
Theorem mapping_row_ignores_case (w : Os.world) (d raw want name : string)
    (before after : list string) :
  Py.strip raw = raw -> Py.truthy raw = true ->
  Py.strip want = want -> Py.truthy want = true ->
  Os.path_exists w (PosixPath.join d raw) = false ->
  Os.listdir w d = Some (before ++ name :: after) ->
  forallb (fun other => negb (String.eqb (Py.lower other) (Py.lower raw))) before = true ->
  Py.lower name = Py.lower raw ->
  Py.truthy (snd (PosixPath.splitext want)) = false ->
  Os.path_exists w (PosixPath.join d (want +:+ snd (PosixPath.splitext name))) = false ->
  RenameImages.mapping_row w d ["name_raw"; "name_change"] [raw; want]
  = RenameImages.Planned
      (PosixPath.join d name, PosixPath.join d (want +:+ snd (PosixPath.splitext name))).
Proof.
  intros Hraw Hrawt Hwant Hwantt Hmissing Hlist Hbefore Hname Hnoext Hfree.
  assert (Hin : In name (before ++ name :: after)) by (apply in_elt).
  destruct (listdir_In _ _ _ _ Hlist Hin) as [Htruthy Hsep].
  unfold RenameImages.mapping_row.
  change (Csv.row_get ["name_raw"; "name_change"] [raw; want] "name_raw") with (Some raw).
  change (Csv.row_get ["name_raw"; "name_change"] [raw; want] "name_change") with (Some want).
  cbn [default from_option id]. rewrite Hraw, Hwant, Hrawt, Hwantt, Hmissing, Hlist.
  cbn [negb orb]. rewrite (find_first _ before after name Hbefore)
    by (by apply String.eqb_eq).
  assert (Py.truthy (PosixPath.join d name) = true) as ->.
  { rewrite join_relative by done. destruct (Os.dir_prefix d); [exact Htruthy|done]. }
  unfold RenameImages.mapping_target.
  rewrite (splitext_no_ext want Hnoext). cbn [Py.truthy negb].
  rewrite (splitext_join_ext d name Hsep).
  by rewrite next_free_name_unchanged.
Qed.

Lemma mapping_row_ignores_case_witness :
  RenameImages.mapping_row Samples.pics_mapping "/pics" ["name_raw"; "name_change"]
    ["foo.PNG"; "bar"]
  = RenameImages.Planned
      (PosixPath.join "/pics" "foo.png",
       PosixPath.join "/pics" ("bar" +:+ snd (PosixPath.splitext "foo.png"))).
Proof.
  apply (mapping_row_ignores_case Samples.pics_mapping "/pics" "foo.PNG" "bar" "foo.png"
           [] ["map.csv"]); reflexivity.
Defined.

(** ** A mapping file without header *)

(** Once characters of a line are read, or inside a quoted field, the
    reader ends with a row or with an error. *)
Lemma feed_started (s : string) (p : Csv.parser) (pending : bool) :
  pending = true \/ Csv.state p = Csv.IN_QUOTED_FIELD ->
  Csv.feed p pending s <> ([], false).
Proof.
  revert p pending. induction s as [|c r IH]; intros [st fld flds] pending Hstarted.
  - destruct Hstarted as [-> | Hst].
    + by destruct st.
    + cbn in Hst. subst st. by destruct pending.
  - cbn [Csv.feed].
    destruct (Csv.process (Csv.Parser st fld flds) (Some c)) as [p1|] eqn:Hp1; [|done].
    destruct (Csv.ends_line c r).
    + destruct (Csv.process p1 None) as [p2|] eqn:Hp2; [|done].
      destruct (Csv.is_start_record (Csv.state p2)) eqn:Hstart.
      * by destruct (Csv.feed Csv.fresh false r).
      * apply IH. right. destruct p1 as [st1 fld1 flds1].
        destruct st1; cbn in Hp2; injection Hp2 as <-; cbn in Hstart; done.
    + apply IH. by left.
Qed.

Lemma reader_no_row (text : string) : Csv.reader text = ([], false) -> text = "".
Proof.
  destruct text as [|c r]; [done|]. unfold Csv.reader. cbn [Csv.feed].
  change (Csv.process Csv.fresh (Some c))
    with (if Csv.is_newline c then Some (Csv.goto Csv.fresh Csv.EAT_CRNL)
          else Some (Csv.start_field Csv.fresh (Some c))).
  destruct (Csv.is_newline c) eqn:Hnl.
  - destruct (Csv.ends_line c r).
    + cbn. by destruct (Csv.feed Csv.fresh false r).
    + intros H. by apply feed_started in H; [|left].
  - set (p1 := Csv.start_field Csv.fresh (Some c)).
    destruct (Csv.ends_line c r).
    + destruct (Csv.process p1 None) as [p2|] eqn:Hp2; [|done].
      destruct (Csv.is_start_record (Csv.state p2)) eqn:Hstart.
      * by destruct (Csv.feed Csv.fresh false r).
      * intros H. apply feed_started in H; [done|]. right.
        destruct p1 as [st1 fld1 flds1].
        destruct st1; cbn in Hp2; injection Hp2 as <-; cbn in Hstart; done.
    + intros H. by apply feed_started in H; [|left].
Qed.

(** X10.  [apply_csv_mapping] leaves with [TypeError] exactly when the
    mapping file is empty: [csv.DictReader] then has no field names, and
    the test of the header asks whether a name is in [None]. *)
Theorem apply_csv_mapping_empty_file (w : Os.world) (d csv_path : string) (dry_run : bool) :
  Run.result (RenameImages.apply_csv_mapping w d csv_path dry_run) = Run.Raised Run.TypeError
  <-> Os.read_file w csv_path = Some "".
Proof.
  unfold RenameImages.apply_csv_mapping, Os.isfile, Os.read_file.
  destruct (Os.stat w csv_path) as [[text mtime|]|]; cbn [negb];
    [|split; discriminate..].
  destruct (Csv.reader text) as [[|fieldnames rows] csv_error] eqn:Hread.
  - destruct csv_error.
    + split; [discriminate|]. intros [= ->]. discriminate.
    + apply reader_no_row in Hread as ->. done.
  - split; [|intros [= ->]; discriminate].
    destruct (_ || _)%bool; [discriminate|].
    destruct (RenameImages.mapping_rows_loop w d fieldnames rows) as [[acts out] []];
      [discriminate|].
    destruct csv_error; [discriminate|].
    by destruct (RenameImages.apply_actions dry_run w acts).
Qed.

Lemma apply_csv_mapping_empty_file_witness :
  Run.result (RenameImages.apply_csv_mapping Samples.pics_empty_mapping "/pics"
                "/pics/map.csv" false) = Run.Raised Run.TypeError.
Proof.
  apply (apply_csv_mapping_empty_file Samples.pics_empty_mapping "/pics" "/pics/map.csv" false).
  reflexivity.
Defined.

(** ** The selection of the window *)

Lemma add_files_fold (paths fs : list string) :
  let fs' := fold_left (fun fs p => if bool_decide (p ∈ fs) then fs else fs ++ [p]) paths fs in
  (List.NoDup fs -> List.NoDup fs')
  /\ (forall p, In p fs' <-> In p fs \/ In p paths)
  /\ exists added, fs' = fs ++ added.
Proof.
  revert fs. induction paths as [|p paths IH]; intros fs; cbn.
  - split; [done|]. split; [intuition auto|]. exists []. by rewrite List.app_nil_r.
  - destruct (IH (if bool_decide (p ∈ fs) then fs else fs ++ [p])) as (Hnodup & Hin & added & Heq).
    case_bool_decide as Hp.
    + apply list_elem_of_In in Hp. split; [done|]. split; [|by exists added].
      intros q. rewrite Hin. intuition (subst; auto).
    + rewrite list_elem_of_In in Hp. split; [|split].
      * intros Hfs. apply Hnodup. apply NoDup_ListNoDup, NoDup_app.
        split; [by apply NoDup_ListNoDup|]. split; [|apply NoDup_singleton].
        intros q Hq [->|[]]%list_elem_of_In. by apply list_elem_of_In in Hq.
      * intros q. rewrite Hin, in_app_iff. cbn. intuition auto.
      * exists (p :: added). by rewrite Heq, <- List.app_assoc.
Qed.

(** X11.  [add_files] appends to the selection, in the order of the dialog,
    the chosen paths that are not selected yet: what was selected stays in
    front, every chosen path is selected afterwards, and a selection
    without repetition stays so, also when the dialog returns a path
    twice. *)
Theorem add_files_selection (g : GuiRename.gui) (paths : list string) :
  List.NoDup (GuiRename.files g) ->
  List.NoDup (GuiRename.files (GuiRename.add_files g paths))
  /\ (forall p, In p (GuiRename.files (GuiRename.add_files g paths))
                <-> In p (GuiRename.files g) \/ In p paths)
  /\ exists added, GuiRename.files (GuiRename.add_files g paths) = GuiRename.files g ++ added.
Proof.
  intros Hnodup. destruct (add_files_fold paths (GuiRename.files g)) as (H1 & H2 & H3).
  split; [by apply H1|]. split; [exact H2|exact H3].
Qed.

Lemma add_files_selection_witness :
  List.NoDup (GuiRename.files
                (GuiRename.add_files (GuiRename.Gui ["/pics/a.png"] "img_-n" 1 2)
                   ["/pics/b.png"; "/pics/a.png"; "/pics/b.png"]))
  /\ (forall p, In p (GuiRename.files
                        (GuiRename.add_files (GuiRename.Gui ["/pics/a.png"] "img_-n" 1 2)
                           ["/pics/b.png"; "/pics/a.png"; "/pics/b.png"]))
                <-> In p ["/pics/a.png"] \/ In p ["/pics/b.png"; "/pics/a.png"; "/pics/b.png"])
  /\ exists added, GuiRename.files
                     (GuiRename.add_files (GuiRename.Gui ["/pics/a.png"] "img_-n" 1 2)
                        ["/pics/b.png"; "/pics/a.png"; "/pics/b.png"])
                   = ["/pics/a.png"] ++ added.
Proof.
  apply (add_files_selection (GuiRename.Gui ["/pics/a.png"] "img_-n" 1 2)
           ["/pics/b.png"; "/pics/a.png"; "/pics/b.png"]).
  cbn. constructor; [intros []|constructor].
Defined.

(** ** The mapping saved from the window *)

Lemma write_file_possible (w : Os.world) (p text : string) :
  Os.isdir w p = false -> Os.parent_ok w p = true ->
  Py.truthy (PosixPath.basename p) = true ->
  exists w', Os.write_file w p text = Some w'.
Proof.
  unfold Os.isdir, Os.write_file. intros Hdir Hparent Hbase.
  destruct (Os.stat w p) as [[content mtime|]|]; [by eexists|done|].
  rewrite Hparent, Hbase. by eexists.
Qed.

(** X12.  [export_csv] writes a file that [csv.reader] reads back as the
    header [name_raw, name_change] followed by one row per action of the
    preview, with the base names of source and destination; no other path
    of the file system changes. *)
Theorem export_csv_reads_back (rt : Fmt.runtime) (w : Os.world) (g : GuiRename.gui)
    (path : string) :
  GuiRename.files g <> [] ->
  Os.isdir w path = false -> Os.parent_ok w path = true ->
  Py.truthy (PosixPath.basename path) = true ->
  let w' := GuiRename.export_csv rt w g path in
  (exists text,
     Os.read_file w' path = Some text
     /\ Csv.reader text
        = (["name_raw"; "name_change"]
             :: map (fun a => [PosixPath.basename (fst a); PosixPath.basename (snd a)])
                  (GuiRename._build_actions rt w g),
           false))
  /\ forall q, q <> path -> Os.stat w' q = Os.stat w q.
Proof.
  intros Hfiles Hdir Hparent Hbase w'. subst w'. unfold GuiRename.export_csv.
  destruct (GuiRename.files g) as [|f fs] eqn:Hfs; [done|].
  assert (Py.truthy path = true) as ->.
  { destruct path; [|done]. by vm_compute in Hbase. }
  cbn [negb].
  destruct (write_file_possible w path
              (Csv.writerows (RenameImages.mapping_rows (GuiRename._build_actions rt w g)))
              Hdir Hparent Hbase) as [w' Hw'].
  rewrite Hw'. cbn [default from_option id].
  destruct (write_file_stat _ _ _ _ Hw') as [[t Ht] Hother].
  split; [|exact Hother]. eexists. unfold Os.read_file. rewrite Ht. split; [done|].
  apply (reader_writerows (RenameImages.mapping_rows (GuiRename._build_actions rt w g))).
  apply mapping_rows_wide.
Qed.

Lemma export_csv_reads_back_witness :
  let w' := GuiRename.export_csv Samples.no_runtime Samples.pics
              (GuiRename.Gui ["/pics/a.png"; "/pics/b.png"] "img_-n" 1 2) "/pics/map.csv" in
  (exists text,
     Os.read_file w' "/pics/map.csv" = Some text
     /\ Csv.reader text
        = (["name_raw"; "name_change"]
             :: map (fun a => [PosixPath.basename (fst a); PosixPath.basename (snd a)])
                  (GuiRename._build_actions Samples.no_runtime Samples.pics
                     (GuiRename.Gui ["/pics/a.png"; "/pics/b.png"] "img_-n" 1 2)),
           false))
  /\ forall q, q <> "/pics/map.csv" -> Os.stat w' q = Os.stat Samples.pics q.
Proof.
  apply (export_csv_reads_back Samples.no_runtime Samples.pics
           (GuiRename.Gui ["/pics/a.png"; "/pics/b.png"] "img_-n" 1 2) "/pics/map.csv");
    [discriminate|reflexivity..].
Defined.

(** ** Carrying out a plan *)



















(** ** Numerals *)

Lemma digit_not_punctuation (c : ascii) :
  Py.is_digit c = true ->
  Ascii.eqb c "-" = false /\ Ascii.eqb c "." = false /\ Ascii.eqb c "/" = false
  /\ Ascii.eqb c "_" = false.
Proof. destruct c as [[] [] [] [] [] [] [] []]; vm_compute; intuition discriminate. Qed.

(** A run of digits ends where the first character that is no digit
    stands: two runs that are followed by such text and give the same
    string are the same run. *)
Lemma digits_app_inj (a b x y : string) :
  Py.all_digits a = true -> Py.all_digits b = true ->
  Props.no_digit_ahead x = true -> Props.no_digit_ahead y = true ->
  a +:+ x = b +:+ y -> a = b /\ x = y.
Proof.
  revert b. induction a as [|c a IH]; intros [|c' b] Ha Hb Hx Hy H.
  - done.
  - change ("" +:+ x) with x in H. subst x. rewrite app_cons in Hx. cbn in Hx, Hb.
    apply andb_true_iff in Hb as [Hc _]. by rewrite Hc in Hx.
  - change ("" +:+ y) with y in H. subst y. rewrite app_cons in Hy. cbn in Hy, Ha.
    apply andb_true_iff in Ha as [Hc _]. by rewrite Hc in Hy.
  - rewrite !app_cons in H. injection H as -> Heq. cbn in Ha, Hb.
    apply andb_true_iff in Ha as [_ Ha], Hb as [_ Hb].
    destruct (IH b Ha Hb Hx Hy Heq) as [-> ->]. done.
Qed.

Lemma isdigit_inv (s : string) :
  Py.isdigit s = true -> Py.all_digits s = true /\ s <> "".
Proof. by destruct s. Qed.

Lemma numeral_app_inj (n1 n2 x y : string) :
  Props.numeral n1 = true -> Props.numeral n2 = true ->
  Props.no_digit_ahead x = true -> Props.no_digit_ahead y = true ->
  n1 +:+ x = n2 +:+ y -> n1 = n2 /\ x = y.
Proof.
  destruct n1 as [|c1 r1]; [done|]. destruct n2 as [|c2 r2]; [done|].
  unfold Props.numeral. intros H1 H2 Hx Hy H.
  rewrite !app_cons in H. injection H as -> Heq.
  destruct (Ascii.eqb c2 "-").
  - apply isdigit_inv in H1 as [H1 _], H2 as [H2 _].
    by destruct (digits_app_inj r1 r2 x y H1 H2 Hx Hy Heq) as [-> ->].
  - apply isdigit_inv in H1 as [H1 _], H2 as [H2 _]. cbn in H1, H2.
    apply andb_true_iff in H1 as [_ H1], H2 as [_ H2].
    by destruct (digits_app_inj r1 r2 x y H1 H2 Hx Hy Heq) as [-> ->].
Qed.

Lemma int_of_digits_pretty (x : N) (s : string) :
  Py.int_of_digits 0 (pretty_N_go x s) = Py.int_of_digits (Z.of_N x) s.
Proof.
  revert s. induction (N.lt_wf_0 x) as [x _ IH]; intros s.
  assert (x = 0 \/ 0 < x)%N as [->|Hx] by lia; [by rewrite pretty_N_go_0|].
  rewrite pretty_N_go_step by done.
  rewrite (IH (x `div` 10)%N (N.div_lt x 10 Hx eq_refl)).
  cbn [Py.int_of_digits]. rewrite pretty_char_value by (apply N.mod_lt; lia).
  f_equal. rewrite (N.div_mod x 10) at 3 by lia. lia.
Qed.

Lemma int_of_digits_str (n : Z) : 0 <= n -> Py.int_of_digits 0 (Py.str n) = n.
Proof.
  intros Hn. destruct n as [|p|p]; [done| |lia].
  unfold Py.str, pretty, pretty_Z, pretty, pretty_positive, pretty, pretty_N.
  rewrite decide_False by done. by rewrite int_of_digits_pretty.
Qed.

Lemma int_of_digits_zeros (k : nat) (s : string) :
  Py.int_of_digits 0 (Py.repeat_char "0" k +:+ s) = Py.int_of_digits 0 s.
Proof. induction k as [|k IH]; [done|]. cbn [Py.repeat_char]. by rewrite app_cons. Qed.

Lemma all_digits_zeros (k : nat) : Py.all_digits (Py.repeat_char "0" k) = true.
Proof. by induction k. Qed.

Lemma str_first_digit (n : Z) :
  0 <= n -> exists c r, Py.str n = String c r /\ Py.is_digit c = true
                        /\ Py.all_digits r = true.
Proof.
  intros Hn. destruct (str_nonneg n Hn) as [Hd Hlen].
  destruct (Py.str n) as [|c r]; [cbn in Hlen; lia|]. cbn in Hd.
  apply andb_true_iff in Hd as [Hc Hr]. by exists c, r.
Qed.

(** [str(n).zfill(padding)] is a numeral, and it denotes [n]. *)
Lemma zfill_numeral (n padding : Z) :
  Props.numeral (Py.zfill (Py.str n) padding) = true
  /\ Props.numeral_value (Py.zfill (Py.str n) padding) = n.
Proof.
  assert (Hplain : forall m k, 0 <= m ->
            Props.numeral (Py.repeat_char "0" k +:+ Py.str m) = true
            /\ Props.numeral_value (Py.repeat_char "0" k +:+ Py.str m) = m
            /\ Py.isdigit (Py.repeat_char "0" k +:+ Py.str m) = true
            /\ Py.int_of_digits 0 (Py.repeat_char "0" k +:+ Py.str m) = m).
  { intros m k Hm. destruct (str_first_digit m Hm) as (c & r & Hstr & Hc & Hr).
    assert (Hval : Py.int_of_digits 0 (Py.repeat_char "0" k +:+ Py.str m) = m)
      by (by rewrite int_of_digits_zeros, int_of_digits_str).
    assert (Hall : Py.all_digits (Py.repeat_char "0" k +:+ Py.str m) = true)
      by (rewrite all_digits_app, all_digits_zeros; by apply str_nonneg).
    destruct (Py.repeat_char "0" k +:+ Py.str m) as [|c' r'] eqn:E.
    { destruct k; [cbn in E; by rewrite Hstr in E|done]. }
    unfold Props.numeral, Props.numeral_value, Py.isdigit.
    cbn in Hall. apply andb_true_iff in Hall as [Hc' Hr'].
    destruct (digit_not_punctuation c' Hc') as [-> _]. cbn. by rewrite Hc', Hr'. }
  destruct (Z_lt_le_dec n 0) as [Hneg|Hpos].
  - rewrite (str_negative n Hneg). change ("-" +:+ Py.str (Z.abs n)) with (String "-" (Py.str (Z.abs n))).
    unfold Py.zfill. destruct (Z.leb_spec padding (Py.len (String "-" (Py.str (Z.abs n))))).
    + destruct (Hplain (Z.abs n) O) as (_ & _ & Hd & Hv); [lia|].
      change (Py.repeat_char "0" 0 +:+ Py.str (Z.abs n)) with (Py.str (Z.abs n)) in *.
      unfold Props.numeral, Props.numeral_value. cbn [Ascii.eqb Bool.eqb]. cbv iota.
      split; [done|]. rewrite Hv. lia.
    + change (Py.is_sign "-") with true. cbv iota.
      destruct (Hplain (Z.abs n) (Z.to_nat (padding - Py.len (String "-" (Py.str (Z.abs n))))))
        as (_ & _ & Hd & Hv); [lia|].
      unfold Props.numeral, Props.numeral_value. cbn [Ascii.eqb Bool.eqb]. cbv iota.
      split; [done|]. rewrite Hv. lia.
  - destruct (str_first_digit n Hpos) as (c & r & Hstr & Hc & Hr).
    unfold Py.zfill. destruct (Z.leb_spec padding (Py.len (Py.str n))).
    + destruct (Hplain n O Hpos) as (H1 & H2 & _). done.
    + destruct (Hplain n (Z.to_nat (padding - Py.len (Py.str n))) Hpos) as (H1 & H2 & _).
      rewrite Hstr in *. destruct (digit_plain c Hc) as (_ & _ & -> & _). done.
Qed.

Lemma zfill_str_inj (n m padding : Z) :
  Py.zfill (Py.str n) padding = Py.zfill (Py.str m) padding -> n = m.
Proof.
  intros H. destruct (zfill_numeral n padding) as [_ <-].
  destruct (zfill_numeral m padding) as [_ <-]. by rewrite H.
Qed.

(** ** Extensions *)

Lemma char_free_app (c : ascii) (s t : string) :
  Props.char_free c (s +:+ t) = (Props.char_free c s && Props.char_free c t)%bool.
Proof.
  induction s as [|a s IH]; [done|]. rewrite app_cons. cbn [Props.char_free].
  by rewrite IH, andb_assoc.
Qed.

Lemma all_char_app (c : ascii) (s t : string) :
  PosixPath.all_char c (s +:+ t) = (PosixPath.all_char c s && PosixPath.all_char c t)%bool.
Proof.
  induction s as [|a s IH]; [done|]. rewrite app_cons. cbn [PosixPath.all_char].
  by rewrite IH, andb_assoc.
Qed.

Lemma rsplit_at_free (c : ascii) (s : string) :
  Props.char_free c s = true <-> PosixPath.rsplit_at c s = None.
Proof.
  induction s as [|a s IH]; [done|]. cbn [Props.char_free PosixPath.rsplit_at].
  destruct (PosixPath.rsplit_at c s) as [[h t]|].
  - split; [|done]. intros [_ H]%andb_true_iff. by apply IH in H.
  - destruct (Ascii.eqb a c); [done|]. cbn. split; [done|]. intros _. by apply IH.
Qed.

Lemma rcut_free (c : ascii) (s : string) :
  Props.char_free c s = true <-> PosixPath.rcut c s = None.
Proof.
  induction s as [|a s IH]; [done|]. cbn [Props.char_free PosixPath.rcut].
  destruct (PosixPath.rcut c s) as [[h t]|].
  - split; [|done]. intros [_ H]%andb_true_iff. by apply IH in H.
  - destruct (Ascii.eqb a c); [done|]. cbn. split; [done|]. intros _. by apply IH.
Qed.

Lemma rsplit_at_inv (c : ascii) (p h t : string) :
  PosixPath.rsplit_at c p = Some (h, t) -> p = h +:+ t /\ Props.char_free c t = true.
Proof.
  revert h. induction p as [|a p IH]; intros h; [done|]. cbn [PosixPath.rsplit_at].
  destruct (PosixPath.rsplit_at c p) as [[h' t']|] eqn:E.
  - intros [= <- <-]. destruct (IH h' eq_refl) as [-> Ht]. by rewrite app_cons.
  - destruct (Ascii.eqb a c); [|done]. intros [= <- <-]. split; [done|].
    by apply rsplit_at_free.
Qed.

Lemma rcut_inv (c : ascii) (p h e : string) :
  PosixPath.rcut c p = Some (h, e) ->
  p = h +:+ e /\ exists t, e = String c t /\ Props.char_free c t = true.
Proof.
  revert h. induction p as [|a p IH]; intros h; [done|]. cbn [PosixPath.rcut].
  destruct (PosixPath.rcut c p) as [[h' t']|] eqn:E.
  - intros [= <- <-]. destruct (IH h' eq_refl) as [-> Ht]. by rewrite app_cons.
  - destruct (Ascii.eqb_spec a c) as [->|]; [|done]. intros [= <- <-]. split; [done|].
    exists p. split; [done|]. by apply rcut_free.
Qed.

Lemma rsplit_at_app_free (c : ascii) (q x : string) :
  Props.char_free c x = true ->
  PosixPath.rsplit_at c (q +:+ x)
  = match PosixPath.rsplit_at c q with
    | Some (h, t) => Some (h, t +:+ x)
    | None => None
    end.
Proof.
  intros Hx. induction q as [|a q IH]; [by apply rsplit_at_free|].
  rewrite app_cons. cbn [PosixPath.rsplit_at]. rewrite IH.
  destruct (PosixPath.rsplit_at c q) as [[h t]|]; [done|].
  by destruct (Ascii.eqb a c).
Qed.

Lemma rcut_app_free (c : ascii) (q x : string) :
  Props.char_free c x = true ->
  PosixPath.rcut c (q +:+ x)
  = match PosixPath.rcut c q with
    | Some (h, t) => Some (h, t +:+ x)
    | None => None
    end.
Proof.
  intros Hx. induction q as [|a q IH]; [by apply rcut_free|].
  rewrite app_cons. cbn [PosixPath.rcut]. rewrite IH.
  destruct (PosixPath.rcut c q) as [[h t]|]; [done|].
  by destruct (Ascii.eqb a c).
Qed.

Lemma rcut_last (c : ascii) (s t : string) :
  Props.char_free c t = true ->
  PosixPath.rcut c (s +:+ String c t) = Some (s, String c t).
Proof.
  intros Ht. induction s as [|a s IH].
  - change ("" +:+ String c t) with (String c t). cbn [PosixPath.rcut].
    apply rcut_free in Ht. by rewrite Ht, Ascii.eqb_refl.
  - rewrite app_cons. cbn [PosixPath.rcut]. by rewrite IH.
Qed.

Lemma split_raw_inv (p : string) :
  p = fst (PosixPath.split_raw p) +:+ snd (PosixPath.split_raw p)
  /\ Props.char_free "/" (snd (PosixPath.split_raw p)) = true.
Proof.
  unfold PosixPath.split_raw.
  destruct (PosixPath.rsplit_at PosixPath.sep p) as [[h t]|] eqn:E.
  - by apply rsplit_at_inv in E.
  - split; [done|]. by apply rsplit_at_free.
Qed.

Lemma split_raw_app_free (q x : string) :
  Props.char_free "/" x = true ->
  PosixPath.split_raw (q +:+ x)
  = (fst (PosixPath.split_raw q), snd (PosixPath.split_raw q) +:+ x).
Proof.
  intros Hx. unfold PosixPath.split_raw. change PosixPath.sep with "/"%char.
  rewrite (rsplit_at_app_free _ _ _ Hx).
  by destruct (PosixPath.rsplit_at "/" q) as [[h t]|].
Qed.

(** What [os.path.splitext] returns: the two parts make up the path, the
    second is an extension, and a path with an extension has a stem. *)
Lemma splitext_inv (p : string) :
  p = fst (PosixPath.splitext p) +:+ snd (PosixPath.splitext p)
  /\ Props.extension (snd (PosixPath.splitext p)) = true
  /\ (Py.truthy (snd (PosixPath.splitext p)) = true ->
      Py.truthy (fst (PosixPath.splitext p)) = true).
Proof.
  unfold PosixPath.splitext. destruct (split_raw_inv p) as [Hp Hfile].
  destruct (PosixPath.split_raw p) as [head file]. cbn [fst snd] in Hp, Hfile.
  destruct (PosixPath.rcut PosixPath.extsep file) as [[stem ext]|] eqn:E;
    [|cbn; by rewrite app_nil_r].
  destruct (PosixPath.all_char PosixPath.extsep stem) eqn:Hdots;
    [cbn; by rewrite app_nil_r|].
  cbn [fst snd]. apply rcut_inv in E as [-> (t & -> & Ht)].
  split; [by rewrite app_assoc|].
  rewrite !char_free_app in Hfile. cbn [Props.char_free] in Hfile.
  apply andb_true_iff in Hfile as [_ [_ Hsep]%andb_true_iff].
  split.
  - unfold Props.extension, PosixPath.extsep in *. by rewrite Ascii.eqb_refl, Ht, Hsep.
  - intros _. destruct stem; [done|]. by destruct head.
Qed.

(** Text without dot and separator that is put after a path goes to the
    extension of the path, if it has one. *)
Lemma splitext_app_free (q x : string) :
  Props.char_free "." x = true -> Props.char_free "/" x = true ->
  PosixPath.splitext (q +:+ x)
  = if Py.truthy (snd (PosixPath.splitext q))
    then (fst (PosixPath.splitext q), snd (PosixPath.splitext q) +:+ x)
    else (q +:+ x, "").
Proof.
  intros Hdot Hsep. unfold PosixPath.splitext. rewrite (split_raw_app_free _ _ Hsep).
  destruct (PosixPath.split_raw q) as [head file]. cbn [fst snd].
  change PosixPath.extsep with "."%char. rewrite (rcut_app_free _ _ _ Hdot).
  destruct (PosixPath.rcut "." file) as [[stem ext]|] eqn:E; [|done].
  destruct (PosixPath.all_char "." stem); [done|].
  cbn [fst snd]. by rewrite (rcut_tail _ _ _ _ E).
Qed.

(** An extension that is put after a path whose last component is not made
    of dots is the extension of the result. *)
Lemma splitext_app_ext (p t : string) :
  PosixPath.all_char "." (snd (PosixPath.split_raw p)) = false ->
  Props.char_free "." t = true -> Props.char_free "/" t = true ->
  PosixPath.splitext (p +:+ String "." t) = (p, String "." t).
Proof.
  intros Hstem Hdot Hsep. unfold PosixPath.splitext.
  rewrite split_raw_app_free by (cbn; by rewrite Hsep).
  destruct (split_raw_inv p) as [Hp _].
  destruct (PosixPath.split_raw p) as [head file]. cbn [fst snd] in *.
  change PosixPath.extsep with "."%char. rewrite (rcut_last _ _ _ Hdot).
  rewrite Hstem. by rewrite <- Hp.
Qed.

Lemma digits_free (c : ascii) (s : string) :
  Py.all_digits s = true -> Py.is_digit c = false -> Props.char_free c s = true.
Proof.
  intros Hs Hc. induction s as [|a s IH]; [done|]. cbn in Hs |- *.
  apply andb_true_iff in Hs as [Ha Hs]. rewrite (IH Hs), andb_true_r.
  apply negb_true_iff, Ascii.eqb_neq. intros ->. congruence.
Qed.

(** A numeral holds no dot and no separator, and does not consist of
    dots. *)
Lemma numeral_plain (n : string) :
  Props.numeral n = true ->
  Props.char_free "." n = true /\ Props.char_free "/" n = true
  /\ PosixPath.all_char "." n = false /\ Py.startswith n "/" = false.
Proof.
  destruct n as [|c r]; [done|]. unfold Props.numeral.
  destruct (Ascii.eqb_spec c "-") as [->|Hc].
  - intros [Hr _]%isdigit_inv. cbn.
    by rewrite (digits_free "." r Hr), (digits_free "/" r Hr).
  - intros [Hr _]%isdigit_inv. rewrite (digits_free "." _ Hr), (digits_free "/" _ Hr) by done.
    cbn in Hr. apply andb_true_iff in Hr as [Hd _].
    destruct (digit_not_punctuation c Hd) as (_ & Hdot & Hsep & _).
    cbn [PosixPath.all_char Py.startswith].
    by rewrite Hdot, (Ascii.eqb_sym "/" c), Hsep.
Qed.

Lemma extension_no_digit (e : string) :
  Props.extension e = true -> Props.no_digit_ahead e = true.
Proof.
  destruct e as [|c t]; [done|]. cbn.
  intros [[->%Ascii.eqb_eq _]%andb_true_iff _]%andb_true_iff. done.
Qed.

(** ** Numbering without pattern *)

Lemma next_free_name_shape (w : Os.world) (d c : string) :
  RenameImages.next_free_name w d c = c
  \/ exists i : Z, 1 <= i
       /\ RenameImages.next_free_name w d c
          = RenameImages.suffixed (fst (PosixPath.splitext c)) i (snd (PosixPath.splitext c)).
Proof.
  unfold RenameImages.next_free_name. destruct (PosixPath.splitext c) as [base ext].
  destruct (negb _); [by left|].
  destruct (RenameImages.probe _ _ _ _ _ _) as [r|] eqn:P; [|by left].
  apply probe_some in P as (k & _ & -> & _). right. exists (1 + Z.of_nat k).
  split; [lia|done].
Qed.

(** The resolver keeps the first character of the candidate. *)
Lemma next_free_name_absolute (w : Os.world) (d c : string) :
  Py.startswith (RenameImages.next_free_name w d c) "/" = Py.startswith c "/".
Proof.
  destruct (next_free_name_shape w d c) as [->|(i & _ & ->)]; [done|].
  destruct (splitext_inv c) as (Hc & Hext & Hstem).
  destruct (PosixPath.splitext c) as [base ext]. cbn [fst snd] in *.
  unfold RenameImages.suffixed. destruct base as [|a base].
  - destruct ext; [by subst c|]. by specialize (Hstem eq_refl).
  - subst c. by rewrite !app_cons.
Qed.

Lemma join_inj (d x y : string) :
  Py.startswith x "/" = Py.startswith y "/" ->
  PosixPath.join d x = PosixPath.join d y -> x = y.
Proof.
  unfold PosixPath.join. intros <-. destruct (Py.startswith x "/"); [done|].
  destruct (negb (Py.truthy d) || Py.endswith d "/")%bool; intros H.
  - by apply app_inj_l in H.
  - apply app_inj_l in H. by apply app_inj_l in H.
Qed.

Lemma sequence_name_numbered (rt : Fmt.runtime) (prefix separator f : string)
    (padding n : Z) :
  RenameImages.sequence_name rt prefix padding separator None f n
  = Props.lead prefix separator +:+ Py.zfill (Py.str n) padding
      +:+ snd (PosixPath.splitext f).
Proof.
  unfold RenameImages.sequence_name, RenameImages.numbered, Props.lead.
  destruct (Py.truthy prefix); [|done]. by rewrite !app_assoc.
Qed.

(** The names that the resolver gives to a numbered candidate. *)
Lemma next_free_name_resolved (w : Os.world) (d q n e : string) :
  Props.numeral n = true -> Props.extension e = true ->
  Props.resolved q n e (RenameImages.next_free_name w d (q +:+ n +:+ e)).
Proof.
  intros Hn He. destruct (numeral_plain n Hn) as (Hdot & Hsep & Hdots & _).
  destruct (next_free_name_shape w d (q +:+ n +:+ e)) as [->|(i & Hi & ->)]; [by left|].
  right. unfold RenameImages.suffixed. destruct e as [|c t].
  - rewrite app_nil_r. rewrite (splitext_app_free q n Hdot Hsep).
    destruct (Py.truthy (snd (PosixPath.splitext q))) eqn:Hq; cbn [fst snd].
    + right. split; [done|]. split; [done|]. by exists i.
    + left. exists i. split; [done|]. by rewrite !app_assoc.
  - unfold Props.extension in He.
    apply andb_true_iff in He as [[->%Ascii.eqb_eq Ht]%andb_true_iff Ht'].
    rewrite <- (app_assoc q n). rewrite splitext_app_ext; [| |done..].
    + left. exists i. split; [done|]. cbn [fst snd]. by rewrite !app_assoc.
    + rewrite (split_raw_app_free q n Hsep). cbn [snd].
      by rewrite all_char_app, Hdots, andb_false_r.
Qed.

Lemma suffix_no_digit (s : string) : Props.no_digit_ahead ("_" +:+ s) = true.
Proof. done. Qed.

(** Two candidates with the same lead that resolve to the same name carry
    the same number. *)
Lemma resolved_inj (q n1 e1 n2 e2 name : string) :
  Props.numeral n1 = true -> Props.numeral n2 = true ->
  Props.extension e1 = true -> Props.extension e2 = true ->
  Props.resolved q n1 e1 name -> Props.resolved q n2 e2 name -> n1 = n2.
Proof.
  intros Hn1 Hn2 He1%extension_no_digit He2%extension_no_digit H1 H2.
  unfold Props.resolved in H1, H2. destruct (splitext_inv q) as (Hq & Hext & _).
  destruct (PosixPath.splitext q) as [base ext]. cbn [fst snd] in *.
  assert (Hclash : forall s t, Py.truthy ext = true ->
            q +:+ s = base +:+ "_" +:+ t -> False).
  { intros s t Hx H. rewrite Hq, app_assoc in H. apply app_inj_l in H.
    destruct ext as [|c ext]; [done|]. cbn in Hext.
    apply andb_true_iff in Hext as [[->%Ascii.eqb_eq _]%andb_true_iff _].
    rewrite app_cons in H. discriminate. }
  destruct H1 as [->|[(i1 & _ & ->)|(-> & Hx1 & i1 & Hi1 & ->)]];
    destruct H2 as [H|[(i2 & _ & H)|(-> & Hx2 & i2 & Hi2 & H)]].
  - apply app_inj_l in H. by apply numeral_app_inj in H as [? _].
  - apply app_inj_l in H.
    by apply numeral_app_inj in H as [? _]; [| | | |apply suffix_no_digit].
  - by apply Hclash in H.
  - apply app_inj_l in H.
    by apply numeral_app_inj in H as [? _]; [| | |apply suffix_no_digit|].
  - apply app_inj_l in H.
    by apply numeral_app_inj in H as [? _]; [| | |apply suffix_no_digit..].
  - by apply Hclash in H.
  - symmetry in H. by apply Hclash in H.
  - symmetry in H. by apply Hclash in H.
  - apply app_inj_l in H. change ("_" +:+ ?s) with (String "_" s) in H.
    injection H as H.
    assert (Hdot : Props.no_digit_ahead (ext +:+ n1) = true
                   /\ Props.no_digit_ahead (ext +:+ n2) = true).
    { destruct ext as [|c ext]; [done|]. cbn in Hext.
      apply andb_true_iff in Hext as [[->%Ascii.eqb_eq _]%andb_true_iff _]. done. }
    destruct Hdot as [Hd1 Hd2].
    apply digits_app_inj in H as [_ H]; [|by apply str_nonneg; lia..|done|done].
    by apply app_inj_l in H.
Qed.

Lemma plan_indices (rt : Fmt.runtime) (w : Os.world) (d prefix : string) (padding : Z)
    (separator : string) (pattern : option string) (files : list string) (n : Z)
    (a : Run.action) :
  In a (RenameImages.plan rt w d prefix padding separator pattern files n) ->
  exists f m,
    n <= m
    /\ snd a = PosixPath.join d
                 (RenameImages.next_free_name w d
                    (RenameImages.sequence_name rt prefix padding separator pattern f m)).
Proof.
  revert n. induction files as [|f files IH]; intros n; [intros []|].
  intros [<-|H].
  - exists f, n. split; [lia|done].
  - destruct (IH _ H) as (f' & m & Hm & Ha). exists f', m. split; [lia|done].
Qed.

Lemma lead_absolute (q n e : string) :
  Props.numeral n = true -> Py.startswith (q +:+ n +:+ e) "/" = Py.startswith q "/".
Proof.
  intros Hn. destruct q as [|a q]; [|by rewrite app_cons].
  destruct (numeral_plain n Hn) as (_ & _ & _ & Hsep).
  destruct n as [|c r]; [done|]. change ("" +:+ ?s) with s. rewrite app_cons.
  cbn [Py.startswith] in *. apply andb_false_iff in Hsep as [->|Hsep]; done.
Qed.

(** Without pattern, two files of a plan never get the same destination. *)
Lemma plan_numbered_distinct (rt : Fmt.runtime) (w : Os.world) (d prefix : string)
    (padding : Z) (separator : string) (files : list string) (n : Z) :
  List.NoDup (map snd (RenameImages.plan rt w d prefix padding separator None files n)).
Proof.
  revert n. induction files as [|f files IH]; intros n; [constructor|].
  cbn [RenameImages.plan map snd]. constructor; [|apply IH].
  intros [a [Ha Hin]]%in_map_iff.
  destruct (plan_indices _ _ _ _ _ _ _ _ _ _ Hin) as (f' & m & Hm & Hdst).
  rewrite Hdst in Ha. rewrite !sequence_name_numbered in Ha.
  destruct (zfill_numeral n padding) as [Hn _], (zfill_numeral m padding) as [Hm' _].
  destruct (splitext_inv f) as (_ & He & _), (splitext_inv f') as (_ & He' & _).
  apply join_inj in Ha;
    [|by rewrite !next_free_name_absolute, !lead_absolute].
  pose proof (next_free_name_resolved w d (Props.lead prefix separator) _ _ Hn He) as H1.
  pose proof (next_free_name_resolved w d (Props.lead prefix separator) _ _ Hm' He') as H2.
  rewrite Ha in H2.
  pose proof (resolved_inj _ _ _ _ _ _ Hn Hm' He He' H1 H2) as Heq.
  apply zfill_str_inj in Heq. lia.
Qed.

(** X16.  A run of [rename_sequence] without pattern never sends two files
    to one destination: the numbers differ, and neither the extension nor
    the suffix of the collision resolver can make up for the difference.
    With a pattern this fails (the pattern [x] names every file [x]). *)
Theorem numbered_destinations_distinct (rt : Fmt.runtime) (w : Os.world)
    (d prefix : string) (start padding : Z) (exts : list string) (dry_run : bool)
    (sort_by separator : string) (map_csv : option string) (results : list Run.action) :
  Run.result (RenameImages.rename_sequence rt w d prefix start padding exts dry_run
                sort_by separator None map_csv) = Run.Returned results ->
  List.NoDup (map snd results).
Proof.
  intros H. apply rename_sequence_returned in H as (files & _ & ->).
  apply plan_numbered_distinct.
Qed.

Lemma numbered_destinations_distinct_witness :
  List.NoDup (map snd [("/pics/a.png", "/pics/IMG_001.png");
                       ("/pics/b.png", "/pics/IMG_002.png")]).
Proof.
  apply (numbered_destinations_distinct Samples.no_runtime Samples.pics "/pics" "IMG" 1 3
           [".png"] true "name" "_" None).
  vm_compute. reflexivity.
Defined.

(** ** Literal text around a field *)

Lemma parse_text (pre rest : string) :
  Props.brace_free pre = true ->
  Fmt.parse Fmt.InText (pre +:+ rest)
  = match Fmt.parse Fmt.InText rest with
    | Some items => Some (Props.literals pre ++ items)
    | None => None
    end.
Proof.
  induction pre as [|c pre IH].
  { change ("" +:+ rest) with rest. by destruct (Fmt.parse Fmt.InText rest). }
  cbn [Props.brace_free]. intros [[Hc1 Hc2]%andb_true_iff Hs]%andb_true_iff.
  apply negb_true_iff in Hc1, Hc2. rewrite app_cons. cbn [Fmt.parse].
  rewrite Hc1, Hc2, (IH Hs). by destruct (Fmt.parse Fmt.InText rest).
Qed.

Lemma render_literals (rt : Fmt.runtime) (expand_spec : string -> option string) (n : Z)
    (pre : string) (items : list Fmt.item) :
  Fmt.render_items rt expand_spec n (Props.literals pre ++ items)
  = match Fmt.render_items rt expand_spec n items with
    | Some out => Some (pre +:+ out)
    | None => None
    end.
Proof.
  induction pre as [|c pre IH].
  { cbn [Props.literals app]. by destruct (Fmt.render_items rt expand_spec n items). }
  cbn [Props.literals app Fmt.render_items]. rewrite IH.
  by destruct (Fmt.render_items rt expand_spec n items).
Qed.

Lemma contains_app (sub pre s : string) :
  Py.contains sub s = true -> Py.contains sub (pre +:+ s) = true.
Proof.
  intros Hs. induction pre as [|c pre IH]; [done|]. rewrite app_cons.
  cbn [Py.contains]. rewrite IH. by destruct (Py.startswith _ sub).
Qed.

(** A pattern made of literal text around one zero-padded field. *)
Lemma format_padded_field (rt : Fmt.runtime) (pre post : string) (n w : Z) :
  0 <= w -> Props.brace_free pre = true -> Props.brace_free post = true ->
  Fmt.format rt (pre +:+ "{n:0" +:+ Py.str w +:+ "d}" +:+ post) n
  = Some (pre +:+ Py.zfill (Py.str n) w +:+ post).
Proof.
  intros Hw Hpre Hpost. unfold Fmt.format, Fmt.build_string.
  assert (Fmt.parse Fmt.InText ("{n:0" +:+ Py.str w +:+ "d}" +:+ post)
          = Some (Fmt.Field "n" None ("0" +:+ Py.str w +:+ "d") false
                    :: Props.literals post)) as Hfield.
  { change ("{n:0" +:+ Py.str w +:+ "d}" +:+ post)
      with (String "{" (String "n" (String ":" (String "0"
              (Py.str w +:+ "d" +:+ String "}" post))))).
    cbn [Fmt.parse Ascii.eqb Bool.eqb Fmt.snoc].
    change ("" +:+ "n") with "n". change ("" +:+ "0") with "0".
    rewrite <- app_assoc. rewrite parse_in_spec.
    - pose proof (parse_text post "" Hpost) as Hp. rewrite app_nil_r in Hp.
      rewrite Hp. cbn. by rewrite List.app_nil_r.
    - rewrite brace_free_app. apply andb_true_iff. split; [|reflexivity].
      apply all_digits_brace_free, str_nonneg, Hw. }
  rewrite (parse_text pre _ Hpre), Hfield, render_literals.
  cbn [Fmt.render_items].
  pose proof (render_literals rt (fun sp => match Fmt.parse Fmt.InText sp with
                                             | Some items =>
                                                 Fmt.render_items rt (fun _ => None) n items
                                             | None => None
                                             end) n post []) as Hr.
  rewrite List.app_nil_r in Hr. cbn [Fmt.render_items] in Hr. rewrite app_nil_r in Hr.
  unfold Fmt.build_string. rewrite Hr.
  unfold Fmt.render_field. change (Fmt.field_name_split "n") with ("n", "").
  cbv beta iota. change (negb (String.eqb "n" "n")) with false. cbv iota.
  change ("0" +:+ Py.str w +:+ "d") with (String "0" (Py.str w +:+ "d")).
  unfold Fmt.format_int.
  change (String "0" (Py.str w +:+ "d")) with ("0" +:+ Py.str w +:+ "d").
  rewrite (parse_spec_zero_padded w Hw).
  cbn [Fmt.type Fmt.thousands]. change (Fmt.is_long_type "d") with true. cbv iota.
  by rewrite format_long_zero_padded.
Qed.

(** X18.  A pattern that is literal text around one field [{n:0Wd}] puts
    the index, padded with zeros to [W] digits, in the place of the field,
    in [rename_sequence] and in [render_name] alike; the source extension
    is added when the result has none. *)
Theorem pattern_zero_padded (rt : Fmt.runtime) (prefix separator pre post f src_ext : string)
    (padding n w : Z) :
  0 <= w -> Props.brace_free pre = true -> Props.brace_free post = true ->
  let pattern := pre +:+ "{n:0" +:+ Py.str w +:+ "d}" +:+ post in
  RenameImages.sequence_name rt prefix padding separator (Some pattern) f n
  = Props.with_ext (pre +:+ Py.zfill (Py.str n) w +:+ post) (snd (PosixPath.splitext f))
  /\ GuiRename.render_name rt pattern n src_ext
     = Props.with_ext (pre +:+ Py.zfill (Py.str n) w +:+ post) src_ext.
Proof.
  intros Hw Hpre Hpost pattern.
  pose proof (format_padded_field rt pre post n w Hw Hpre Hpost) as Hformat.
  fold pattern in Hformat. split.
  - unfold RenameImages.sequence_name. rewrite Hformat.
    assert (Py.truthy pattern = true) as ->; [|done].
    subst pattern. by destruct pre.
  - unfold GuiRename.render_name. rewrite Hformat.
    assert (Py.contains "{n" pattern = true) as ->; [|by rewrite with_ext_negb].
    by apply contains_app.
Qed.

Lemma pattern_zero_padded_witness :
  let pattern := "img_" +:+ "{n:0" +:+ Py.str 3 +:+ "d}" +:+ "_x" in
  RenameImages.sequence_name Samples.no_runtime "IMG" 2 "_" (Some pattern) "a.png" 7
  = Props.with_ext ("img_" +:+ Py.zfill (Py.str 7) 3 +:+ "_x")
      (snd (PosixPath.splitext "a.png"))
  /\ GuiRename.render_name Samples.no_runtime pattern 7 ".png"
     = Props.with_ext ("img_" +:+ Py.zfill (Py.str 7) 3 +:+ "_x") ".png".
Proof.
  apply (pattern_zero_padded Samples.no_runtime "IMG" "_" "img_" "_x" "a.png" ".png" 2 7 3);
    [lia|reflexivity|reflexivity].
Defined.

(** ** The folders that the window walks *)

Lemma startswith_length (s p : string) :
  Py.startswith s p = true -> (String.length p <= String.length s)%nat.
Proof.
  revert s. induction p as [|a p IH]; intros s; [cbn; lia|].
  destruct s as [|b s]; [done|]. cbn. intros [_ H]%andb_true_iff. apply IH in H. lia.
Qed.

Lemma startswith_app_l (s a b : string) :
  Py.startswith s (a +:+ b) = true -> Py.startswith s a = true.
Proof.
  revert s. induction a as [|c a IH]; intros s; [done|]. rewrite app_cons.
  destruct s as [|d s]; [done|]. cbn [Py.startswith].
  intros [-> H]%andb_true_iff. by rewrite (IH _ H).
Qed.

Lemma startswith_app_mono (a b p : string) :
  Py.startswith a p = true -> Py.startswith (a +:+ b) p = true.
Proof.
  intros H. apply startswith_inv in H. rewrite H, app_assoc. apply startswith_app.
Qed.

Lemma startswith_refl (s : string) : Py.startswith s s = true.
Proof. rewrite <- (app_nil_r s) at 1. apply startswith_app. Qed.

Lemma ends_with_sep (x name q : string) :
  x +:+ name = q +:+ "/" -> name <> "" -> Os.has_sep name = true.
Proof.
  revert q. induction x as [|c x IH]; intros q H Hname.
  - change ("" +:+ name) with name in H. subst name. by apply contains_app.
  - destruct q as [|c' q].
    + rewrite app_cons in H. injection H as _ H. destruct x; [|done].
      change ("" +:+ name) with name in H. by subst name.
    + rewrite !app_cons in H. injection H as _ H. by apply (IH q).
Qed.

(** The prefix for the entries of a directory that is listed in another. *)
Lemma dir_prefix_join (w : Os.world) (d name : string) (names : list string) :
  Os.listdir w d = Some names -> In name names ->
  PosixPath.join d name = Os.dir_prefix d +:+ name
  /\ Os.dir_prefix (PosixPath.join d name) = Os.dir_prefix d +:+ name +:+ "/".
Proof.
  intros Hlist Hin. destruct (listdir_In _ _ _ _ Hlist Hin) as [Hname Hsep].
  rewrite (join_relative d name Hsep). split; [done|]. unfold Os.dir_prefix at 1.
  assert (Py.truthy (Os.dir_prefix d +:+ name) = true) as ->.
  { destruct (Os.dir_prefix d); [|done]. by destruct name. }
  destruct (Py.endswith (Os.dir_prefix d +:+ name) "/") eqn:E; [|by rewrite app_assoc].
  apply endswith_inv in E as [q Hq]. apply ends_with_sep in Hq; [congruence|].
  by destruct name.
Qed.

Lemma filter_cons_bool {A : Type} (f : A -> bool) (x : A) (l : list A) :
  filter (fun y => f y) (x :: l)
  = if f x then x :: filter (fun y => f y) l else filter (fun y => f y) l.
Proof.
  destruct (f x) eqn:E.
  - apply filter_cons_True. by apply Is_true_true.
  - apply filter_cons_False. by apply Is_true_false.
Qed.

Lemma filter_length_lt {A : Type} (P Q : A -> bool) (l : list A) (x : A) :
  (forall y, P y = true -> Q y = true) ->
  In x l -> Q x = true -> P x = false ->
  (length (filter (fun y => P y) l) < length (filter (fun y => Q y) l))%nat.
Proof.
  intros HPQ. assert (Hle : forall l',
    (length (filter (fun y => P y) l') <= length (filter (fun y => Q y) l'))%nat).
  { induction l' as [|y l' IH]; [done|]. rewrite !filter_cons_bool.
    destruct (P y) eqn:HP; [rewrite (HPQ y HP)|destruct (Q y)]; cbn; lia. }
  induction l as [|y l IH]; [intros []|]. rewrite !filter_cons_bool.
  intros [->|Hin] HQ HP.
  - rewrite HP, HQ. cbn. specialize (Hle l). lia.
  - specialize (IH Hin HQ HP).
    destruct (P y) eqn:HPy; [rewrite (HPQ y HPy)|destruct (Q y)]; cbn; lia.
Qed.

(** Below a directory that is listed in another lie fewer entries. *)
Lemma under_child (w : Os.world) (top name : string) (names : list string) :
  Os.listdir w top = Some names -> In name names ->
  Os.isdir w (PosixPath.join top name) = true ->
  (Props.under w (PosixPath.join top name) < Props.under w top)%nat.
Proof.
  intros Hlist Hin Hdir. destruct (dir_prefix_join _ _ _ _ Hlist Hin) as [Hjoin Hprefix].
  unfold Props.under. rewrite Hprefix.
  assert (Hentry : exists nd, In (PosixPath.join top name, nd) (Os.entries w)).
  { unfold Os.isdir, Os.stat in Hdir.
    destruct (Os.find_entry (Os.entries w) (PosixPath.join top name)) as [nd|] eqn:E; [|done].
    exists nd. clear Hdir. induction (Os.entries w) as [|[q x] es IH]; [done|].
    cbn in E. destruct (String.eqb_spec q (PosixPath.join top name)) as [->|_].
    - injection E as ->. by left.
    - right. by apply IH. }
  destruct Hentry as [nd Hentry].
  apply (filter_length_lt
           (fun e => Py.startswith (fst e) (Os.dir_prefix top +:+ name +:+ "/"))
           (fun e => Py.startswith (fst e) (Os.dir_prefix top))
           _ (PosixPath.join top name, nd)); [|done|..].
  - intros e. apply startswith_app_l.
  - cbn [fst]. rewrite Hjoin. apply startswith_app.
  - cbn [fst]. rewrite Hjoin. destruct (Py.startswith _ _) eqn:E; [|done].
    apply startswith_length in E. rewrite <- app_assoc, !length_app in E. cbn in E. lia.
Qed.

Lemma flat_map_ext_in {A B : Type} (f g : A -> list B) (l : list A) :
  (forall x, In x l -> f x = g x) -> flat_map f l = flat_map g l.
Proof.
  induction l as [|x l IH]; [done|]. intros H. cbn.
  rewrite (H x (or_introl eq_refl)), IH; [done|]. intros y Hy. apply H. by right.
Qed.

Lemma in_filter {A : Type} (f : A -> bool) (l : list A) (x : A) :
  In x (filter (fun y => f y) l) <-> In x l /\ f x = true.
Proof.
  rewrite <- !list_elem_of_In, list_elem_of_filter, Is_true_true. tauto.
Qed.

(** The depth of [os.walk] is bounded by the number of entries below its
    top: with more fuel than that, the result does not depend on it. *)
Lemma walk_fuel (islink : string -> bool) (w : Os.world) (fuel fuel' : nat) (top : string) :
  (Props.under w top < fuel)%nat -> (Props.under w top < fuel')%nat ->
  GuiRename.walk islink w fuel top = GuiRename.walk islink w fuel' top.
Proof.
  revert fuel' top. induction fuel as [|fuel IH]; intros [|fuel'] top H1 H2; [lia..|].
  cbn [GuiRename.walk]. destruct (Os.listdir w top) as [names|] eqn:Hlist; [|done].
  f_equal. apply flat_map_ext_in. intros name [Hin Hdir]%in_filter.
  destruct (islink (PosixPath.join top name)); [done|].
  pose proof (under_child w top name names Hlist Hin Hdir). apply IH; lia.
Qed.

Lemma under_bound (w : Os.world) (p : string) :
  (Props.under w p < S (length (Os.entries w)))%nat.
Proof.
  unfold Props.under. generalize (Os.entries w). intros es.
  induction es as [|e es IH]; [cbn; lia|]. rewrite filter_cons_bool.
  destruct (Py.startswith _ _); cbn in *; lia.
Qed.

Lemma reached_trans (islink : string -> bool) (w : Os.world) (a b c : string) :
  Props.reached islink w a b -> Props.reached islink w b c -> Props.reached islink w a c.
Proof.
  intros Hab Hbc. induction Hbc as [|root name names _ IH Hlist Hin Hdir Hlink]; [done|].
  by eapply Props.reached_sub.
Qed.

(** The levels of the walk: directories walked from the top, with their
    entries that are no directories. *)
Lemma walk_levels (islink : string -> bool) (w : Os.world) (fuel : nat)
    (top root : string) (files : list string) :
  In (root, files) (GuiRename.walk islink w fuel top) ->
  Props.reached islink w top root
  /\ exists names,
       Os.listdir w root = Some names
       /\ files = filter (fun name => negb (Os.isdir w (PosixPath.join root name))) names.
Proof.
  revert top. induction fuel as [|fuel IH]; intros top; [intros []|].
  cbn [GuiRename.walk]. destruct (Os.listdir w top) as [names|] eqn:Hlist; [|intros []].
  intros [[= <- <-]|Hin].
  - split; [constructor|]. by exists names.
  - apply in_flat_map in Hin as (name & [Hname Hdir]%in_filter & Hin).
    destruct (islink (PosixPath.join top name)) eqn:Hlink; [destruct Hin|].
    destruct (IH _ Hin) as [Hreached Hfiles]. split; [|done].
    eapply reached_trans; [|exact Hreached].
    eapply Props.reached_sub; [constructor|exact Hlist|exact Hname|exact Hdir|exact Hlink].
Qed.

Lemma reached_prefix (islink : string -> bool) (w : Os.world) (top root : string) :
  Props.reached islink w top root ->
  Py.startswith (Os.dir_prefix root) (Os.dir_prefix top) = true.
Proof.
  induction 1 as [|root name names _ IH Hlist Hin Hdir Hlink]; [apply startswith_refl|].
  destruct (dir_prefix_join _ _ _ _ Hlist Hin) as [_ ->]. by apply startswith_app_mono.
Qed.

(** Every directory that is reached is a level of the walk. *)
Lemma walk_reached (islink : string -> bool) (w : Os.world) (top root : string) :
  Props.reached islink w top root ->
  forall fuel, (Props.under w top < fuel)%nat ->
  exists fuel', (Props.under w root < fuel')%nat
    /\ incl (GuiRename.walk islink w fuel' root) (GuiRename.walk islink w fuel top).
Proof.
  induction 1 as [|root name names _ IH Hlist Hin Hdir Hlink]; intros fuel Hfuel.
  - exists fuel. split; [done|]. apply incl_refl.
  - destruct (IH fuel Hfuel) as (fuel1 & Hfuel1 & Hincl).
    destruct fuel1 as [|fuel1]; [lia|]. exists fuel1.
    pose proof (under_child w root name names Hlist Hin Hdir). split; [lia|].
    intros level Hlevel. apply Hincl. cbn [GuiRename.walk]. rewrite Hlist. right.
    apply in_flat_map. exists name. split; [by apply in_filter|]. by rewrite Hlink.
Qed.

(** ** The files that [add_folder] selects *)

Lemma isfile_not_dir (w : Os.world) (p : string) :
  Os.isfile w p = true -> Os.isdir w p = false.
Proof. unfold Os.isfile, Os.isdir. by destruct (Os.stat w p) as [[]|]. Qed.

Lemma collect_sound (islink : string -> bool) (w : Os.world) (folder : string)
    (recursive : bool) (collected : list string) (p : string) :
  GuiRename.collect islink w folder recursive = Some collected -> In p collected ->
  Os.isdir w p = false
  /\ (recursive = false -> Os.isfile w p = true)
  /\ GuiRename.is_image_name (PosixPath.basename p) = true
  /\ Py.startswith p (Os.dir_prefix folder) = true.
Proof.
  unfold GuiRename.collect. destruct recursive.
  - intros [= <-] ([root files] & Hlevel & Hp)%in_flat_map. cbn [fst snd] in Hp.
    apply in_map_iff in Hp as (fn & <- & [Hfn Himage]%in_filter).
    apply (walk_levels islink w (S (length (Os.entries w))) folder) in Hlevel
      as (Hreached & names & Hlist & ->).
    apply in_filter in Hfn as [Hfn Hdir%negb_true_iff].
    destruct (listdir_In _ _ _ _ Hlist Hfn) as [_ Hsep].
    rewrite (basename_join _ _ Hsep).
    split; [done|]. split; [done|]. split; [done|]. rewrite (join_relative _ _ Hsep).
    by apply startswith_app_mono, (reached_prefix islink w).
  - destruct (Os.listdir w folder) as [names|] eqn:Hlist; [|done].
    intros [= <-] (fn & <- & [Hfn [Hfile Himage]%andb_true_iff]%in_filter)%in_map_iff.
    destruct (listdir_In _ _ _ _ Hlist Hfn) as [_ Hsep].
    rewrite (basename_join _ _ Hsep). split; [by apply isfile_not_dir|].
    split; [done|]. split; [done|].
    rewrite (join_relative _ _ Hsep). apply startswith_app.
Qed.

Lemma collect_complete (islink : string -> bool) (w : Os.world) (folder : string)
    (recursive : bool) (collected : list string) (root fn : string) (names : list string) :
  GuiRename.collect islink w folder recursive = Some collected ->
  Props.reached islink w folder root -> recursive = true \/ root = folder ->
  Os.listdir w root = Some names -> In fn names ->
  Os.isfile w (PosixPath.join root fn) = true -> GuiRename.is_image_name fn = true ->
  In (PosixPath.join root fn) collected.
Proof.
  unfold GuiRename.collect. intros Hcollect Hreached Hmode Hlist Hfn Hfile Himage.
  destruct recursive.
  - injection Hcollect as <-.
    destruct (walk_reached islink w folder root Hreached _ (under_bound w folder))
      as (fuel & Hfuel & Hincl).
    destruct fuel as [|fuel]; [lia|]. apply in_flat_map.
    exists (root, filter (fun name => negb (Os.isdir w (PosixPath.join root name))) names).
    split.
    + apply Hincl. cbn [GuiRename.walk]. rewrite Hlist. by left.
    + cbn [fst snd]. apply in_map, in_filter. split; [|done]. apply in_filter.
      split; [done|]. by rewrite (isfile_not_dir _ _ Hfile).
  - destruct Hmode as [Hrec| ->]; [done|]. rewrite Hlist in Hcollect. injection Hcollect as <-.
    apply in_map, in_filter. split; [done|]. by rewrite Hfile, Himage.
Qed.

Lemma add_files_added (paths fs : list string) :
  exists added,
    fold_left (fun fs p => if bool_decide (p ∈ fs) then fs else fs ++ [p]) paths fs
    = fs ++ added
    /\ incl added paths.
Proof.
  revert fs. induction paths as [|p paths IH]; intros fs; cbn.
  - exists []. split; [by rewrite List.app_nil_r|intros q []].
  - destruct (IH (if bool_decide (p ∈ fs) then fs else fs ++ [p])) as (added & -> & Hincl).
    case_bool_decide.
    + exists added. split; [done|]. by apply incl_tl.
    + exists (p :: added). split; [by rewrite <- List.app_assoc|].
      intros q [->|Hq]; [by left|right; by apply Hincl].
Qed.

(** What [add_folder] hands to the loop that extends the selection: the
    collected paths in another order. *)
Lemma add_folder_inv (islink : string -> bool) (w : Os.world) (g g' : GuiRename.gui)
    (folder : string) (recursive : bool) (sort_var : string) :
  GuiRename.add_folder islink w g folder recursive sort_var = Some g' ->
  Py.truthy folder = true ->
  exists collected sorted,
    GuiRename.collect islink w folder recursive = Some collected
    /\ (forall p, In p sorted <-> In p collected)
    /\ g' = GuiRename.add_files g sorted.
Proof.
  unfold GuiRename.add_folder. intros H Hfolder. rewrite Hfolder in H. cbn [negb] in H.
  destruct (GuiRename.collect islink w folder recursive) as [collected|]; [|done].
  exists collected. destruct (String.eqb sort_var "mtime").
  - destruct (mapM (Os.getmtime w) collected); [|done]. injection H as <-.
    eexists. split; [done|]. split; [|done]. intros p. apply sort_by_key_In.
  - injection H as <-. eexists. split; [done|]. split; [|done].
    intros p. apply sort_by_key_In.
Qed.

(** X19.  [add_folder] appends to the selection only paths that lie in the
    chosen folder, are no directories, and have a name that ends, in any
    case, with one of the six image extensions.  Without the box
    [Recursive] they are regular files; with it the code does not ask, and
    takes whatever the walk reports as no directory.  What was selected
    stays in front, and a selection without repetition stays so. *)
Theorem add_folder_sound (islink : string -> bool) (w : Os.world) (g g' : GuiRename.gui)
    (folder : string) (recursive : bool) (sort_var : string) :
  GuiRename.add_folder islink w g folder recursive sort_var = Some g' ->
  (List.NoDup (GuiRename.files g) -> List.NoDup (GuiRename.files g'))
  /\ exists added,
       GuiRename.files g' = GuiRename.files g ++ added
       /\ forall p, In p added ->
            Os.isdir w p = false
            /\ (recursive = false -> Os.isfile w p = true)
            /\ GuiRename.is_image_name (PosixPath.basename p) = true
            /\ Py.startswith p (Os.dir_prefix folder) = true.
Proof.
  intros H. destruct (Py.truthy folder) eqn:Hfolder.
  - destruct (add_folder_inv _ _ _ _ _ _ _ H Hfolder) as (collected & sorted & Hc & Hs & ->).
    split; [apply (add_files_fold sorted (GuiRename.files g))|].
    destruct (add_files_added sorted (GuiRename.files g)) as (added & Hadded & Hincl).
    exists added. split; [exact Hadded|]. intros p Hp.
    apply (collect_sound islink w folder recursive collected p Hc). by apply Hs, Hincl.
  - unfold GuiRename.add_folder in H. rewrite Hfolder in H. injection H as <-.
    split; [done|]. exists []. split; [by rewrite List.app_nil_r|intros p []].
Qed.

Lemma add_folder_sound_witness :
  let g := GuiRename.Gui ["/album/b.JPG"] "img_-n" 1 2 in
  let g' := GuiRename.Gui ["/album/b.JPG"; "/album/trip/a.png"] "img_-n" 1 2 in
  (List.NoDup (GuiRename.files g) -> List.NoDup (GuiRename.files g'))
  /\ exists added,
       GuiRename.files g' = GuiRename.files g ++ added
       /\ forall p, In p added ->
            Os.isdir Samples.album p = false
            /\ (true = false -> Os.isfile Samples.album p = true)
            /\ GuiRename.is_image_name (PosixPath.basename p) = true
            /\ Py.startswith p (Os.dir_prefix "/album") = true.
Proof.
  apply (add_folder_sound (fun _ => false) Samples.album
           (GuiRename.Gui ["/album/b.JPG"] "img_-n" 1 2)
           (GuiRename.Gui ["/album/b.JPG"; "/album/trip/a.png"] "img_-n" 1 2)
           "/album" true "name").
  vm_compute. reflexivity.
Defined.

(** X20.  [add_folder] misses no image: after it, the selection holds
    every regular file with an image extension that lies in the chosen
    folder, and with the box [Recursive] checked also those in the
    directories that the walk goes through, however deep: the directories
    that are listed, one in the other from the folder on, and are no
    links.  What lies below a link to a directory is not looked at. *)
Theorem add_folder_complete (islink : string -> bool) (w : Os.world)
    (g g' : GuiRename.gui) (folder : string) (recursive : bool)
    (sort_var root fn : string) (names : list string) :
  GuiRename.add_folder islink w g folder recursive sort_var = Some g' ->
  Py.truthy folder = true ->
  Props.reached islink w folder root -> recursive = true \/ root = folder ->
  Os.listdir w root = Some names -> In fn names ->
  Os.isfile w (PosixPath.join root fn) = true -> GuiRename.is_image_name fn = true ->
  In (PosixPath.join root fn) (GuiRename.files g').
Proof.
  intros H Hfolder Hreached Hmode Hlist Hfn Hfile Himage.
  destruct (add_folder_inv _ _ _ _ _ _ _ H Hfolder) as (collected & sorted & Hc & Hs & ->).
  apply (add_files_fold sorted (GuiRename.files g)). right. apply Hs.
  by apply (collect_complete islink w folder recursive collected root fn names).
Qed.

Lemma add_folder_complete_witness :
  In (PosixPath.join "/album/trip" "a.png")
     (GuiRename.files (GuiRename.Gui ["/album/trip/a.png"; "/album/b.JPG"] "img_-n" 1 2)).
Proof.
  apply (add_folder_complete (fun _ => false) Samples.album (GuiRename.Gui [] "img_-n" 1 2)
           (GuiRename.Gui ["/album/trip/a.png"; "/album/b.JPG"] "img_-n" 1 2)
           "/album" true "name" "/album/trip" "a.png" ["a.png"; "empty"]).
  - vm_compute. reflexivity.
  - reflexivity.
  - apply (Props.reached_sub (fun _ => false) Samples.album "/album" "/album" "trip"
             ["b.JPG"; "notes.txt"; "trip"]).
    + constructor.
    + vm_compute. reflexivity.
    + simpl. tauto.
    + reflexivity.
    + reflexivity.
  - left. reflexivity.
  - vm_compute. reflexivity.
  - simpl. tauto.
  - reflexivity.
  - reflexivity.
Defined.

(** When [trip] is a link to a directory, the walk lists it and leaves it
    aside: the image in it is not selected. *)
Example add_folder_skips_link :
  GuiRename.add_folder (fun p => String.eqb p "/album/trip") Samples.album
    (GuiRename.Gui [] "img_-n" 1 2) "/album" true "name"
  = Some (GuiRename.Gui ["/album/b.JPG"] "img_-n" 1 2).
Proof. vm_compute. reflexivity. Qed.
